(** * Action binding and input-state synchronisation of the OpenXR runtime

    A shallow embedding of [pimax-openxr/action.cpp]: the path interner, the
    action-set and action registry, the suggested-binding store, attachment,
    [xrSyncActions] with the controller rebinding, the four action-state
    queries and the haptics entry points.  The member variables of
    [OpenXrRuntime] become the fields of the record [Runtime]; every entry
    point is a function from the runtime state (and its arguments) to an
    [XrResult], its output parameters and the new runtime state. *)

From Stdlib Require Import ZArith String Floats.SpecFloat.
From stdpp Require Import gmap strings list fin_maps.

Open Scope Z_scope.

Set Warnings "-clear-no-such-hyp".


(** ** Scalars and handles *)

(** Handles ([XrPath], [XrInstance], [XrSession], [XrActionSet], [XrAction])
    are 64-bit integers; [XR_NULL_PATH] and [XR_NULL_HANDLE] are 0. *)
Abbreviation XrPath := Z (only parsing).
Abbreviation XrInstance := Z (only parsing).
Abbreviation XrSession := Z (only parsing).
Abbreviation XrActionSet := Z (only parsing).
Abbreviation XrAction := Z (only parsing).
Abbreviation XrTime := Z (only parsing).

Definition XR_NULL_PATH : Z := 0.
Definition XR_NULL_HANDLE : Z := 0.

(** Wrap-around of the unsigned 32-bit and 64-bit types. *)
Definition wrap32 (z : Z) : Z := z mod 2 ^ 32.
Definition wrap64 (z : Z) : Z := z mod 2 ^ 64.

(** C [float] values, as IEEE 754 data: zeros, infinities, NaN and finite
    numbers (canonical binary32 mantissa and exponent). *)
Abbreviation float := spec_float (only parsing).

(** [a != b] on floats: a NaN differs from everything, itself included, and
    the two zeros are equal. *)
Definition float_ne (a b : float) : bool := negb (SFeqb a b).

(** [a > b] on floats. *)
Definition float_gt (a b : float) : bool := SFltb b a.

Definition float_zero : float := S754_zero false.
Definition float_one : float := S754_finite false 8388608 (-23).

(** The literal [0.99f]: 0x3F7D70A4, that is 16609444 * 2^-24. *)
Definition float_0_99 : float := S754_finite false 16609444 (-24).

Inductive XrResult :=
| XR_SUCCESS
| XR_ERROR_VALIDATION_FAILURE
| XR_ERROR_RUNTIME_FAILURE
| XR_ERROR_HANDLE_INVALID
| XR_ERROR_PATH_INVALID
| XR_ERROR_SIZE_INSUFFICIENT
| XR_ERROR_ACTION_TYPE_MISMATCH
| XR_ERROR_ACTIONSET_NOT_ATTACHED
| XR_ERROR_ACTIONSETS_ALREADY_ATTACHED.

#[global] Instance XrResult_eq_dec : EqDecision XrResult.
Proof. solve_decision. Defined.

(** The structure type tags this file checks. *)
Inductive XrStructureType :=
| XR_TYPE_UNKNOWN
| XR_TYPE_HAPTIC_VIBRATION
| XR_TYPE_ACTION_STATE_BOOLEAN
| XR_TYPE_ACTION_STATE_FLOAT
| XR_TYPE_ACTION_STATE_VECTOR2F
| XR_TYPE_ACTION_STATE_POSE
| XR_TYPE_ACTION_SET_CREATE_INFO
| XR_TYPE_ACTION_CREATE_INFO
| XR_TYPE_INTERACTION_PROFILE_SUGGESTED_BINDING
| XR_TYPE_INTERACTION_PROFILE_STATE
| XR_TYPE_ACTION_STATE_GET_INFO
| XR_TYPE_HAPTIC_ACTION_INFO
| XR_TYPE_SESSION_ACTION_SETS_ATTACH_INFO
| XR_TYPE_ACTIONS_SYNC_INFO
| XR_TYPE_BOUND_SOURCES_FOR_ACTION_ENUMERATE_INFO
| XR_TYPE_INPUT_SOURCE_LOCALIZED_NAME_GET_INFO.

#[global] Instance XrStructureType_eq_dec : EqDecision XrStructureType.
Proof. solve_decision. Defined.

Inductive XrActionType :=
| XR_ACTION_TYPE_BOOLEAN_INPUT
| XR_ACTION_TYPE_FLOAT_INPUT
| XR_ACTION_TYPE_VECTOR2F_INPUT
| XR_ACTION_TYPE_POSE_INPUT
| XR_ACTION_TYPE_VIBRATION_OUTPUT.

#[global] Instance XrActionType_eq_dec : EqDecision XrActionType.
Proof. solve_decision. Defined.

(** ** String helpers *)

(** Modelled from the spec: [startsWith] and [endsWith] come from [utils.h],
    which is not part of this file; the spec describes them as a prefix test
    ("a path prefixed ...") and a suffix test ("to end in a fixed output
    suffix"). *)
Definition startsWith (str substr : string) : bool := String.prefix substr str.

Definition endsWith (str substr : string) : bool :=
  let n := String.length str in
  let m := String.length substr in
  if (m <=? n)%nat then String.eqb (String.substring (n - m) m str) substr else false.

Definition string_empty (s : string) : bool :=
  match s with EmptyString => true | String _ _ => false end.

(** Arrays of two elements indexed by the hand ([side] 0 is left, 1 is
    right). *)
Definition at_side {A : Type} (arr : A * A) (side : Z) : A :=
  if side =? 0 then arr.1 else arr.2.

Definition set_side {A : Type} (arr : A * A) (side : Z) (v : A) : A * A :=
  if side =? 0 then (v, arr.2) else (arr.1, v).

(** ** The cached hardware input state *)

Record pvrVector2f := { x : float; y : float }.

(** Modelled from the spec: [pvrInputState] is declared in the PVR SDK
    headers; its fields are the ones [xrSyncActions] logs.  The time stamp is
    kept already converted by [pvrTimeToXrTime] (a helper of [utils.h]). *)
Record pvrInputState := {
  TimeInSeconds : XrTime;
  HandButtons : Z * Z;
  HandTouches : Z * Z;
  Trigger : float * float;
  Grip : float * float;
  GripForce : float * float;
  JoyStick : pvrVector2f * pvrVector2f;
  TouchPad : pvrVector2f * pvrVector2f;
  TouchPadForce : float * float;
  fingerIndex : float * float;
  fingerMiddle : float * float;
  fingerRing : float * float;
  fingerPinky : float * float
}.

Definition pvrTimeToXrTime (t : XrTime) : XrTime := t.

(** The pointers an action holds into [m_cachedInputState]: which array the
    pointer designates.  A null pointer is [None]. *)
Inductive ButtonField := PtrHandButtons | PtrHandTouches.

Inductive FloatField :=
| PtrTrigger | PtrGrip | PtrGripForce | PtrTouchPadForce
| PtrFingerIndex | PtrFingerMiddle | PtrFingerRing | PtrFingerPinky.

Inductive Vector2fField := PtrJoyStick | PtrTouchPad.

Definition deref_button (st : pvrInputState) (p : ButtonField) (side : Z) : Z :=
  match p with
  | PtrHandButtons => at_side (HandButtons st) side
  | PtrHandTouches => at_side (HandTouches st) side
  end.

Definition deref_float (st : pvrInputState) (p : FloatField) (side : Z) : float :=
  match p with
  | PtrTrigger => at_side (Trigger st) side
  | PtrGrip => at_side (Grip st) side
  | PtrGripForce => at_side (GripForce st) side
  | PtrTouchPadForce => at_side (TouchPadForce st) side
  | PtrFingerIndex => at_side (fingerIndex st) side
  | PtrFingerMiddle => at_side (fingerMiddle st) side
  | PtrFingerRing => at_side (fingerRing st) side
  | PtrFingerPinky => at_side (fingerPinky st) side
  end.

Definition deref_vector2f (st : pvrInputState) (p : Vector2fField) (side : Z) : pvrVector2f :=
  match p with
  | PtrJoyStick => at_side (JoyStick st) side
  | PtrTouchPad => at_side (TouchPad st) side
  end.

(** ** Actions *)

(** Modelled from the spec: [struct Action] is declared in [runtime.h]; the
    fields are the ones this file reads and writes, the cached boolean is a
    [bool], and a fresh action has no binding and zero/false cached values. *)
Record Action := {
  type : XrActionType;
  actionSet : XrActionSet;
  lastFloatValue : float;
  lastFloatValueChangedTime : XrTime;
  lastVector2fValue : pvrVector2f;
  lastVector2fValueChangedTime : XrTime;
  lastBoolValue : bool;
  lastBoolValueChangedTime : XrTime;
  path : string;
  buttonMap : option ButtonField;
  buttonType : Z;
  floatValue : option FloatField;
  vector2fValue : option Vector2fField;
  vector2fIndex : Z
}.

Definition new_Action : Action := {|
  type := XR_ACTION_TYPE_BOOLEAN_INPUT;
  actionSet := 0;
  lastFloatValue := float_zero;
  lastFloatValueChangedTime := 0;
  lastVector2fValue := {| x := float_zero; y := float_zero |};
  lastVector2fValueChangedTime := 0;
  lastBoolValue := false;
  lastBoolValueChangedTime := 0;
  path := "";
  buttonMap := None;
  buttonType := 0;
  floatValue := None;
  vector2fValue := None;
  vector2fIndex := -1
|}.

Record XrActionSuggestedBinding := {
  action : XrAction;
  binding : XrPath
}.

(** The grip-to-aim transform of a hand: the identity, or a pitch of the given
    number of degrees with the translation (0, 0, -0.05). *)
Inductive XrPosef := PoseIdentity | PoseAim (pitchDegrees : Z).

(** ** The runtime state *)

(** The members of [OpenXrRuntime] this file uses.  [m_actions] holds the set
    of live action handles together with the heap object each handle points
    to: [xrCreateAction] allocates and inserts, [xrDestroyAction] deletes and
    erases, so the two always go together. *)
Record Runtime := {
  m_instanceCreated : bool;
  m_sessionCreated : bool;
  m_strings : gmap Z string;
  m_stringIndex : Z;
  m_actionSetIndex : Z;
  m_actionSets : gset Z;
  m_actions : gmap Z Action;
  m_suggestedBindings : gmap string (list XrActionSuggestedBinding);
  m_activeActionSets : gset Z;
  m_frameLatchedActionSets : gset Z;
  m_cachedInputState : pvrInputState;
  m_isControllerActive : bool * bool;
  m_cachedControllerType : string * string;
  m_localizedControllerType : string * string;
  m_currentInteractionProfile : Z * Z;
  m_controllerAimPose : XrPosef * XrPosef;
  m_currentInteractionProfileDirty : bool
}.

(** Assignment to one member. *)
Definition set_m_strings (v : gmap Z string) (rt : Runtime) : Runtime :=
  {| m_instanceCreated := m_instanceCreated rt; m_sessionCreated :=
     m_sessionCreated rt; m_strings := v; m_stringIndex := m_stringIndex rt;
     m_actionSetIndex := m_actionSetIndex rt; m_actionSets := m_actionSets rt;
     m_actions := m_actions rt; m_suggestedBindings := m_suggestedBindings rt;
     m_activeActionSets := m_activeActionSets rt; m_frameLatchedActionSets :=
     m_frameLatchedActionSets rt; m_cachedInputState := m_cachedInputState rt;
     m_isControllerActive := m_isControllerActive rt; m_cachedControllerType
     := m_cachedControllerType rt; m_localizedControllerType :=
     m_localizedControllerType rt; m_currentInteractionProfile :=
     m_currentInteractionProfile rt; m_controllerAimPose :=
     m_controllerAimPose rt; m_currentInteractionProfileDirty :=
     m_currentInteractionProfileDirty rt |}.

Definition set_m_stringIndex (v : Z) (rt : Runtime) : Runtime :=
  {| m_instanceCreated := m_instanceCreated rt; m_sessionCreated :=
     m_sessionCreated rt; m_strings := m_strings rt; m_stringIndex := v;
     m_actionSetIndex := m_actionSetIndex rt; m_actionSets := m_actionSets rt;
     m_actions := m_actions rt; m_suggestedBindings := m_suggestedBindings rt;
     m_activeActionSets := m_activeActionSets rt; m_frameLatchedActionSets :=
     m_frameLatchedActionSets rt; m_cachedInputState := m_cachedInputState rt;
     m_isControllerActive := m_isControllerActive rt; m_cachedControllerType
     := m_cachedControllerType rt; m_localizedControllerType :=
     m_localizedControllerType rt; m_currentInteractionProfile :=
     m_currentInteractionProfile rt; m_controllerAimPose :=
     m_controllerAimPose rt; m_currentInteractionProfileDirty :=
     m_currentInteractionProfileDirty rt |}.

Definition set_m_actionSetIndex (v : Z) (rt : Runtime) : Runtime :=
  {| m_instanceCreated := m_instanceCreated rt; m_sessionCreated :=
     m_sessionCreated rt; m_strings := m_strings rt; m_stringIndex :=
     m_stringIndex rt; m_actionSetIndex := v; m_actionSets := m_actionSets rt;
     m_actions := m_actions rt; m_suggestedBindings := m_suggestedBindings rt;
     m_activeActionSets := m_activeActionSets rt; m_frameLatchedActionSets :=
     m_frameLatchedActionSets rt; m_cachedInputState := m_cachedInputState rt;
     m_isControllerActive := m_isControllerActive rt; m_cachedControllerType
     := m_cachedControllerType rt; m_localizedControllerType :=
     m_localizedControllerType rt; m_currentInteractionProfile :=
     m_currentInteractionProfile rt; m_controllerAimPose :=
     m_controllerAimPose rt; m_currentInteractionProfileDirty :=
     m_currentInteractionProfileDirty rt |}.

Definition set_m_actionSets (v : gset Z) (rt : Runtime) : Runtime :=
  {| m_instanceCreated := m_instanceCreated rt; m_sessionCreated :=
     m_sessionCreated rt; m_strings := m_strings rt; m_stringIndex :=
     m_stringIndex rt; m_actionSetIndex := m_actionSetIndex rt; m_actionSets
     := v; m_actions := m_actions rt; m_suggestedBindings :=
     m_suggestedBindings rt; m_activeActionSets := m_activeActionSets rt;
     m_frameLatchedActionSets := m_frameLatchedActionSets rt;
     m_cachedInputState := m_cachedInputState rt; m_isControllerActive :=
     m_isControllerActive rt; m_cachedControllerType := m_cachedControllerType
     rt; m_localizedControllerType := m_localizedControllerType rt;
     m_currentInteractionProfile := m_currentInteractionProfile rt;
     m_controllerAimPose := m_controllerAimPose rt;
     m_currentInteractionProfileDirty := m_currentInteractionProfileDirty rt
     |}.

Definition set_m_actions (v : gmap Z Action) (rt : Runtime) : Runtime :=
  {| m_instanceCreated := m_instanceCreated rt; m_sessionCreated :=
     m_sessionCreated rt; m_strings := m_strings rt; m_stringIndex :=
     m_stringIndex rt; m_actionSetIndex := m_actionSetIndex rt; m_actionSets
     := m_actionSets rt; m_actions := v; m_suggestedBindings :=
     m_suggestedBindings rt; m_activeActionSets := m_activeActionSets rt;
     m_frameLatchedActionSets := m_frameLatchedActionSets rt;
     m_cachedInputState := m_cachedInputState rt; m_isControllerActive :=
     m_isControllerActive rt; m_cachedControllerType := m_cachedControllerType
     rt; m_localizedControllerType := m_localizedControllerType rt;
     m_currentInteractionProfile := m_currentInteractionProfile rt;
     m_controllerAimPose := m_controllerAimPose rt;
     m_currentInteractionProfileDirty := m_currentInteractionProfileDirty rt
     |}.

Definition set_m_suggestedBindings (v : gmap string (list XrActionSuggestedBinding)) (rt : Runtime) : Runtime :=
  {| m_instanceCreated := m_instanceCreated rt; m_sessionCreated :=
     m_sessionCreated rt; m_strings := m_strings rt; m_stringIndex :=
     m_stringIndex rt; m_actionSetIndex := m_actionSetIndex rt; m_actionSets
     := m_actionSets rt; m_actions := m_actions rt; m_suggestedBindings := v;
     m_activeActionSets := m_activeActionSets rt; m_frameLatchedActionSets :=
     m_frameLatchedActionSets rt; m_cachedInputState := m_cachedInputState rt;
     m_isControllerActive := m_isControllerActive rt; m_cachedControllerType
     := m_cachedControllerType rt; m_localizedControllerType :=
     m_localizedControllerType rt; m_currentInteractionProfile :=
     m_currentInteractionProfile rt; m_controllerAimPose :=
     m_controllerAimPose rt; m_currentInteractionProfileDirty :=
     m_currentInteractionProfileDirty rt |}.

Definition set_m_activeActionSets (v : gset Z) (rt : Runtime) : Runtime :=
  {| m_instanceCreated := m_instanceCreated rt; m_sessionCreated :=
     m_sessionCreated rt; m_strings := m_strings rt; m_stringIndex :=
     m_stringIndex rt; m_actionSetIndex := m_actionSetIndex rt; m_actionSets
     := m_actionSets rt; m_actions := m_actions rt; m_suggestedBindings :=
     m_suggestedBindings rt; m_activeActionSets := v; m_frameLatchedActionSets
     := m_frameLatchedActionSets rt; m_cachedInputState := m_cachedInputState
     rt; m_isControllerActive := m_isControllerActive rt;
     m_cachedControllerType := m_cachedControllerType rt;
     m_localizedControllerType := m_localizedControllerType rt;
     m_currentInteractionProfile := m_currentInteractionProfile rt;
     m_controllerAimPose := m_controllerAimPose rt;
     m_currentInteractionProfileDirty := m_currentInteractionProfileDirty rt
     |}.

Definition set_m_frameLatchedActionSets (v : gset Z) (rt : Runtime) : Runtime :=
  {| m_instanceCreated := m_instanceCreated rt; m_sessionCreated :=
     m_sessionCreated rt; m_strings := m_strings rt; m_stringIndex :=
     m_stringIndex rt; m_actionSetIndex := m_actionSetIndex rt; m_actionSets
     := m_actionSets rt; m_actions := m_actions rt; m_suggestedBindings :=
     m_suggestedBindings rt; m_activeActionSets := m_activeActionSets rt;
     m_frameLatchedActionSets := v; m_cachedInputState := m_cachedInputState
     rt; m_isControllerActive := m_isControllerActive rt;
     m_cachedControllerType := m_cachedControllerType rt;
     m_localizedControllerType := m_localizedControllerType rt;
     m_currentInteractionProfile := m_currentInteractionProfile rt;
     m_controllerAimPose := m_controllerAimPose rt;
     m_currentInteractionProfileDirty := m_currentInteractionProfileDirty rt
     |}.

Definition set_m_cachedInputState (v : pvrInputState) (rt : Runtime) : Runtime :=
  {| m_instanceCreated := m_instanceCreated rt; m_sessionCreated :=
     m_sessionCreated rt; m_strings := m_strings rt; m_stringIndex :=
     m_stringIndex rt; m_actionSetIndex := m_actionSetIndex rt; m_actionSets
     := m_actionSets rt; m_actions := m_actions rt; m_suggestedBindings :=
     m_suggestedBindings rt; m_activeActionSets := m_activeActionSets rt;
     m_frameLatchedActionSets := m_frameLatchedActionSets rt;
     m_cachedInputState := v; m_isControllerActive := m_isControllerActive rt;
     m_cachedControllerType := m_cachedControllerType rt;
     m_localizedControllerType := m_localizedControllerType rt;
     m_currentInteractionProfile := m_currentInteractionProfile rt;
     m_controllerAimPose := m_controllerAimPose rt;
     m_currentInteractionProfileDirty := m_currentInteractionProfileDirty rt
     |}.

Definition set_m_isControllerActive (v : bool * bool) (rt : Runtime) : Runtime :=
  {| m_instanceCreated := m_instanceCreated rt; m_sessionCreated :=
     m_sessionCreated rt; m_strings := m_strings rt; m_stringIndex :=
     m_stringIndex rt; m_actionSetIndex := m_actionSetIndex rt; m_actionSets
     := m_actionSets rt; m_actions := m_actions rt; m_suggestedBindings :=
     m_suggestedBindings rt; m_activeActionSets := m_activeActionSets rt;
     m_frameLatchedActionSets := m_frameLatchedActionSets rt;
     m_cachedInputState := m_cachedInputState rt; m_isControllerActive := v;
     m_cachedControllerType := m_cachedControllerType rt;
     m_localizedControllerType := m_localizedControllerType rt;
     m_currentInteractionProfile := m_currentInteractionProfile rt;
     m_controllerAimPose := m_controllerAimPose rt;
     m_currentInteractionProfileDirty := m_currentInteractionProfileDirty rt
     |}.

Definition set_m_cachedControllerType (v : string * string) (rt : Runtime) : Runtime :=
  {| m_instanceCreated := m_instanceCreated rt; m_sessionCreated :=
     m_sessionCreated rt; m_strings := m_strings rt; m_stringIndex :=
     m_stringIndex rt; m_actionSetIndex := m_actionSetIndex rt; m_actionSets
     := m_actionSets rt; m_actions := m_actions rt; m_suggestedBindings :=
     m_suggestedBindings rt; m_activeActionSets := m_activeActionSets rt;
     m_frameLatchedActionSets := m_frameLatchedActionSets rt;
     m_cachedInputState := m_cachedInputState rt; m_isControllerActive :=
     m_isControllerActive rt; m_cachedControllerType := v;
     m_localizedControllerType := m_localizedControllerType rt;
     m_currentInteractionProfile := m_currentInteractionProfile rt;
     m_controllerAimPose := m_controllerAimPose rt;
     m_currentInteractionProfileDirty := m_currentInteractionProfileDirty rt
     |}.

Definition set_m_localizedControllerType (v : string * string) (rt : Runtime) : Runtime :=
  {| m_instanceCreated := m_instanceCreated rt; m_sessionCreated :=
     m_sessionCreated rt; m_strings := m_strings rt; m_stringIndex :=
     m_stringIndex rt; m_actionSetIndex := m_actionSetIndex rt; m_actionSets
     := m_actionSets rt; m_actions := m_actions rt; m_suggestedBindings :=
     m_suggestedBindings rt; m_activeActionSets := m_activeActionSets rt;
     m_frameLatchedActionSets := m_frameLatchedActionSets rt;
     m_cachedInputState := m_cachedInputState rt; m_isControllerActive :=
     m_isControllerActive rt; m_cachedControllerType := m_cachedControllerType
     rt; m_localizedControllerType := v; m_currentInteractionProfile :=
     m_currentInteractionProfile rt; m_controllerAimPose :=
     m_controllerAimPose rt; m_currentInteractionProfileDirty :=
     m_currentInteractionProfileDirty rt |}.

Definition set_m_currentInteractionProfile (v : Z * Z) (rt : Runtime) : Runtime :=
  {| m_instanceCreated := m_instanceCreated rt; m_sessionCreated :=
     m_sessionCreated rt; m_strings := m_strings rt; m_stringIndex :=
     m_stringIndex rt; m_actionSetIndex := m_actionSetIndex rt; m_actionSets
     := m_actionSets rt; m_actions := m_actions rt; m_suggestedBindings :=
     m_suggestedBindings rt; m_activeActionSets := m_activeActionSets rt;
     m_frameLatchedActionSets := m_frameLatchedActionSets rt;
     m_cachedInputState := m_cachedInputState rt; m_isControllerActive :=
     m_isControllerActive rt; m_cachedControllerType := m_cachedControllerType
     rt; m_localizedControllerType := m_localizedControllerType rt;
     m_currentInteractionProfile := v; m_controllerAimPose :=
     m_controllerAimPose rt; m_currentInteractionProfileDirty :=
     m_currentInteractionProfileDirty rt |}.

Definition set_m_controllerAimPose (v : XrPosef * XrPosef) (rt : Runtime) : Runtime :=
  {| m_instanceCreated := m_instanceCreated rt; m_sessionCreated :=
     m_sessionCreated rt; m_strings := m_strings rt; m_stringIndex :=
     m_stringIndex rt; m_actionSetIndex := m_actionSetIndex rt; m_actionSets
     := m_actionSets rt; m_actions := m_actions rt; m_suggestedBindings :=
     m_suggestedBindings rt; m_activeActionSets := m_activeActionSets rt;
     m_frameLatchedActionSets := m_frameLatchedActionSets rt;
     m_cachedInputState := m_cachedInputState rt; m_isControllerActive :=
     m_isControllerActive rt; m_cachedControllerType := m_cachedControllerType
     rt; m_localizedControllerType := m_localizedControllerType rt;
     m_currentInteractionProfile := m_currentInteractionProfile rt;
     m_controllerAimPose := v; m_currentInteractionProfileDirty :=
     m_currentInteractionProfileDirty rt |}.

Definition set_m_currentInteractionProfileDirty (v : bool) (rt : Runtime) : Runtime :=
  {| m_instanceCreated := m_instanceCreated rt; m_sessionCreated :=
     m_sessionCreated rt; m_strings := m_strings rt; m_stringIndex :=
     m_stringIndex rt; m_actionSetIndex := m_actionSetIndex rt; m_actionSets
     := m_actionSets rt; m_actions := m_actions rt; m_suggestedBindings :=
     m_suggestedBindings rt; m_activeActionSets := m_activeActionSets rt;
     m_frameLatchedActionSets := m_frameLatchedActionSets rt;
     m_cachedInputState := m_cachedInputState rt; m_isControllerActive :=
     m_isControllerActive rt; m_cachedControllerType := m_cachedControllerType
     rt; m_localizedControllerType := m_localizedControllerType rt;
     m_currentInteractionProfile := m_currentInteractionProfile rt;
     m_controllerAimPose := m_controllerAimPose rt;
     m_currentInteractionProfileDirty := v |}.

(** ** Path interner *)

(** The loop of [xrStringToPath] over [m_strings]: the handle of an entry
    whose string is [str].  No two entries ever hold the same string, so the
    order of the traversal does not matter. *)
Definition find_string (m : gmap Z string) (str : string) : option Z :=
  (λ r : nat * (Z * string), r.2.1)
    <$> list_find (λ e : Z * string, e.2 = str) (map_to_list m).

Definition instance_invalid (rt : Runtime) (instance : XrInstance) : bool :=
  negb (m_instanceCreated rt) || negb (instance =? 1).

Definition session_invalid (rt : Runtime) (session : XrSession) : bool :=
  negb (m_sessionCreated rt) || negb (session =? 1).

Definition xrStringToPath (rt : Runtime) (instance : XrInstance) (pathString : string)
  : XrResult * option XrPath * Runtime :=
  if negb (instance =? XR_NULL_PATH) && instance_invalid rt instance then
    (XR_ERROR_HANDLE_INVALID, None, rt)
  else
    match find_string (m_strings rt) pathString with
    | Some p => (XR_SUCCESS, Some p, rt)
    | None =>
        let p := wrap64 (m_stringIndex rt + 1) in
        (XR_SUCCESS, Some p,
         set_m_strings (<[p := pathString]> (m_strings rt)) (set_m_stringIndex p rt))
    end.

(** What a call leaves in the caller's character buffer.  [sprintf_s] given a
    buffer too small for the string and its terminator does not write the
    string: it reports a constraint violation. *)
Inductive BufferWrite :=
| BufferUntouched
| BufferString (s : string)
| BufferConstraintViolation.

Definition sprintf_s (bufferCapacity : Z) (s : string) : BufferWrite :=
  if Z.of_nat (String.length s) + 1 <=? bufferCapacity then BufferString s
  else BufferConstraintViolation.

(** [buffer] tells whether the caller passed a non-null buffer. *)
Definition xrPathToString (rt : Runtime) (instance : XrInstance) (path : XrPath)
    (bufferCapacityInput : Z) (buffer : bool)
  : XrResult * option Z * BufferWrite :=
  if negb (instance =? XR_NULL_PATH) && instance_invalid rt instance then
    (XR_ERROR_HANDLE_INVALID, None, BufferUntouched)
  else
    match m_strings rt !! path with
    | None => (XR_ERROR_PATH_INVALID, None, BufferUntouched)
    | Some str =>
        if negb (bufferCapacityInput =? 0)
           && (bufferCapacityInput <? Z.of_nat (String.length str)) then
          (XR_ERROR_SIZE_INSUFFICIENT, None, BufferUntouched)
        else
          let bufferCountOutput := wrap32 (wrap32 (Z.of_nat (String.length str)) + 1) in
          if negb (bufferCapacityInput =? 0) && buffer then
            (XR_SUCCESS, Some bufferCountOutput, sprintf_s bufferCapacityInput str)
          else
            (XR_SUCCESS, Some bufferCountOutput, BufferUntouched)
    end.

Definition getXrPath (rt : Runtime) (path : XrPath) : string :=
  if path =? XR_NULL_PATH then ""
  else
    match m_strings rt !! path with
    | None => "<unknown>"
    | Some s => s
    end.

Definition getActionPath (rt : Runtime) (xrAction : Action) (subActionPath : XrPath) : string :=
  let path0 := if negb (subActionPath =? XR_NULL_PATH) then getXrPath rt subActionPath else "" in
  let path1 :=
    if negb (string_empty path0) && negb (endsWith path0 "/")
       && negb (startsWith (path xrAction) "/")
    then path0 +:+ "/" else path0 in
  path1 +:+ path xrAction.

Definition getActionSide (fullPath : string) : Z :=
  if startsWith fullPath "/user/hand/left" then 0
  else if startsWith fullPath "/user/hand/right" then 1
  else -1.

(** ** Action sets and actions *)

Record XrActionSetCreateInfo := {
  actionSetCreateInfo_type : XrStructureType;
  actionSetName : string;
  localizedActionSetName : string;
  priority : Z
}.

Definition xrCreateActionSet (rt : Runtime) (instance : XrInstance)
    (createInfo : XrActionSetCreateInfo) : XrResult * option XrActionSet * Runtime :=
  if negb (bool_decide (actionSetCreateInfo_type createInfo = XR_TYPE_ACTION_SET_CREATE_INFO)) then
    (XR_ERROR_VALIDATION_FAILURE, None, rt)
  else if instance_invalid rt instance then
    (XR_ERROR_HANDLE_INVALID, None, rt)
  else
    let actionSet := wrap64 (m_actionSetIndex rt + 1) in
    (XR_SUCCESS, Some actionSet,
     set_m_actionSets ({[actionSet]} ∪ m_actionSets rt) (set_m_actionSetIndex actionSet rt)).

Definition xrDestroyActionSet (rt : Runtime) (actionSet : XrActionSet) : XrResult * Runtime :=
  if negb (bool_decide (actionSet ∈ m_actionSets rt)) then (XR_ERROR_HANDLE_INVALID, rt)
  else (XR_SUCCESS, set_m_actionSets (m_actionSets rt ∖ {[actionSet]}) rt).

Record XrActionCreateInfo := {
  actionCreateInfo_type : XrStructureType;
  actionName : string;
  localizedActionName : string;
  actionType : XrActionType;
  subactionPaths : list XrPath
}.

Definition Action_created (ty : XrActionType) (set : XrActionSet) : Action := {|
  type := ty;
  actionSet := set;
  lastFloatValue := lastFloatValue new_Action;
  lastFloatValueChangedTime := lastFloatValueChangedTime new_Action;
  lastVector2fValue := lastVector2fValue new_Action;
  lastVector2fValueChangedTime := lastVector2fValueChangedTime new_Action;
  lastBoolValue := lastBoolValue new_Action;
  lastBoolValueChangedTime := lastBoolValueChangedTime new_Action;
  path := path new_Action;
  buttonMap := buttonMap new_Action;
  buttonType := buttonType new_Action;
  floatValue := floatValue new_Action;
  vector2fValue := vector2fValue new_Action;
  vector2fIndex := vector2fIndex new_Action
|}.

(** [ptr] is the address [new Action] returns; the handle is that address. *)
Definition xrCreateAction (rt : Runtime) (set : XrActionSet)
    (createInfo : XrActionCreateInfo) (ptr : Z) : XrResult * option XrAction * Runtime :=
  if negb (bool_decide (actionCreateInfo_type createInfo = XR_TYPE_ACTION_CREATE_INFO)) then
    (XR_ERROR_VALIDATION_FAILURE, None, rt)
  else if negb (bool_decide (set ∈ m_actionSets rt)) then
    (XR_ERROR_HANDLE_INVALID, None, rt)
  else
    (XR_SUCCESS, Some ptr,
     set_m_actions (<[ptr := Action_created (actionType createInfo) set]> (m_actions rt)) rt).

Definition xrDestroyAction (rt : Runtime) (act : XrAction) : XrResult * Runtime :=
  match m_actions rt !! act with
  | None => (XR_ERROR_HANDLE_INVALID, rt)
  | Some _ => (XR_SUCCESS, set_m_actions (delete act (m_actions rt)) rt)
  end.

(** ** Suggested bindings and attachment *)

Record XrInteractionProfileSuggestedBinding := {
  suggestedBinding_type : XrStructureType;
  interactionProfile : XrPath;
  suggestedBindings : list XrActionSuggestedBinding
}.

(** [m_activeActionSets.size()] used as a condition. *)
Definition has_attached (rt : Runtime) : bool :=
  negb (Z.of_nat (size (m_activeActionSets rt)) =? 0).

Definition xrSuggestInteractionProfileBindings (rt : Runtime) (instance : XrInstance)
    (sb : XrInteractionProfileSuggestedBinding) : XrResult * Runtime :=
  if negb (bool_decide (suggestedBinding_type sb = XR_TYPE_INTERACTION_PROFILE_SUGGESTED_BINDING)) then
    (XR_ERROR_VALIDATION_FAILURE, rt)
  else if instance_invalid rt instance then
    (XR_ERROR_HANDLE_INVALID, rt)
  else if has_attached rt then
    (XR_ERROR_ACTIONSETS_ALREADY_ATTACHED, rt)
  else
    (XR_SUCCESS,
     set_m_suggestedBindings
       (<[getXrPath rt (interactionProfile sb) := suggestedBindings sb]> (m_suggestedBindings rt))
       rt).

Record XrSessionActionSetsAttachInfo := {
  attachInfo_type : XrStructureType;
  actionSets : list XrActionSet
}.

(** The loop of [xrAttachSessionActionSets]: each listed set is checked and
    inserted in turn; the first unknown handle returns at once. *)
Fixpoint attach_loop (known : gset Z) (sets : list XrActionSet) (active : gset Z)
  : XrResult * gset Z :=
  match sets with
  | [] => (XR_SUCCESS, active)
  | s :: rest =>
      if negb (bool_decide (s ∈ known)) then (XR_ERROR_HANDLE_INVALID, active)
      else attach_loop known rest ({[s]} ∪ active)
  end.

Definition xrAttachSessionActionSets (rt : Runtime) (session : XrSession)
    (attachInfo : XrSessionActionSetsAttachInfo) : XrResult * Runtime :=
  if negb (bool_decide (attachInfo_type attachInfo = XR_TYPE_SESSION_ACTION_SETS_ATTACH_INFO)) then
    (XR_ERROR_VALIDATION_FAILURE, rt)
  else if session_invalid rt session then
    (XR_ERROR_HANDLE_INVALID, rt)
  else if has_attached rt then
    (XR_ERROR_ACTIONSETS_ALREADY_ATTACHED, rt)
  else
    let r := attach_loop (m_actionSets rt) (actionSets attachInfo) (m_activeActionSets rt) in
    (r.1, set_m_activeActionSets r.2 rt).

Record XrInteractionProfileState := {
  interactionProfileState_type : XrStructureType;
  interactionProfileState_interactionProfile : XrPath
}.

Definition xrGetCurrentInteractionProfile (rt : Runtime) (session : XrSession)
    (topLevelUserPath : XrPath) (state : XrInteractionProfileState)
  : XrResult * XrInteractionProfileState :=
  if negb (bool_decide (interactionProfileState_type state = XR_TYPE_INTERACTION_PROFILE_STATE)) then
    (XR_ERROR_VALIDATION_FAILURE, state)
  else if session_invalid rt session then
    (XR_ERROR_HANDLE_INVALID, state)
  else
    let side :=
      if negb (topLevelUserPath =? XR_NULL_PATH)
      then getActionSide (getXrPath rt topLevelUserPath) else 0 in
    (XR_SUCCESS,
     {| interactionProfileState_type := interactionProfileState_type state;
        interactionProfileState_interactionProfile :=
          if 0 <=? side then at_side (m_currentInteractionProfile rt) side
          else XR_NULL_PATH |}).

(** ** Action state queries *)

Record XrActionStateGetInfo := {
  getInfo_type : XrStructureType;
  getInfo_action : XrAction;
  getInfo_subactionPath : XrPath
}.

(** [XrActionStateBoolean], [XrActionStateFloat] and [XrActionStateVector2f]
    have the same fields and differ in the type of [currentState]. *)
Record XrActionState (V : Type) := {
  state_type : XrStructureType;
  currentState : V;
  changedSinceLastSync : bool;
  lastChangeTime : XrTime;
  isActive : bool
}.

Arguments state_type {V} _.
Arguments currentState {V} _.
Arguments changedSinceLastSync {V} _.
Arguments lastChangeTime {V} _.
Arguments isActive {V} _.

(** [XrBool32] values are 32-bit integers. *)
Abbreviation XrActionStateBoolean := (XrActionState Z) (only parsing).
Abbreviation XrActionStateFloat := (XrActionState spec_float) (only parsing).
Abbreviation XrActionStateVector2f := (XrActionState pvrVector2f) (only parsing).

Record XrActionStatePose := {
  pose_type : XrStructureType;
  pose_isActive : bool
}.

Definition XrBool32_of_bool (b : bool) : Z := if b then 1 else 0.
Definition bool_of_XrBool32 (v : Z) : bool := negb (v =? 0).

Definition non_null {A : Type} (p : option A) : bool :=
  match p with Some _ => true | None => false end.

Definition set_lastBoolValue (v : bool) (t : XrTime) (a : Action) : Action := {|
  type := type a; actionSet := actionSet a;
  lastFloatValue := lastFloatValue a;
  lastFloatValueChangedTime := lastFloatValueChangedTime a;
  lastVector2fValue := lastVector2fValue a;
  lastVector2fValueChangedTime := lastVector2fValueChangedTime a;
  lastBoolValue := v; lastBoolValueChangedTime := t;
  path := path a; buttonMap := buttonMap a; buttonType := buttonType a;
  floatValue := floatValue a; vector2fValue := vector2fValue a;
  vector2fIndex := vector2fIndex a
|}.

Definition set_lastFloatValue (v : float) (t : XrTime) (a : Action) : Action := {|
  type := type a; actionSet := actionSet a;
  lastFloatValue := v; lastFloatValueChangedTime := t;
  lastVector2fValue := lastVector2fValue a;
  lastVector2fValueChangedTime := lastVector2fValueChangedTime a;
  lastBoolValue := lastBoolValue a;
  lastBoolValueChangedTime := lastBoolValueChangedTime a;
  path := path a; buttonMap := buttonMap a; buttonType := buttonType a;
  floatValue := floatValue a; vector2fValue := vector2fValue a;
  vector2fIndex := vector2fIndex a
|}.

Definition set_lastVector2fValue (v : pvrVector2f) (t : XrTime) (a : Action) : Action := {|
  type := type a; actionSet := actionSet a;
  lastFloatValue := lastFloatValue a;
  lastFloatValueChangedTime := lastFloatValueChangedTime a;
  lastVector2fValue := v; lastVector2fValueChangedTime := t;
  lastBoolValue := lastBoolValue a;
  lastBoolValueChangedTime := lastBoolValueChangedTime a;
  path := path a; buttonMap := buttonMap a; buttonType := buttonType a;
  floatValue := floatValue a; vector2fValue := vector2fValue a;
  vector2fIndex := vector2fIndex a
|}.

(** The part of a query between the attachment check and the change
    detection: [isActive] and [currentState].  The result is [None] when the
    code dereferences a null pointer. *)
Definition boolean_state (rt : Runtime) (xrAction : Action) (subactionPath : XrPath)
  : option (bool * Z) :=
  let state_currentState := XrBool32_of_bool (lastBoolValue xrAction) in
  if negb (string_empty (path xrAction)) then
    let fullPath := getActionPath rt xrAction subactionPath in
    let isBound := non_null (buttonMap xrAction) || non_null (floatValue xrAction) in
    let side := getActionSide fullPath in
    if isBound && (0 <=? side) then
      let state_isActive := at_side (m_isControllerActive rt) side in
      if state_isActive
         && bool_decide (actionSet xrAction ∈ m_frameLatchedActionSets rt) then
        match buttonMap xrAction with
        | Some bm =>
            Some (state_isActive,
                  Z.land (deref_button (m_cachedInputState rt) bm side) (buttonType xrAction))
        | None =>
            match floatValue xrAction with
            | Some fv =>
                Some (state_isActive,
                      XrBool32_of_bool
                        (float_gt (deref_float (m_cachedInputState rt) fv side) float_0_99))
            | None => None
            end
        end
      else Some (state_isActive, state_currentState)
    else Some (false, state_currentState)
  else Some (false, state_currentState).

Definition xrGetActionStateBoolean (rt : Runtime) (session : XrSession)
    (getInfo : XrActionStateGetInfo) (state : XrActionStateBoolean)
  : option (XrResult * XrActionStateBoolean * Runtime) :=
  if negb (bool_decide (getInfo_type getInfo = XR_TYPE_ACTION_STATE_GET_INFO))
     || negb (bool_decide (state_type state = XR_TYPE_ACTION_STATE_BOOLEAN)) then
    Some (XR_ERROR_VALIDATION_FAILURE, state, rt)
  else if session_invalid rt session then
    Some (XR_ERROR_HANDLE_INVALID, state, rt)
  else
    match m_actions rt !! getInfo_action getInfo with
    | None => Some (XR_ERROR_HANDLE_INVALID, state, rt)
    | Some xrAction =>
        if negb (bool_decide (type xrAction = XR_ACTION_TYPE_BOOLEAN_INPUT)) then
          Some (XR_ERROR_ACTION_TYPE_MISMATCH, state, rt)
        else if negb (bool_decide (actionSet xrAction ∈ m_activeActionSets rt)) then
          Some (XR_ERROR_ACTIONSET_NOT_ATTACHED, state, rt)
        else
          match boolean_state rt xrAction (getInfo_subactionPath getInfo) with
          | None => None
          | Some (active, cur) =>
              let changed := xorb (bool_of_XrBool32 cur) (lastBoolValue xrAction) in
              let time :=
                if changed then pvrTimeToXrTime (TimeInSeconds (m_cachedInputState rt))
                else lastBoolValueChangedTime xrAction in
              Some (XR_SUCCESS,
                    {| state_type := state_type state; currentState := cur;
                       changedSinceLastSync := changed; lastChangeTime := time;
                       isActive := active |},
                    set_m_actions
                      (<[getInfo_action getInfo :=
                           set_lastBoolValue (bool_of_XrBool32 cur) time xrAction]>
                         (m_actions rt)) rt)
          end
    end.

Definition float_state (rt : Runtime) (xrAction : Action) (subactionPath : XrPath)
  : option (bool * float) :=
  let state_currentState := lastFloatValue xrAction in
  if negb (string_empty (path xrAction)) then
    let fullPath := getActionPath rt xrAction subactionPath in
    let isBound :=
      non_null (floatValue xrAction)
      || (non_null (vector2fValue xrAction) && (0 <=? vector2fIndex xrAction))
      || negb (non_null (buttonMap xrAction)) in
    let side := getActionSide fullPath in
    if isBound && (0 <=? side) then
      let state_isActive := at_side (m_isControllerActive rt) side in
      if state_isActive
         && bool_decide (actionSet xrAction ∈ m_frameLatchedActionSets rt) then
        match floatValue xrAction with
        | Some fv => Some (state_isActive, deref_float (m_cachedInputState rt) fv side)
        | None =>
            match buttonMap xrAction with
            | Some bm =>
                Some (state_isActive,
                      if bool_of_XrBool32
                           (Z.land (deref_button (m_cachedInputState rt) bm side)
                              (buttonType xrAction))
                      then float_one else float_zero)
            | None =>
                match vector2fValue xrAction with
                | Some vp =>
                    Some (state_isActive,
                          if vector2fIndex xrAction =? 0
                          then x (deref_vector2f (m_cachedInputState rt) vp side)
                          else y (deref_vector2f (m_cachedInputState rt) vp side))
                | None => None
                end
            end
        end
      else Some (state_isActive, state_currentState)
    else Some (false, state_currentState)
  else Some (false, state_currentState).

Definition xrGetActionStateFloat (rt : Runtime) (session : XrSession)
    (getInfo : XrActionStateGetInfo) (state : XrActionStateFloat)
  : option (XrResult * XrActionStateFloat * Runtime) :=
  if negb (bool_decide (getInfo_type getInfo = XR_TYPE_ACTION_STATE_GET_INFO))
     || negb (bool_decide (state_type state = XR_TYPE_ACTION_STATE_FLOAT)) then
    Some (XR_ERROR_VALIDATION_FAILURE, state, rt)
  else if session_invalid rt session then
    Some (XR_ERROR_HANDLE_INVALID, state, rt)
  else
    match m_actions rt !! getInfo_action getInfo with
    | None => Some (XR_ERROR_HANDLE_INVALID, state, rt)
    | Some xrAction =>
        if negb (bool_decide (type xrAction = XR_ACTION_TYPE_FLOAT_INPUT)) then
          Some (XR_ERROR_ACTION_TYPE_MISMATCH, state, rt)
        else if negb (bool_decide (actionSet xrAction ∈ m_activeActionSets rt)) then
          Some (XR_ERROR_ACTIONSET_NOT_ATTACHED, state, rt)
        else
          match float_state rt xrAction (getInfo_subactionPath getInfo) with
          | None => None
          | Some (active, cur) =>
              let changed := float_ne cur (lastFloatValue xrAction) in
              let time :=
                if changed then pvrTimeToXrTime (TimeInSeconds (m_cachedInputState rt))
                else lastFloatValueChangedTime xrAction in
              Some (XR_SUCCESS,
                    {| state_type := state_type state; currentState := cur;
                       changedSinceLastSync := changed; lastChangeTime := time;
                       isActive := active |},
                    set_m_actions
                      (<[getInfo_action getInfo := set_lastFloatValue cur time xrAction]>
                         (m_actions rt)) rt)
          end
    end.

Definition vector2f_state (rt : Runtime) (xrAction : Action) (subactionPath : XrPath)
  : bool * pvrVector2f :=
  let state_currentState := lastVector2fValue xrAction in
  if negb (string_empty (path xrAction)) then
    let fullPath := getActionPath rt xrAction subactionPath in
    let side := getActionSide fullPath in
    match vector2fValue xrAction with
    | Some vp =>
        if 0 <=? side then
          let state_isActive := at_side (m_isControllerActive rt) side in
          if state_isActive
             && bool_decide (actionSet xrAction ∈ m_frameLatchedActionSets rt) then
            (state_isActive,
             {| x := x (deref_vector2f (m_cachedInputState rt) vp side);
                y := y (deref_vector2f (m_cachedInputState rt) vp side) |})
          else (state_isActive, state_currentState)
        else (false, state_currentState)
    | None => (false, state_currentState)
    end
  else (false, state_currentState).

Definition xrGetActionStateVector2f (rt : Runtime) (session : XrSession)
    (getInfo : XrActionStateGetInfo) (state : XrActionStateVector2f)
  : XrResult * XrActionStateVector2f * Runtime :=
  if negb (bool_decide (getInfo_type getInfo = XR_TYPE_ACTION_STATE_GET_INFO))
     || negb (bool_decide (state_type state = XR_TYPE_ACTION_STATE_VECTOR2F)) then
    (XR_ERROR_VALIDATION_FAILURE, state, rt)
  else if session_invalid rt session then
    (XR_ERROR_HANDLE_INVALID, state, rt)
  else
    match m_actions rt !! getInfo_action getInfo with
    | None => (XR_ERROR_HANDLE_INVALID, state, rt)
    | Some xrAction =>
        if negb (bool_decide (type xrAction = XR_ACTION_TYPE_VECTOR2F_INPUT)) then
          (XR_ERROR_ACTION_TYPE_MISMATCH, state, rt)
        else if negb (bool_decide (actionSet xrAction ∈ m_activeActionSets rt)) then
          (XR_ERROR_ACTIONSET_NOT_ATTACHED, state, rt)
        else
          let '(active, cur) := vector2f_state rt xrAction (getInfo_subactionPath getInfo) in
          let changed :=
            float_ne (x cur) (x (lastVector2fValue xrAction))
            || float_ne (y cur) (y (lastVector2fValue xrAction)) in
          let time :=
            if changed then pvrTimeToXrTime (TimeInSeconds (m_cachedInputState rt))
            else lastVector2fValueChangedTime xrAction in
          (XR_SUCCESS,
           {| state_type := state_type state; currentState := cur;
              changedSinceLastSync := changed; lastChangeTime := time;
              isActive := active |},
           set_m_actions
             (<[getInfo_action getInfo := set_lastVector2fValue cur time xrAction]>
                (m_actions rt)) rt)
    end.

Definition pose_state (rt : Runtime) (xrAction : Action) (subactionPath : XrPath) : bool :=
  if negb (string_empty (path xrAction)) then
    let fullPath := getActionPath rt xrAction subactionPath in
    let side := getActionSide fullPath in
    if 0 <=? side then at_side (m_isControllerActive rt) side else false
  else false.

Definition xrGetActionStatePose (rt : Runtime) (session : XrSession)
    (getInfo : XrActionStateGetInfo) (state : XrActionStatePose)
  : XrResult * XrActionStatePose :=
  if negb (bool_decide (getInfo_type getInfo = XR_TYPE_ACTION_STATE_GET_INFO))
     || negb (bool_decide (pose_type state = XR_TYPE_ACTION_STATE_POSE)) then
    (XR_ERROR_VALIDATION_FAILURE, state)
  else if session_invalid rt session then
    (XR_ERROR_HANDLE_INVALID, state)
  else
    match m_actions rt !! getInfo_action getInfo with
    | None => (XR_ERROR_HANDLE_INVALID, state)
    | Some xrAction =>
        if negb (bool_decide (type xrAction = XR_ACTION_TYPE_POSE_INPUT)) then
          (XR_ERROR_ACTION_TYPE_MISMATCH, state)
        else if negb (bool_decide (actionSet xrAction ∈ m_activeActionSets rt)) then
          (XR_ERROR_ACTIONSET_NOT_ATTACHED, state)
        else
          (XR_SUCCESS,
           {| pose_type := pose_type state;
              pose_isActive := pose_state rt xrAction (getInfo_subactionPath getInfo) |})
    end.

(** ** Controller rebinding *)

(** Modelled from the spec: [m_controllerMappingTable] is filled outside this
    file.  It is keyed by the pair (actual profile, preferred profile); each
    entry is a function that, given the action and the bound path, writes the
    action's bound path and hardware-field references.  The functions are
    members of the runtime, so they also receive its state. *)
Definition MappingFn : Type := Runtime → Action → XrPath → Action.
Definition MappingTable : Type := string → string → option MappingFn.

Definition fallbacks : list string :=
  [ "/interaction_profiles/oculus/touch_controller";
    "/interaction_profiles/microsoft/motion_controller";
    "/interaction_profiles/khr/simple_controller" ].

(** The loop over [fallbacks]: the first profile with suggested bindings. *)
Fixpoint find_fallback (store : gmap string (list XrActionSuggestedBinding))
    (profiles : list string) : option (string * list XrActionSuggestedBinding) :=
  match profiles with
  | [] => None
  | p :: rest =>
      match store !! p with
      | Some bs => Some (p, bs)
      | None => find_fallback store rest
      end
  end.

(** The physical controller type: preferred profile, localized name and aim
    pose. *)
Definition identify_controller (controllerType : string) : string * string * XrPosef :=
  if String.eqb controllerType "vive_controller" then
    ("/interaction_profiles/htc/vive_controller", "Vive Controller", PoseAim (-45))
  else if String.eqb controllerType "knuckles" then
    ("/interaction_profiles/valve/index_controller", "Index Controller", PoseAim (-70))
  else
    ("/interaction_profiles/khr/simple_controller", "Controller", PoseIdentity).

(** The loop over the suggested bindings of the chosen profile. *)
Definition apply_bindings (mapping : MappingFn) (bs : list XrActionSuggestedBinding)
    (rt : Runtime) : Runtime :=
  foldl
    (λ (r : Runtime) (b : XrActionSuggestedBinding),
       match m_actions r !! action b with
       | None => r
       | Some xrAction =>
           set_m_actions (<[action b := mapping r xrAction (binding b)]> (m_actions r)) r
       end)
    rt bs.

(** [None] is undefined behaviour: the mapping table has no entry for the
    pair of profiles. *)
Definition rebindControllerActions (tbl : MappingTable) (rt : Runtime) (side : Z)
  : option Runtime :=
  let '(preferredInteractionProfile, localized, aimPose) :=
    identify_controller (at_side (m_cachedControllerType rt) side) in
  let rt1 :=
    set_m_localizedControllerType (set_side (m_localizedControllerType rt) side localized) rt in
  let found :=
    match m_suggestedBindings rt1 !! preferredInteractionProfile with
    | Some bs => Some (preferredInteractionProfile, bs)
    | None => find_fallback (m_suggestedBindings rt1) fallbacks
    end in
  let actualInteractionProfile :=
    match found with Some (p, _) => p | None => "" end in
  let mapped :=
    match found with
    | Some (_, bs) =>
        match tbl actualInteractionProfile preferredInteractionProfile with
        | Some mapping => Some (apply_bindings mapping bs rt1)
        | None => None
        end
    | None => Some rt1
    end in
  match mapped with
  | None => None
  | Some rt2 =>
      if negb (string_empty actualInteractionProfile) then
        match xrStringToPath rt2 XR_NULL_HANDLE actualInteractionProfile with
        | (_, Some p, rt3) =>
            Some (set_m_currentInteractionProfileDirty true
                    (set_m_controllerAimPose
                       (set_side (m_controllerAimPose rt3) side aimPose)
                       (set_m_currentInteractionProfile
                          (set_side (m_currentInteractionProfile rt3) side p) rt3)))
        | (_, None, _) => None
        end
      else
        Some (set_m_currentInteractionProfileDirty true
                (set_m_controllerAimPose
                   (set_side (m_controllerAimPose rt2) side PoseIdentity)
                   (set_m_currentInteractionProfile
                      (set_side (m_currentInteractionProfile rt2) side XR_NULL_PATH) rt2)))
  end.

(** ** Synchronisation *)

Record XrActiveActionSet := {
  activeActionSet_actionSet : XrActionSet;
  activeActionSet_subactionPath : XrPath
}.

Record XrActionsSyncInfo := {
  syncInfo_type : XrStructureType;
  activeActionSets : list XrActiveActionSet
}.

(** What the hardware answers during one [xrSyncActions]: the input state
    ([None] when [pvr_getInputState] fails) and, for each hand, the controller
    type string ([None] when the property has size 0, that is, no
    controller). *)
Record PvrDevice := {
  pvr_getInputState : option pvrInputState;
  pvr_ControllerType_String : option string * option string
}.

(** The first loop of [xrSyncActions]. *)
Fixpoint latch_loop (attached : gset Z) (sets : list XrActiveActionSet) (latched : gset Z)
  : XrResult * gset Z :=
  match sets with
  | [] => (XR_SUCCESS, latched)
  | s :: rest =>
      if negb (bool_decide (activeActionSet_actionSet s ∈ attached)) then
        (XR_ERROR_ACTIONSET_NOT_ATTACHED, latched)
      else latch_loop attached rest ({[activeActionSet_actionSet s]} ∪ latched)
  end.

(** One iteration of the loop over the two hands. *)
Definition sync_side (tbl : MappingTable) (hw : PvrDevice) (rt : Runtime) (side : Z)
  : option Runtime :=
  let lastControllerType := at_side (m_cachedControllerType rt) side in
  let detected := at_side (pvr_ControllerType_String hw) side in
  let rt1 :=
    set_m_isControllerActive (set_side (m_isControllerActive rt) side (non_null detected)) rt in
  let rt2 :=
    set_m_cachedControllerType
      (set_side (m_cachedControllerType rt1) side
         (match detected with Some s => s | None => "" end)) rt1 in
  if negb (String.eqb lastControllerType (at_side (m_cachedControllerType rt2) side)) then
    rebindControllerActions tbl rt2 side
  else Some rt2.

(** A failing [CHECK_PVRCMD] leaves the call with a runtime failure. *)
Definition xrSyncActions (tbl : MappingTable) (hw : PvrDevice) (rt : Runtime)
    (session : XrSession) (syncInfo : XrActionsSyncInfo) : option (XrResult * Runtime) :=
  if negb (bool_decide (syncInfo_type syncInfo = XR_TYPE_ACTIONS_SYNC_INFO)) then
    Some (XR_ERROR_VALIDATION_FAILURE, rt)
  else if session_invalid rt session then
    Some (XR_ERROR_HANDLE_INVALID, rt)
  else
    let r :=
      latch_loop (m_activeActionSets rt) (activeActionSets syncInfo)
        (m_frameLatchedActionSets rt) in
    let rt1 := set_m_frameLatchedActionSets r.2 rt in
    match r.1 with
    | XR_SUCCESS =>
        match pvr_getInputState hw with
        | None => Some (XR_ERROR_RUNTIME_FAILURE, rt1)
        | Some st =>
            let rt2 := set_m_cachedInputState st rt1 in
            match sync_side tbl hw rt2 0 with
            | None => None
            | Some rt3 =>
                match sync_side tbl hw rt3 1 with
                | None => None
                | Some rt4 => Some (XR_SUCCESS, rt4)
                end
            end
        end
    | err => Some (err, rt1)
    end.

(** ** Bound sources *)

Record XrBoundSourcesForActionEnumerateInfo := {
  enumerateInfo_type : XrStructureType;
  enumerateInfo_action : XrAction
}.

(** [sources] tells whether the caller passed a non-null array; the outputs
    are [sourceCountOutput] and [sources[0]]. *)
Definition xrEnumerateBoundSourcesForAction (rt : Runtime) (session : XrSession)
    (enumerateInfo : XrBoundSourcesForActionEnumerateInfo)
    (sourceCapacityInput : Z) (sources : bool)
  : XrResult * option Z * option XrPath * Runtime :=
  if negb (bool_decide
             (enumerateInfo_type enumerateInfo = XR_TYPE_BOUND_SOURCES_FOR_ACTION_ENUMERATE_INFO)) then
    (XR_ERROR_VALIDATION_FAILURE, None, None, rt)
  else if session_invalid rt session then
    (XR_ERROR_HANDLE_INVALID, None, None, rt)
  else
    match m_actions rt !! enumerateInfo_action enumerateInfo with
    | None => (XR_ERROR_HANDLE_INVALID, None, None, rt)
    | Some xrAction =>
        let count := if string_empty (path xrAction) then 0 else 1 in
        if negb (sourceCapacityInput =? 0) && (sourceCapacityInput <? count) then
          (XR_ERROR_SIZE_INSUFFICIENT, None, None, rt)
        else if negb (sourceCapacityInput =? 0) && sources
                && negb (string_empty (path xrAction)) then
          match xrStringToPath rt XR_NULL_HANDLE (path xrAction) with
          | (XR_SUCCESS, p, rt1) => (XR_SUCCESS, Some count, p, rt1)
          | (err, _, rt1) => (err, Some count, None, rt1)
          end
        else (XR_SUCCESS, Some count, None, rt)
    end.

(** ** Haptics *)

Record XrHapticActionInfo := {
  hapticActionInfo_type : XrStructureType;
  hapticActionInfo_action : XrAction;
  hapticActionInfo_subactionPath : XrPath
}.

(** One structure of the [next] chain passed as haptic feedback.  When its
    type is [XR_TYPE_HAPTIC_VIBRATION] it is an [XrHapticVibration] and the
    three other fields are its payload. *)
Record XrHapticBaseHeader := {
  haptic_type : XrStructureType;
  duration : Z;
  frequency : float;
  amplitude : float
}.

Inductive pvrTrackedDevice := pvrTrackedDevice_LeftController | pvrTrackedDevice_RightController.

(** Calls made to the haptic actuator. *)
Inductive PvrCall := pvr_triggerHapticPulse (device : pvrTrackedDevice) (amp : float).

(** The [while (entry)] loop: the first vibration structure of the chain
    decides.  [pulse_ok] is whether the hardware accepts the pulse. *)
Fixpoint haptic_loop (pulse_ok : bool) (side : Z) (chain : list XrHapticBaseHeader)
  : XrResult * list PvrCall :=
  match chain with
  | [] => (XR_SUCCESS, [])
  | entry :: rest =>
      if bool_decide (haptic_type entry = XR_TYPE_HAPTIC_VIBRATION) then
        if float_gt (amplitude entry) float_zero then
          (if pulse_ok then XR_SUCCESS else XR_ERROR_RUNTIME_FAILURE,
           [pvr_triggerHapticPulse
              (if side =? 0 then pvrTrackedDevice_LeftController
               else pvrTrackedDevice_RightController)
              (amplitude entry)])
        else (XR_SUCCESS, [])
      else haptic_loop pulse_ok side rest
  end.

Definition xrApplyHapticFeedback (pulse_ok : bool) (rt : Runtime) (session : XrSession)
    (hapticActionInfo : XrHapticActionInfo) (hapticFeedback : list XrHapticBaseHeader)
  : XrResult * list PvrCall :=
  if negb (bool_decide (hapticActionInfo_type hapticActionInfo = XR_TYPE_HAPTIC_ACTION_INFO)) then
    (XR_ERROR_VALIDATION_FAILURE, [])
  else if session_invalid rt session then
    (XR_ERROR_HANDLE_INVALID, [])
  else
    match m_actions rt !! hapticActionInfo_action hapticActionInfo with
    | None => (XR_ERROR_HANDLE_INVALID, [])
    | Some xrAction =>
        if negb (bool_decide (type xrAction = XR_ACTION_TYPE_VIBRATION_OUTPUT)) then
          (XR_ERROR_ACTION_TYPE_MISMATCH, [])
        else if negb (bool_decide (actionSet xrAction ∈ m_activeActionSets rt)) then
          (XR_ERROR_ACTIONSET_NOT_ATTACHED, [])
        else if negb (string_empty (path xrAction)) then
          let fullPath :=
            getActionPath rt xrAction (hapticActionInfo_subactionPath hapticActionInfo) in
          let isOutput := endsWith fullPath "/output/haptic" in
          let side := getActionSide fullPath in
          if isOutput && (0 <=? side) then haptic_loop pulse_ok side hapticFeedback
          else (XR_SUCCESS, [])
        else (XR_SUCCESS, [])
    end.

Definition xrStopHapticFeedback (rt : Runtime) (session : XrSession)
    (hapticActionInfo : XrHapticActionInfo) : XrResult :=
  if negb (bool_decide (hapticActionInfo_type hapticActionInfo = XR_TYPE_HAPTIC_ACTION_INFO)) then
    XR_ERROR_VALIDATION_FAILURE
  else if session_invalid rt session then XR_ERROR_HANDLE_INVALID
  else
    match m_actions rt !! hapticActionInfo_action hapticActionInfo with
    | None => XR_ERROR_HANDLE_INVALID
    | Some xrAction =>
        if negb (bool_decide (type xrAction = XR_ACTION_TYPE_VIBRATION_OUTPUT)) then
          XR_ERROR_ACTION_TYPE_MISMATCH
        else if negb (bool_decide (actionSet xrAction ∈ m_activeActionSets rt)) then
          XR_ERROR_ACTIONSET_NOT_ATTACHED
        else XR_SUCCESS
    end.

(** ** Localized names of input sources *)

Record XrInputSourceLocalizedNameGetInfo := {
  localizedNameGetInfo_type : XrStructureType;
  sourcePath : XrPath;
  whichComponents : Z
}.

Definition XR_INPUT_SOURCE_LOCALIZED_NAME_USER_PATH_BIT : Z := 1.
Definition XR_INPUT_SOURCE_LOCALIZED_NAME_INTERACTION_PROFILE_BIT : Z := 2.
Definition XR_INPUT_SOURCE_LOCALIZED_NAME_COMPONENT_BIT : Z := 4.

(** Modelled from the spec: the three functions that name a component of a
    controller family are defined outside this file; they are taken as they
    come, as functions of the source path. *)
Record LocalizedSourceNames := {
  getViveControllerLocalizedSourceName : string → string;
  getIndexControllerLocalizedSourceName : string → string;
  getSimpleControllerLocalizedSourceName : string → string
}.

(** The string [xrGetInputSourceLocalizedName] builds. *)
Definition localizedName (names : LocalizedSourceNames) (rt : Runtime)
    (getInfo : XrInputSourceLocalizedNameGetInfo) : string :=
  let path := getXrPath rt (sourcePath getInfo) in
  let side := getActionSide path in
  if 0 <=? side then
    let name1 :=
      if negb (Z.land (whichComponents getInfo)
                 XR_INPUT_SOURCE_LOCALIZED_NAME_USER_PATH_BIT =? 0)
      then (if side =? 0 then "Left Hand " else "Right Hand ") else "" in
    let name2 :=
      if negb (Z.land (whichComponents getInfo)
                 XR_INPUT_SOURCE_LOCALIZED_NAME_INTERACTION_PROFILE_BIT =? 0)
      then name1 +:+ (at_side (m_localizedControllerType rt) side +:+ " ") else name1 in
    if negb (Z.land (whichComponents getInfo)
               XR_INPUT_SOURCE_LOCALIZED_NAME_COMPONENT_BIT =? 0)
    then
      let interactionProfile := getXrPath rt (at_side (m_currentInteractionProfile rt) side) in
      if String.eqb interactionProfile "/interaction_profiles/htc/vive_controller" then
        name2 +:+ getViveControllerLocalizedSourceName names path
      else if String.eqb interactionProfile "/interaction_profiles/valve/index_controller" then
        name2 +:+ getIndexControllerLocalizedSourceName names path
      else if String.eqb interactionProfile "/interaction_profiles/khr/simple_controller" then
        name2 +:+ getSimpleControllerLocalizedSourceName names path
      else name2
    else name2
  else "".

Definition xrGetInputSourceLocalizedName (names : LocalizedSourceNames) (rt : Runtime)
    (session : XrSession) (getInfo : XrInputSourceLocalizedNameGetInfo)
    (bufferCapacityInput : Z) (buffer : bool)
  : XrResult * option Z * BufferWrite :=
  if negb (bool_decide (localizedNameGetInfo_type getInfo
                        = XR_TYPE_INPUT_SOURCE_LOCALIZED_NAME_GET_INFO)) then
    (XR_ERROR_VALIDATION_FAILURE, None, BufferUntouched)
  else if session_invalid rt session then
    (XR_ERROR_HANDLE_INVALID, None, BufferUntouched)
  else
    let str := localizedName names rt getInfo in
    if negb (bufferCapacityInput =? 0)
       && (bufferCapacityInput <? Z.of_nat (String.length str)) then
      (XR_ERROR_SIZE_INSUFFICIENT, None, BufferUntouched)
    else
      let bufferCountOutput := wrap32 (wrap32 (Z.of_nat (String.length str)) + 1) in
      if negb (bufferCapacityInput =? 0) && buffer then
        (XR_SUCCESS, Some bufferCountOutput, sprintf_s bufferCapacityInput str)
      else
        (XR_SUCCESS, Some bufferCountOutput, BufferUntouched).

(** ** Sequences of calls *)

(** The entry points that can change the runtime state, with their
    arguments.  ([xrPathToString], [xrGetCurrentInteractionProfile],
    [xrGetActionStatePose] and the haptics calls only read it.) *)
Inductive Call :=
| StringToPath (instance : XrInstance) (pathString : string)
| CreateActionSet (instance : XrInstance) (createInfo : XrActionSetCreateInfo)
| DestroyActionSet (set : XrActionSet)
| CreateAction (set : XrActionSet) (createInfo : XrActionCreateInfo) (ptr : Z)
| DestroyAction (act : XrAction)
| SuggestInteractionProfileBindings (instance : XrInstance)
    (sb : XrInteractionProfileSuggestedBinding)
| AttachSessionActionSets (session : XrSession) (attachInfo : XrSessionActionSetsAttachInfo)
| GetActionStateBoolean (session : XrSession) (getInfo : XrActionStateGetInfo)
    (state : XrActionStateBoolean)
| GetActionStateFloat (session : XrSession) (getInfo : XrActionStateGetInfo)
    (state : XrActionStateFloat)
| GetActionStateVector2f (session : XrSession) (getInfo : XrActionStateGetInfo)
    (state : XrActionStateVector2f)
| SyncActions (hw : PvrDevice) (session : XrSession) (syncInfo : XrActionsSyncInfo)
| EnumerateBoundSourcesForAction (session : XrSession)
    (enumerateInfo : XrBoundSourcesForActionEnumerateInfo)
    (sourceCapacityInput : Z) (sources : bool).

(** One call: its result code and the state it leaves; [None] when the call
    runs into undefined behaviour. *)
Definition exec (tbl : MappingTable) (c : Call) (rt : Runtime) : option (XrResult * Runtime) :=
  match c with
  | StringToPath i s => let r := xrStringToPath rt i s in Some (r.1.1, r.2)
  | CreateActionSet i ci => let r := xrCreateActionSet rt i ci in Some (r.1.1, r.2)
  | DestroyActionSet s => Some (xrDestroyActionSet rt s)
  | CreateAction s ci ptr => let r := xrCreateAction rt s ci ptr in Some (r.1.1, r.2)
  | DestroyAction a => Some (xrDestroyAction rt a)
  | SuggestInteractionProfileBindings i sb => Some (xrSuggestInteractionProfileBindings rt i sb)
  | AttachSessionActionSets s ai => Some (xrAttachSessionActionSets rt s ai)
  | GetActionStateBoolean s gi st =>
      (λ r : XrResult * XrActionStateBoolean * Runtime, (r.1.1, r.2))
        <$> xrGetActionStateBoolean rt s gi st
  | GetActionStateFloat s gi st =>
      (λ r : XrResult * XrActionStateFloat * Runtime, (r.1.1, r.2))
        <$> xrGetActionStateFloat rt s gi st
  | GetActionStateVector2f s gi st =>
      let r := xrGetActionStateVector2f rt s gi st in Some (r.1.1, r.2)
  | SyncActions hw s si => xrSyncActions tbl hw rt s si
  | EnumerateBoundSourcesForAction s ei cap src =>
      let r := xrEnumerateBoundSourcesForAction rt s ei cap src in Some (r.1.1.1, r.2)
  end.

(** A sequence of calls, whatever their result codes. *)
Fixpoint run (tbl : MappingTable) (calls : list Call) (rt : Runtime) : option Runtime :=
  match calls with
  | [] => Some rt
  | c :: rest =>
      match exec tbl c rt with
      | None => None
      | Some (_, rt1) => run tbl rest rt1
      end
  end.

(** ** A concrete runtime for examples *)

Definition zero_vector2f : pvrVector2f := {| x := float_zero; y := float_zero |}.

Definition zero_InputState : pvrInputState := {|
  TimeInSeconds := 0;
  HandButtons := (0, 0); HandTouches := (0, 0);
  Trigger := (float_zero, float_zero); Grip := (float_zero, float_zero);
  GripForce := (float_zero, float_zero);
  JoyStick := (zero_vector2f, zero_vector2f); TouchPad := (zero_vector2f, zero_vector2f);
  TouchPadForce := (float_zero, float_zero);
  fingerIndex := (float_zero, float_zero); fingerMiddle := (float_zero, float_zero);
  fingerRing := (float_zero, float_zero); fingerPinky := (float_zero, float_zero)
|}.

(** A runtime with its instance and session created and nothing else. *)
Definition fresh_runtime : Runtime := {|
  m_instanceCreated := true;
  m_sessionCreated := true;
  m_strings := ∅;
  m_stringIndex := 0;
  m_actionSetIndex := 0;
  m_actionSets := ∅;
  m_actions := ∅;
  m_suggestedBindings := ∅;
  m_activeActionSets := ∅;
  m_frameLatchedActionSets := ∅;
  m_cachedInputState := zero_InputState;
  m_isControllerActive := (false, false);
  m_cachedControllerType := ("", "");
  m_localizedControllerType := ("", "");
  m_currentInteractionProfile := (XR_NULL_PATH, XR_NULL_PATH);
  m_controllerAimPose := (PoseIdentity, PoseIdentity);
  m_currentInteractionProfileDirty := false
|}.

Definition set_binding (p : string) (bm : option ButtonField) (bt : Z)
    (fv : option FloatField) (vv : option Vector2fField) (vi : Z) (a : Action) : Action := {|
  type := type a; actionSet := actionSet a;
  lastFloatValue := lastFloatValue a;
  lastFloatValueChangedTime := lastFloatValueChangedTime a;
  lastVector2fValue := lastVector2fValue a;
  lastVector2fValueChangedTime := lastVector2fValueChangedTime a;
  lastBoolValue := lastBoolValue a;
  lastBoolValueChangedTime := lastBoolValueChangedTime a;
  path := p; buttonMap := bm; buttonType := bt;
  floatValue := fv; vector2fValue := vv; vector2fIndex := vi
|}.

(** Modelled from the spec: an example of a mapping function, keyed off the
    suffix of the bound path; [triggerButton] is the button mask it wires for
    a click.  It stands in, in the examples below, for the mapping functions
    registered outside this file. *)
Definition example_mapping (triggerButton : Z) : MappingFn :=
  λ rt xrAction bound,
    let fullPath := getXrPath rt bound in
    if endsWith fullPath "/input/select/click" || endsWith fullPath "/input/trigger/click" then
      set_binding fullPath (Some PtrHandButtons) triggerButton None None (-1) xrAction
    else if endsWith fullPath "/input/trigger/value" then
      set_binding fullPath None 0 (Some PtrTrigger) None (-1) xrAction
    else if endsWith fullPath "/input/thumbstick" then
      set_binding fullPath None 0 None (Some PtrJoyStick) (-1) xrAction
    else if endsWith fullPath "/pose" || endsWith fullPath "/output/haptic" then
      set_binding fullPath None 0 None None (-1) xrAction
    else xrAction.

(** An example table: every pair of profiles has an entry; the entries for
    the Index controller wire another button mask. *)
Definition example_table : MappingTable :=
  λ actual preferred,
    if String.eqb preferred "/interaction_profiles/valve/index_controller"
    then Some (example_mapping 256) else Some (example_mapping 1).

(** ** Requests used in the examples *)

Definition action_set_create_info (name : string) : XrActionSetCreateInfo :=
  {| actionSetCreateInfo_type := XR_TYPE_ACTION_SET_CREATE_INFO;
     actionSetName := name; localizedActionSetName := name; priority := 0 |}.

Definition action_create_info (name : string) (ty : XrActionType) : XrActionCreateInfo :=
  {| actionCreateInfo_type := XR_TYPE_ACTION_CREATE_INFO;
     actionName := name; localizedActionName := name; actionType := ty;
     subactionPaths := [] |}.

Definition suggested_binding (profile : XrPath) (bs : list XrActionSuggestedBinding)
  : XrInteractionProfileSuggestedBinding :=
  {| suggestedBinding_type := XR_TYPE_INTERACTION_PROFILE_SUGGESTED_BINDING;
     interactionProfile := profile; suggestedBindings := bs |}.

Definition attach_info (sets : list XrActionSet) : XrSessionActionSetsAttachInfo :=
  {| attachInfo_type := XR_TYPE_SESSION_ACTION_SETS_ATTACH_INFO; actionSets := sets |}.

Definition sync_info (sets : list XrActionSet) : XrActionsSyncInfo :=
  {| syncInfo_type := XR_TYPE_ACTIONS_SYNC_INFO;
     activeActionSets :=
       (λ s, {| activeActionSet_actionSet := s;
                activeActionSet_subactionPath := XR_NULL_PATH |}) <$> sets |}.

Definition get_info (act : XrAction) (sub : XrPath) : XrActionStateGetInfo :=
  {| getInfo_type := XR_TYPE_ACTION_STATE_GET_INFO;
     getInfo_action := act; getInfo_subactionPath := sub |}.

Definition blank_state {V : Type} (ty : XrStructureType) (v : V) : XrActionState V :=
  {| state_type := ty; currentState := v; changedSinceLastSync := false;
     lastChangeTime := 0; isActive := false |}.

(** The hardware with the given input state and controller types. *)
Definition device (st : pvrInputState) (left right : option string) : PvrDevice :=
  {| pvr_getInputState := Some st; pvr_ControllerType_String := (left, right) |}.

(** The state a sequence of calls leaves, from the fresh runtime. *)
Definition after (calls : list Call) : Runtime :=
  default fresh_runtime (run example_table calls fresh_runtime).

(** Two action sets, 1 and 2, created on the fresh runtime. *)
Definition two_sets : list Call :=
  [ CreateActionSet 1 (action_set_create_info "gameplay");
    CreateActionSet 1 (action_set_create_info "menu") ].

(** ** A session with bound actions, for the examples *)

(** Action set 1 with a boolean action (handle 4096), a float action (4160)
    and a vibration action (4224), bound for the simple controller profile to
    the left hand's select click, trigger value and haptic output.  The
    interned paths get the handles 1 to 6, in the order below. *)
Definition bound_session : list Call :=
  [ CreateActionSet 1 (action_set_create_info "gameplay");
    CreateAction 1 (action_create_info "select" XR_ACTION_TYPE_BOOLEAN_INPUT) 4096;
    CreateAction 1 (action_create_info "squeeze" XR_ACTION_TYPE_FLOAT_INPUT) 4160;
    CreateAction 1 (action_create_info "rumble" XR_ACTION_TYPE_VIBRATION_OUTPUT) 4224;
    StringToPath 1 "/interaction_profiles/khr/simple_controller";
    StringToPath 1 "/user/hand/left/input/select/click";
    StringToPath 1 "/user/hand/left/input/trigger/value";
    StringToPath 1 "/user/hand/left/output/haptic";
    StringToPath 1 "/user/gamepad";
    StringToPath 1 "/user/hand/right";
    SuggestInteractionProfileBindings 1
      (suggested_binding 1
         [ {| action := 4096; binding := 2 |};
           {| action := 4160; binding := 3 |};
           {| action := 4224; binding := 4 |} ]);
    AttachSessionActionSets 1 (attach_info [1]) ].

(** An input state with the given left-hand buttons and trigger. *)
Definition left_input (buttons : Z) (trigger : float) : pvrInputState := {|
  TimeInSeconds := 1000;
  HandButtons := (buttons, 0); HandTouches := (0, 0);
  Trigger := (trigger, float_zero); Grip := (float_zero, float_zero);
  GripForce := (float_zero, float_zero);
  JoyStick := (zero_vector2f, zero_vector2f); TouchPad := (zero_vector2f, zero_vector2f);
  TouchPadForce := (float_zero, float_zero);
  fingerIndex := (float_zero, float_zero); fingerMiddle := (float_zero, float_zero);
  fingerRing := (float_zero, float_zero); fingerPinky := (float_zero, float_zero)
|}.

(** The haptic requests of the examples. *)
Definition haptic_info (act : XrAction) : XrHapticActionInfo :=
  {| hapticActionInfo_type := XR_TYPE_HAPTIC_ACTION_INFO;
     hapticActionInfo_action := act; hapticActionInfo_subactionPath := XR_NULL_PATH |}.

Definition vibration_of (amp : float) : XrHapticBaseHeader :=
  {| haptic_type := XR_TYPE_HAPTIC_VIBRATION; duration := 1000000; frequency := float_zero;
     amplitude := amp |}.

(** ** Predicates used in the statements *)

(** The part of the state attachment depends on. *)
Definition attachment_kept (rt rt' : Runtime) : Prop :=
  m_instanceCreated rt' = m_instanceCreated rt
  ∧ m_sessionCreated rt' = m_sessionCreated rt
  ∧ m_activeActionSets rt' = m_activeActionSets rt
  ∧ m_frameLatchedActionSets rt' = m_frameLatchedActionSets rt.

(** No call of this file undoes an attachment or touches the instance and
    session flags. *)
Definition session_kept (rt rt' : Runtime) : Prop :=
  m_instanceCreated rt' = m_instanceCreated rt
  ∧ m_sessionCreated rt' = m_sessionCreated rt
  ∧ m_activeActionSets rt ⊆ m_activeActionSets rt'.


(** NaN, the one float that differs from itself. *)
Definition is_nan (f : float) : bool :=
  match f with S754_nan => true | _ => false end.

(** ** Invariants of the registries *)

(** No two handles of the path table hold the same string. *)
Definition strings_injective (rt : Runtime) : Prop :=
  ∀ (p q : XrPath) (str : string),
    m_strings rt !! p = Some str → m_strings rt !! q = Some str → p = q.

(** The handles of the path table were all issued by the counter, and none
    is the null path. *)
Definition strings_issued (rt : Runtime) : Prop :=
  0 ≤ m_stringIndex rt
  ∧ ∀ (p : XrPath) (str : string),
      m_strings rt !! p = Some str → 0 < p ∧ p ≤ m_stringIndex rt.

(** The same for the action sets. *)
Definition actionSets_issued (rt : Runtime) : Prop :=
  0 ≤ m_actionSetIndex rt
  ∧ ∀ s : XrActionSet, s ∈ m_actionSets rt → 0 < s ∧ s ≤ m_actionSetIndex rt.

(** What the controller rebinding leaves alone: everything but the path
    table, the actions' bindings, the localized names, the current profiles,
    the aim poses and the dirty flag; no action handle appears or
    disappears. *)
Definition rebinding_frame (rt rt' : Runtime) : Prop :=
  m_actionSetIndex rt' = m_actionSetIndex rt
  ∧ m_actionSets rt' = m_actionSets rt
  ∧ dom (m_actions rt') = dom (m_actions rt)
  ∧ m_suggestedBindings rt' = m_suggestedBindings rt
  ∧ m_cachedInputState rt' = m_cachedInputState rt
  ∧ m_isControllerActive rt' = m_isControllerActive rt
  ∧ m_cachedControllerType rt' = m_cachedControllerType rt.

(** A session with a 2-axis action (handle 4352) of set 1, bound for the
    simple controller profile to the right hand's thumbstick (path handle
    2). *)
Definition thumbstick_session : list Call :=
  [ CreateActionSet 1 (action_set_create_info "gameplay");
    CreateAction 1 (action_create_info "move" XR_ACTION_TYPE_VECTOR2F_INPUT) 4352;
    StringToPath 1 "/interaction_profiles/khr/simple_controller";
    StringToPath 1 "/user/hand/right/input/thumbstick";
    SuggestInteractionProfileBindings 1
      (suggested_binding 1 [ {| action := 4352; binding := 2 |} ]);
    AttachSessionActionSets 1 (attach_info [1]) ].

(** An input state with the given right-hand joystick. *)
Definition right_stick_input (stick : pvrVector2f) : pvrInputState := {|
  TimeInSeconds := 2000;
  HandButtons := (0, 0); HandTouches := (0, 0);
  Trigger := (float_zero, float_zero); Grip := (float_zero, float_zero);
  GripForce := (float_zero, float_zero);
  JoyStick := (zero_vector2f, stick); TouchPad := (zero_vector2f, zero_vector2f);
  TouchPadForce := (float_zero, float_zero);
  fingerIndex := (float_zero, float_zero); fingerMiddle := (float_zero, float_zero);
  fingerRing := (float_zero, float_zero); fingerPinky := (float_zero, float_zero)
|}.

(** Source names for the examples. *)
Definition example_names : LocalizedSourceNames :=
  {| getViveControllerLocalizedSourceName := λ _, "Trigger";
     getIndexControllerLocalizedSourceName := λ _, "Trigger";
     getSimpleControllerLocalizedSourceName := λ _, "Select" |}.

(** * Properties *)

(** ** Basic facts *)

Lemma at_side_set_side {A : Type} (arr : A * A) (side : Z) (v : A) :
  at_side (set_side arr side v) side = v.
Proof. unfold at_side, set_side. destruct (side =? 0); reflexivity. Qed.

Lemma has_attached_true (rt : Runtime) :
  has_attached rt = true ↔ m_activeActionSets rt ≠ ∅.
Proof.
  unfold has_attached. rewrite negb_true_iff, Z.eqb_neq. split.
  - intros H Heq. rewrite Heq, size_empty in H. lia.
  - intros H Hs. apply H.
    assert (Hz : size (m_activeActionSets rt) = 0%nat) by lia.
    apply size_empty_iff in Hz. by apply leibniz_equiv.
Qed.

Lemma find_string_Some (m : gmap Z string) (str : string) (p : Z) :
  find_string m str = Some p → m !! p = Some str.
Proof.
  unfold find_string. intros H.
  destruct (list_find _ _) as [[i [k s]]|] eqn:Hf; simpl in H; [|discriminate].
  injection H as <-.
  apply list_find_Some in Hf as (Hi & Hs & _). simpl in Hs. subst s.
  apply elem_of_map_to_list. eapply list_elem_of_lookup_2. exact Hi.
Qed.

(** With the null instance handle the interner always answers, and the handle
    it returns resolves to the string. *)
Lemma xrStringToPath_null_instance (rt : Runtime) (s : string) :
  ∃ p rt',
    xrStringToPath rt XR_NULL_HANDLE s = (XR_SUCCESS, Some p, rt')
    ∧ m_strings rt' !! p = Some s
    ∧ m_actions rt' = m_actions rt
    ∧ m_activeActionSets rt' = m_activeActionSets rt
    ∧ m_frameLatchedActionSets rt' = m_frameLatchedActionSets rt
    ∧ m_instanceCreated rt' = m_instanceCreated rt
    ∧ m_sessionCreated rt' = m_sessionCreated rt.
Proof.
  unfold xrStringToPath. simpl.
  destruct (find_string (m_strings rt) s) as [p|] eqn:Hf.
  - exists p, rt. split; [reflexivity|]. split; [|tauto].
    by apply find_string_Some.
  - eexists _, _. split; [reflexivity|]. simpl. split; [|tauto].
    apply lookup_insert_eq.
Qed.

(** ** What a call leaves alone *)

Lemma attachment_kept_refl (rt : Runtime) : attachment_kept rt rt.
Proof. by unfold attachment_kept. Qed.

Lemma attachment_kept_trans (a b c : Runtime) :
  attachment_kept a b → attachment_kept b c → attachment_kept a c.
Proof. unfold attachment_kept. intros (?&?&?&?) (?&?&?&?). repeat split; congruence. Qed.

Lemma xrStringToPath_kept (rt : Runtime) (i : XrInstance) (s : string) :
  attachment_kept rt (xrStringToPath rt i s).2.
Proof.
  unfold xrStringToPath. repeat case_match; simpl; by unfold attachment_kept.
Qed.

Lemma apply_bindings_kept (mapping : MappingFn) (bs : list XrActionSuggestedBinding)
    (rt : Runtime) :
  attachment_kept rt (apply_bindings mapping bs rt).
Proof.
  unfold apply_bindings. revert rt.
  induction bs as [|b bs IH]; intros rt; simpl; [apply attachment_kept_refl|].
  eapply attachment_kept_trans; [|apply IH].
  case_match; by unfold attachment_kept.
Qed.

Lemma rebindControllerActions_kept (tbl : MappingTable) (rt rt' : Runtime) (side : Z) :
  rebindControllerActions tbl rt side = Some rt' → attachment_kept rt rt'.
Proof.
  unfold rebindControllerActions.
  destruct (identify_controller _) as [[preferred localized] aimPose].
  set (rt1 := set_m_localizedControllerType _ rt).
  assert (H1 : attachment_kept rt rt1) by (by unfold attachment_kept).
  destruct (match m_suggestedBindings rt1 !! preferred with
            | Some bs => Some (preferred, bs)
            | None => find_fallback (m_suggestedBindings rt1) fallbacks
            end) as [[actual bs]|]; simpl.
  - destruct (tbl actual preferred) as [mapping|]; [|discriminate].
    pose proof (apply_bindings_kept mapping bs rt1) as H2.
    set (rt2 := apply_bindings mapping bs rt1) in *.
    destruct (string_empty actual); simpl.
    + intros [= <-]. eapply attachment_kept_trans; [exact H1|].
      eapply attachment_kept_trans; [exact H2|]. by unfold attachment_kept.
    + pose proof (xrStringToPath_kept rt2 XR_NULL_HANDLE actual) as H3.
      destruct (xrStringToPath rt2 XR_NULL_HANDLE actual) as [[r [p|]] rt3];
        [|discriminate].
      intros [= <-]. simpl in H3.
      eapply attachment_kept_trans; [exact H1|].
      eapply attachment_kept_trans; [exact H2|].
      eapply attachment_kept_trans; [exact H3|]. by unfold attachment_kept.
  - intros [= <-]. eapply attachment_kept_trans; [exact H1|]. by unfold attachment_kept.
Qed.

Lemma sync_side_kept (tbl : MappingTable) (hw : PvrDevice) (rt rt' : Runtime) (side : Z) :
  sync_side tbl hw rt side = Some rt' → attachment_kept rt rt'.
Proof.
  unfold sync_side. case_match.
  - intros Hr. apply rebindControllerActions_kept in Hr.
    eapply attachment_kept_trans; [|exact Hr]. by unfold attachment_kept.
  - intros [= <-]. by unfold attachment_kept.
Qed.

(** ** The loops of attachment and synchronisation *)

Lemma attach_loop_grows (known : gset Z) (sets : list XrActionSet) (active : gset Z) :
  active ⊆ (attach_loop known sets active).2.
Proof.
  revert active. induction sets as [|s sets IH]; intros active; simpl; [done|].
  case_match; simpl; [done|].
  transitivity ({[s]} ∪ active); [set_solver|apply IH].
Qed.

Lemma attach_loop_success (known : gset Z) (sets : list XrActionSet) (active : gset Z) :
  (attach_loop known sets active).1 = XR_SUCCESS →
  (attach_loop known sets active).2 = list_to_set sets ∪ active.
Proof.
  revert active. induction sets as [|s sets IH]; intros active; simpl.
  - intros _. set_solver.
  - case_match; simpl; [discriminate|].
    intros Hs. rewrite (IH _ Hs). set_solver.
Qed.

Lemma latch_loop_success (attached : gset Z) (sets : list XrActiveActionSet)
    (latched : gset Z) :
  (latch_loop attached sets latched).1 = XR_SUCCESS →
  (latch_loop attached sets latched).2
  = list_to_set (activeActionSet_actionSet <$> sets) ∪ latched.
Proof.
  revert latched. induction sets as [|s sets IH]; intros latched; simpl.
  - intros _. set_solver.
  - case_match; simpl; [discriminate|].
    intros Hs. rewrite (IH _ Hs). set_solver.
Qed.

(** A successful synchronisation changes, of the attachment state, only the
    latched sets, and those through the first loop alone. *)
Lemma xrSyncActions_success (tbl : MappingTable) (hw : PvrDevice) (rt rt' : Runtime)
    (session : XrSession) (syncInfo : XrActionsSyncInfo) :
  xrSyncActions tbl hw rt session syncInfo = Some (XR_SUCCESS, rt') →
  m_frameLatchedActionSets rt'
  = list_to_set (activeActionSet_actionSet <$> activeActionSets syncInfo)
    ∪ m_frameLatchedActionSets rt.
Proof.
  unfold xrSyncActions.
  destruct (negb (bool_decide _)); [discriminate|].
  destruct (session_invalid rt session); [discriminate|].
  pose proof (latch_loop_success (m_activeActionSets rt) (activeActionSets syncInfo)
                (m_frameLatchedActionSets rt)) as Hl.
  destruct (latch_loop _ _ _) as [r latched]. simpl in *.
  destruct r; try discriminate.
  destruct (pvr_getInputState hw) as [st|]; [|discriminate].
  destruct (sync_side _ _ _ 0) as [rt3|] eqn:H0; [|discriminate].
  destruct (sync_side _ _ rt3 1) as [rt4|] eqn:H1; [|discriminate].
  intros [= <-].
  apply sync_side_kept in H0 as (_ & _ & _ & H0).
  apply sync_side_kept in H1 as (_ & _ & _ & H1).
  rewrite H1, H0. simpl. by apply Hl.
Qed.

(** ** What every call preserves *)

Lemma attachment_session_kept (rt rt' : Runtime) :
  attachment_kept rt rt' → session_kept rt rt'.
Proof. intros (?&?&Ha&_). repeat split; [done|done|by rewrite Ha]. Qed.

Lemma session_kept_trans (a b c : Runtime) :
  session_kept a b → session_kept b c → session_kept a c.
Proof.
  intros (?&?&?) (?&?&?). repeat split; [congruence|congruence|by etransitivity].
Qed.

Ltac kept_by_cases :=
  repeat case_match; simpl in *; simplify_eq; simpl;
  try (apply attachment_session_kept; by unfold attachment_kept).

Lemma xrSyncActions_kept (tbl : MappingTable) (hw : PvrDevice) (rt rt' : Runtime)
    (session : XrSession) (syncInfo : XrActionsSyncInfo) (r : XrResult) :
  xrSyncActions tbl hw rt session syncInfo = Some (r, rt') → session_kept rt rt'.
Proof.
  unfold xrSyncActions. intros Hs.
  set (rt1 := set_m_frameLatchedActionSets _ rt) in Hs.
  assert (H1 : session_kept rt rt1) by (by unfold session_kept).
  repeat case_match; simplify_eq; try done;
    try (apply attachment_session_kept; apply attachment_kept_refl).
  eapply session_kept_trans; [exact H1|].
  apply attachment_session_kept.
  match goal with
  | Ha : sync_side _ _ _ 0 = Some ?a, Hb : sync_side _ _ ?a 1 = Some _ |- _ =>
      apply sync_side_kept in Ha; apply sync_side_kept in Hb;
      eapply attachment_kept_trans; [|exact Hb];
      eapply attachment_kept_trans; [|exact Ha]
  end.
  by unfold attachment_kept.
Qed.

Lemma exec_kept (tbl : MappingTable) (c : Call) (rt rt' : Runtime) (r : XrResult) :
  exec tbl c rt = Some (r, rt') → session_kept rt rt'.
Proof.
  destruct c; simpl.
  - intros [= _ <-]. apply attachment_session_kept, xrStringToPath_kept.
  - unfold xrCreateActionSet. intros [= _ <-]. kept_by_cases.
  - unfold xrDestroyActionSet. intros Hx. kept_by_cases.
  - unfold xrCreateAction. intros [= _ <-]. kept_by_cases.
  - unfold xrDestroyAction. intros Hx. kept_by_cases.
  - unfold xrSuggestInteractionProfileBindings. intros Hx. kept_by_cases.
  - unfold xrAttachSessionActionSets. intros Hx. kept_by_cases.
    repeat split. simpl. apply attach_loop_grows.
  - unfold xrGetActionStateBoolean. intros Hx.
    destruct (negb _ || negb _); [simpl in Hx; kept_by_cases|].
    kept_by_cases.
  - unfold xrGetActionStateFloat. intros Hx.
    destruct (negb _ || negb _); [simpl in Hx; kept_by_cases|].
    kept_by_cases.
  - unfold xrGetActionStateVector2f. intros [= _ <-]. kept_by_cases.
  - apply xrSyncActions_kept.
  - unfold xrEnumerateBoundSourcesForAction. intros [= _ <-].
    repeat case_match; simplify_eq; simpl;
      try (apply attachment_session_kept; apply attachment_kept_refl);
      match goal with
      | H : xrStringToPath ?a ?b ?c = (_, _, ?d) |- session_kept _ ?d =>
          pose proof (xrStringToPath_kept a b c) as Hk; rewrite H in Hk;
          by apply attachment_session_kept
      end.
Qed.

Lemma run_kept (tbl : MappingTable) (calls : list Call) (rt rt' : Runtime) :
  run tbl calls rt = Some rt' → session_kept rt rt'.
Proof.
  revert rt. induction calls as [|c calls IH]; intros rt; simpl.
  - intros [= <-]. by unfold session_kept.
  - destruct (exec tbl c rt) as [[r rt1]|] eqn:He; [|discriminate].
    intros Hr. eapply session_kept_trans; [by eapply exec_kept|by apply IH].
Qed.

(** ** Attachment *)

(** C3, as stated, fails: an attach with an empty list succeeds and leaves
    nothing attached, so a second attach and a later binding suggestion both
    succeed. *)
Lemma attach_empty_list_does_not_freeze :
  (xrAttachSessionActionSets fresh_runtime 1 (attach_info [])).1 = XR_SUCCESS
  ∧ (xrAttachSessionActionSets
       (xrAttachSessionActionSets fresh_runtime 1 (attach_info [])).2 1 (attach_info [])).1
    = XR_SUCCESS
  ∧ (xrSuggestInteractionProfileBindings
       (xrAttachSessionActionSets fresh_runtime 1 (attach_info [])).2 1
       (suggested_binding 0 [])).1
    = XR_SUCCESS.
Proof. vm_compute. auto. Qed.

(** C3, amended: after a successful attach that lists at least one action
    set, and whatever calls of this file follow, no attach and no binding
    suggestion succeeds any more; a well-formed attach on the session, and a
    well-formed suggestion on the instance, fail with
    ActionSetsAlreadyAttached and leave the state unchanged. *)
Theorem attach_freezes_bindings (tbl : MappingTable) (rt rt1 rt2 : Runtime)
    (session : XrSession) (attachInfo : XrSessionActionSetsAttachInfo)
    (calls : list Call) :
  xrAttachSessionActionSets rt session attachInfo = (XR_SUCCESS, rt1) →
  actionSets attachInfo ≠ [] →
  run tbl calls rt1 = Some rt2 →
  (∀ (session' : XrSession) (attachInfo' : XrSessionActionSetsAttachInfo),
      (xrAttachSessionActionSets rt2 session' attachInfo').1 ≠ XR_SUCCESS
      ∧ (attachInfo_type attachInfo' = XR_TYPE_SESSION_ACTION_SETS_ATTACH_INFO →
         session' = session →
         xrAttachSessionActionSets rt2 session' attachInfo'
         = (XR_ERROR_ACTIONSETS_ALREADY_ATTACHED, rt2)))
  ∧ (∀ (instance : XrInstance) (sb : XrInteractionProfileSuggestedBinding),
        (xrSuggestInteractionProfileBindings rt2 instance sb).1 ≠ XR_SUCCESS
        ∧ (suggestedBinding_type sb = XR_TYPE_INTERACTION_PROFILE_SUGGESTED_BINDING →
           instance_invalid rt2 instance = false →
           xrSuggestInteractionProfileBindings rt2 instance sb
           = (XR_ERROR_ACTIONSETS_ALREADY_ATTACHED, rt2))).
Proof.
  intros Hattach Hne Hrun.
  (* the first attach passed the session check and attached something *)
  unfold xrAttachSessionActionSets in Hattach.
  destruct (negb (bool_decide (attachInfo_type attachInfo = _))); [discriminate|].
  destruct (session_invalid rt session) eqn:Hsess; [discriminate|].
  destruct (has_attached rt); [discriminate|].
  injection Hattach as Hres Hrt1.
  assert (∃ s, s ∈ m_activeActionSets rt1) as [s Hs].
  { destruct (actionSets attachInfo) as [|s sets] eqn:Hsets; [done|].
    exists s. subst rt1. simpl in *.
    destruct (negb (bool_decide (s ∈ m_actionSets rt))); [discriminate|].
    apply (attach_loop_grows (m_actionSets rt) sets). set_solver. }
  (* nothing afterwards undoes it *)
  apply run_kept in Hrun as (Hi & Hse & Hsub).
  assert (Hatt : has_attached rt2 = true).
  { apply has_attached_true. intros He. apply Hsub in Hs. rewrite He in Hs. set_solver. }
  assert (Hsess2 : session_invalid rt2 session = false).
  { unfold session_invalid in *. rewrite Hse. subst rt1. exact Hsess. }
  split.
  - intros session' attachInfo'. unfold xrAttachSessionActionSets. rewrite Hatt. split.
    + repeat case_match; simpl; discriminate.
    + intros -> ->. rewrite Hsess2.
      rewrite bool_decide_eq_true_2 by reflexivity. reflexivity.
  - intros instance sb. unfold xrSuggestInteractionProfileBindings. rewrite Hatt. split.
    + repeat case_match; simpl; discriminate.
    + intros -> ->. rewrite bool_decide_eq_true_2 by reflexivity. reflexivity.
Qed.

Lemma attach_freezes_bindings_witness :
  xrAttachSessionActionSets
    (after (two_sets
            ++ [ AttachSessionActionSets 1 (attach_info [1; 2]);
                 SyncActions (device zero_InputState None None) 1 (sync_info [1]);
                 DestroyActionSet 1 ]))
    1 (attach_info [1; 2])
  = (XR_ERROR_ACTIONSETS_ALREADY_ATTACHED,
     after (two_sets
            ++ [ AttachSessionActionSets 1 (attach_info [1; 2]);
                 SyncActions (device zero_InputState None None) 1 (sync_info [1]);
                 DestroyActionSet 1 ])).
Proof.
  refine (proj2 (proj1 (attach_freezes_bindings example_table (after two_sets)
                   (after (two_sets ++ [AttachSessionActionSets 1 (attach_info [1; 2])]))
                   _ 1 (attach_info [1; 2])
                   [ SyncActions (device zero_InputState None None) 1 (sync_info [1]);
                     DestroyActionSet 1 ] _ _ _) 1 (attach_info [1; 2])) _ _).
  - vm_compute. reflexivity.
  - discriminate.
  - vm_compute. reflexivity.
  - reflexivity.
  - reflexivity.
Defined.

(** C6: the code returns HandleInvalid for [1; 99] (99 is not an action set)
    after it has attached set 1, and the attached collection is no longer
    empty: a later, valid attach of [1] is refused. *)
Theorem attach_unknown_handle_keeps_earlier_sets :
  (xrAttachSessionActionSets (after two_sets) 1 (attach_info [1; 99])).1
  = XR_ERROR_HANDLE_INVALID
  ∧ m_activeActionSets (after two_sets) = ∅
  ∧ m_activeActionSets
      (xrAttachSessionActionSets (after two_sets) 1 (attach_info [1; 99])).2
    = {[1]}
  ∧ (xrAttachSessionActionSets
       (xrAttachSessionActionSets (after two_sets) 1 (attach_info [1; 99])).2
       1 (attach_info [1])).1
    = XR_ERROR_ACTIONSETS_ALREADY_ATTACHED.
Proof. vm_compute. auto. Qed.

(** ** Synchronisation and the latched sets *)

(** C2, as stated, fails: set 1 was latched by a first synchronisation; a
    second one declares only set 2, succeeds, and leaves both latched. *)
Lemma sync_does_not_replace_latch :
  (λ r : XrResult * Runtime, (r.1, m_frameLatchedActionSets r.2))
    <$> xrSyncActions example_table (device zero_InputState None None)
          (after (two_sets
                  ++ [ AttachSessionActionSets 1 (attach_info [1; 2]);
                       SyncActions (device zero_InputState None None) 1 (sync_info [1]) ]))
          1 (sync_info [2])
  = Some (XR_SUCCESS, {[1; 2]})
  ∧ ({[1; 2]} : gset Z) ≠ {[2]}.
Proof.
  split; [vm_compute; reflexivity|].
  intros H. assert (H1 : (1 : Z) ∈ ({[2]} : gset Z)) by (rewrite <- H; set_solver).
  set_solver.
Qed.

(** C2, amended: a successful synchronisation adds the declared sets to the
    latched collection; a set is latched afterwards exactly when it was
    declared in this call or was latched before it. *)
Theorem sync_adds_declared_sets_to_latch (tbl : MappingTable) (hw : PvrDevice)
    (rt rt' : Runtime) (session : XrSession) (syncInfo : XrActionsSyncInfo) :
  xrSyncActions tbl hw rt session syncInfo = Some (XR_SUCCESS, rt') →
  ∀ s : XrActionSet,
    s ∈ m_frameLatchedActionSets rt'
    ↔ s ∈ (activeActionSet_actionSet <$> activeActionSets syncInfo)
      ∨ s ∈ m_frameLatchedActionSets rt.
Proof.
  intros Hs s. rewrite (xrSyncActions_success _ _ _ _ _ _ Hs).
  rewrite elem_of_union, elem_of_list_to_set. reflexivity.
Qed.

Lemma sync_adds_declared_sets_to_latch_witness :
  1 ∈ m_frameLatchedActionSets
        (after (two_sets
                ++ [ AttachSessionActionSets 1 (attach_info [1; 2]);
                     SyncActions (device zero_InputState None None) 1 (sync_info [1]);
                     SyncActions (device zero_InputState None None) 1 (sync_info [2]) ])).
Proof.
  refine (proj2 (sync_adds_declared_sets_to_latch example_table
                   (device zero_InputState None None)
                   (after (two_sets
                           ++ [ AttachSessionActionSets 1 (attach_info [1; 2]);
                                SyncActions (device zero_InputState None None) 1
                                  (sync_info [1]) ]))
                   _ 1 (sync_info [2]) _ 1) _).
  - vm_compute. reflexivity.
  - right. apply (bool_decide_unpack _). vm_compute. exact I.
Defined.

(** ** Path to string *)

(** C4: for an interned, non-empty string of length [n], a capacity of [n]
    (one short of the required [n + 1]) is not refused: the call succeeds,
    reports [n + 1], and passes the too small buffer to [sprintf_s]. *)
Theorem xrPathToString_capacity_one_short (rt : Runtime) (instance : XrInstance)
    (p : XrPath) (str : string) :
  negb (instance =? XR_NULL_PATH) && instance_invalid rt instance = false →
  m_strings rt !! p = Some str →
  0 < Z.of_nat (String.length str) ∧ Z.of_nat (String.length str) < 2 ^ 32 - 1 →
  xrPathToString rt instance p (Z.of_nat (String.length str)) true
  = (XR_SUCCESS, Some (Z.of_nat (String.length str) + 1), BufferConstraintViolation).
Proof.
  intros Hi Hp Hlen. unfold xrPathToString. rewrite Hi, Hp.
  assert (Hz : (Z.of_nat (String.length str) =? 0) = false) by (apply Z.eqb_neq; lia).
  rewrite Hz, Z.ltb_irrefl. simpl.
  unfold sprintf_s, wrap32.
  rewrite (Z.mod_small (Z.of_nat (String.length str))) by lia.
  rewrite Z.mod_small by lia.
  destruct (Z.leb_spec (Z.of_nat (String.length str) + 1) (Z.of_nat (String.length str)));
    [lia|reflexivity].
Qed.

Lemma xrPathToString_capacity_one_short_witness :
  xrPathToString (after [StringToPath 1 "/user/hand/left"]) 1 1 15 true
  = (XR_SUCCESS, Some 16, BufferConstraintViolation).
Proof.
  refine (xrPathToString_capacity_one_short
            (after [StringToPath 1 "/user/hand/left"]) 1 1 "/user/hand/left" _ _ _).
  - reflexivity.
  - vm_compute. reflexivity.
  - simpl. lia.
Defined.

(** The other cases of the size convention: a zero capacity asks for the
    size, a capacity below the length is refused, and a capacity that holds
    the string and its terminator gets the string. *)
Lemma xrPathToString_size_convention (rt : Runtime) (p : XrPath) (str : string)
    (capacity : Z) :
  m_strings rt !! p = Some str →
  Z.of_nat (String.length str) < 2 ^ 32 - 1 →
  xrPathToString rt XR_NULL_PATH p 0 true
  = (XR_SUCCESS, Some (Z.of_nat (String.length str) + 1), BufferUntouched)
  ∧ (0 < capacity ∧ capacity < Z.of_nat (String.length str) →
     xrPathToString rt XR_NULL_PATH p capacity true
     = (XR_ERROR_SIZE_INSUFFICIENT, None, BufferUntouched))
  ∧ (Z.of_nat (String.length str) + 1 ≤ capacity →
     xrPathToString rt XR_NULL_PATH p capacity true
     = (XR_SUCCESS, Some (Z.of_nat (String.length str) + 1), BufferString str)).
Proof.
  intros Hp Hlen. unfold xrPathToString. rewrite Hp. simpl.
  unfold sprintf_s, wrap32.
  rewrite (Z.mod_small (Z.of_nat (String.length str))) by lia.
  rewrite Z.mod_small by lia.
  split; [reflexivity|]. split; intros Hc.
  - assert (Hz : (capacity =? 0) = false) by (apply Z.eqb_neq; lia).
    rewrite Hz. simpl.
    destruct (Z.ltb_spec capacity (Z.of_nat (String.length str))); [reflexivity|lia].
  - assert (Hz : (capacity =? 0) = false) by (apply Z.eqb_neq; lia).
    rewrite Hz. simpl.
    destruct (Z.ltb_spec capacity (Z.of_nat (String.length str))); [lia|].
    destruct (Z.leb_spec (Z.of_nat (String.length str) + 1) capacity); [reflexivity|lia].
Qed.

(** ** Successful queries *)

(** A successful query went through the computation of [isActive] and
    [currentState], the change detection and the update of the cache. *)
Lemma xrGetActionStateBoolean_success (rt rt' : Runtime) (session : XrSession)
    (getInfo : XrActionStateGetInfo) (state state' : XrActionStateBoolean)
    (xrAction : Action) :
  xrGetActionStateBoolean rt session getInfo state = Some (XR_SUCCESS, state', rt') →
  m_actions rt !! getInfo_action getInfo = Some xrAction →
  ∃ (active : bool) (cur : Z),
    boolean_state rt xrAction (getInfo_subactionPath getInfo) = Some (active, cur)
    ∧ isActive state' = active
    ∧ currentState state' = cur
    ∧ changedSinceLastSync state' = xorb (bool_of_XrBool32 cur) (lastBoolValue xrAction)
    ∧ lastChangeTime state'
      = (if changedSinceLastSync state'
         then pvrTimeToXrTime (TimeInSeconds (m_cachedInputState rt))
         else lastBoolValueChangedTime xrAction)
    ∧ rt' = set_m_actions
              (<[getInfo_action getInfo :=
                   set_lastBoolValue (bool_of_XrBool32 cur) (lastChangeTime state') xrAction]>
                 (m_actions rt)) rt
    ∧ session_invalid rt session = false
    ∧ state_type state = XR_TYPE_ACTION_STATE_BOOLEAN
    ∧ getInfo_type getInfo = XR_TYPE_ACTION_STATE_GET_INFO
    ∧ type xrAction = XR_ACTION_TYPE_BOOLEAN_INPUT
    ∧ actionSet xrAction ∈ m_activeActionSets rt.
Proof.
  unfold xrGetActionStateBoolean. intros Hq Ha. rewrite Ha in Hq.
  destruct (bool_decide (getInfo_type getInfo = _)) eqn:Hg; [|discriminate].
  destruct (bool_decide (state_type state = _)) eqn:Ht; [|discriminate].
  simpl in Hq.
  destruct (session_invalid rt session); [discriminate|].
  destruct (bool_decide (type xrAction = _)) eqn:Hty; [|discriminate].
  destruct (bool_decide (actionSet xrAction ∈ _)) eqn:Hs; [|discriminate].
  simpl in Hq.
  destruct (boolean_state rt xrAction _) as [[active cur]|]; [|discriminate].
  injection Hq as <- <-. exists active, cur. simpl.
  apply bool_decide_eq_true_1 in Hg, Ht, Hty, Hs. tauto.
Qed.

Lemma xrGetActionStateFloat_success (rt rt' : Runtime) (session : XrSession)
    (getInfo : XrActionStateGetInfo) (state state' : XrActionStateFloat)
    (xrAction : Action) :
  xrGetActionStateFloat rt session getInfo state = Some (XR_SUCCESS, state', rt') →
  m_actions rt !! getInfo_action getInfo = Some xrAction →
  ∃ (active : bool) (cur : float),
    float_state rt xrAction (getInfo_subactionPath getInfo) = Some (active, cur)
    ∧ isActive state' = active
    ∧ currentState state' = cur
    ∧ changedSinceLastSync state' = float_ne cur (lastFloatValue xrAction)
    ∧ lastChangeTime state'
      = (if changedSinceLastSync state'
         then pvrTimeToXrTime (TimeInSeconds (m_cachedInputState rt))
         else lastFloatValueChangedTime xrAction)
    ∧ rt' = set_m_actions
              (<[getInfo_action getInfo :=
                   set_lastFloatValue cur (lastChangeTime state') xrAction]>
                 (m_actions rt)) rt
    ∧ session_invalid rt session = false
    ∧ state_type state = XR_TYPE_ACTION_STATE_FLOAT
    ∧ getInfo_type getInfo = XR_TYPE_ACTION_STATE_GET_INFO
    ∧ type xrAction = XR_ACTION_TYPE_FLOAT_INPUT
    ∧ actionSet xrAction ∈ m_activeActionSets rt.
Proof.
  unfold xrGetActionStateFloat. intros Hq Ha. rewrite Ha in Hq.
  destruct (bool_decide (getInfo_type getInfo = _)) eqn:Hg; [|discriminate].
  destruct (bool_decide (state_type state = _)) eqn:Ht; [|discriminate].
  simpl in Hq.
  destruct (session_invalid rt session); [discriminate|].
  destruct (bool_decide (type xrAction = _)) eqn:Hty; [|discriminate].
  destruct (bool_decide (actionSet xrAction ∈ _)) eqn:Hs; [|discriminate].
  simpl in Hq.
  destruct (float_state rt xrAction _) as [[active cur]|]; [|discriminate].
  injection Hq as <- <-. exists active, cur. simpl.
  apply bool_decide_eq_true_1 in Hg, Ht, Hty, Hs. tauto.
Qed.

Lemma xrGetActionStateVector2f_success (rt rt' : Runtime) (session : XrSession)
    (getInfo : XrActionStateGetInfo) (state state' : XrActionStateVector2f)
    (xrAction : Action) :
  xrGetActionStateVector2f rt session getInfo state = (XR_SUCCESS, state', rt') →
  m_actions rt !! getInfo_action getInfo = Some xrAction →
  ∃ (active : bool) (cur : pvrVector2f),
    vector2f_state rt xrAction (getInfo_subactionPath getInfo) = (active, cur)
    ∧ isActive state' = active
    ∧ currentState state' = cur
    ∧ changedSinceLastSync state'
      = float_ne (x cur) (x (lastVector2fValue xrAction))
        || float_ne (y cur) (y (lastVector2fValue xrAction))
    ∧ lastChangeTime state'
      = (if changedSinceLastSync state'
         then pvrTimeToXrTime (TimeInSeconds (m_cachedInputState rt))
         else lastVector2fValueChangedTime xrAction)
    ∧ rt' = set_m_actions
              (<[getInfo_action getInfo :=
                   set_lastVector2fValue cur (lastChangeTime state') xrAction]>
                 (m_actions rt)) rt
    ∧ session_invalid rt session = false
    ∧ state_type state = XR_TYPE_ACTION_STATE_VECTOR2F
    ∧ getInfo_type getInfo = XR_TYPE_ACTION_STATE_GET_INFO
    ∧ type xrAction = XR_ACTION_TYPE_VECTOR2F_INPUT
    ∧ actionSet xrAction ∈ m_activeActionSets rt.
Proof.
  unfold xrGetActionStateVector2f. intros Hq Ha. rewrite Ha in Hq.
  destruct (bool_decide (getInfo_type getInfo = _)) eqn:Hg; [|discriminate].
  destruct (bool_decide (state_type state = _)) eqn:Ht; [|discriminate].
  simpl in Hq.
  destruct (session_invalid rt session); [discriminate|].
  destruct (bool_decide (type xrAction = _)) eqn:Hty; [|discriminate].
  destruct (bool_decide (actionSet xrAction ∈ _)) eqn:Hs; [|discriminate].
  simpl in Hq.
  destruct (vector2f_state rt xrAction _) as [active cur].
  injection Hq as <- <-. exists active, cur. simpl.
  apply bool_decide_eq_true_1 in Hg, Ht, Hty, Hs. tauto.
Qed.

Lemma xrGetActionStatePose_success (rt : Runtime) (session : XrSession)
    (getInfo : XrActionStateGetInfo) (state state' : XrActionStatePose)
    (xrAction : Action) :
  xrGetActionStatePose rt session getInfo state = (XR_SUCCESS, state') →
  m_actions rt !! getInfo_action getInfo = Some xrAction →
  pose_isActive state' = pose_state rt xrAction (getInfo_subactionPath getInfo).
Proof.
  unfold xrGetActionStatePose. intros Hq Ha. rewrite Ha in Hq.
  repeat case_match; simplify_eq. reflexivity.
Qed.

(** The boolean query never dereferences a null pointer. *)
Lemma boolean_state_returns (rt : Runtime) (xrAction : Action) (sub : XrPath) :
  is_Some (boolean_state rt xrAction sub).
Proof.
  unfold boolean_state.
  destruct (buttonMap xrAction), (floatValue xrAction); simpl;
    repeat case_match; eauto; simpl in *; discriminate.
Qed.

Lemma xrGetActionStateBoolean_returns (rt : Runtime) (session : XrSession)
    (getInfo : XrActionStateGetInfo) (state : XrActionStateBoolean) :
  is_Some (xrGetActionStateBoolean rt session getInfo state).
Proof.
  unfold xrGetActionStateBoolean. repeat case_match; eauto.
  match goal with
  | H : boolean_state ?r ?a ?s = None |- _ =>
      destruct (boolean_state_returns r a s) as [v Hv]; congruence
  end.
Qed.

(** ** Activity of an action *)

Lemma getActionSide_cases (fullPath : string) :
  (startsWith fullPath "/user/hand/left" = true ∧ getActionSide fullPath = 0)
  ∨ (startsWith fullPath "/user/hand/left" = false
     ∧ startsWith fullPath "/user/hand/right" = true ∧ getActionSide fullPath = 1)
  ∨ (startsWith fullPath "/user/hand/left" = false
     ∧ startsWith fullPath "/user/hand/right" = false ∧ getActionSide fullPath = -1).
Proof.
  unfold getActionSide.
  destruct (startsWith fullPath "/user/hand/left");
    destruct (startsWith fullPath "/user/hand/right"); tauto.
Qed.









(** ** Current state of a boolean action *)



(** ** Current interaction profile *)

(** C10: on a valid session, a null top-level path is answered with the left
    hand's current interaction profile, and a top-level path that resolves to
    no hand is answered with the null path; both calls succeed. *)
Theorem xrGetCurrentInteractionProfile_default_and_unsupported (rt : Runtime)
    (session : XrSession) (topLevelUserPath : XrPath) (state : XrInteractionProfileState) :
  interactionProfileState_type state = XR_TYPE_INTERACTION_PROFILE_STATE →
  session_invalid rt session = false →
  (topLevelUserPath = XR_NULL_PATH →
   xrGetCurrentInteractionProfile rt session topLevelUserPath state
   = (XR_SUCCESS,
      {| interactionProfileState_type := XR_TYPE_INTERACTION_PROFILE_STATE;
         interactionProfileState_interactionProfile := (m_currentInteractionProfile rt).1 |}))
  ∧ (topLevelUserPath ≠ XR_NULL_PATH →
     startsWith (getXrPath rt topLevelUserPath) "/user/hand/left" = false →
     startsWith (getXrPath rt topLevelUserPath) "/user/hand/right" = false →
     xrGetCurrentInteractionProfile rt session topLevelUserPath state
     = (XR_SUCCESS,
        {| interactionProfileState_type := XR_TYPE_INTERACTION_PROFILE_STATE;
           interactionProfileState_interactionProfile := XR_NULL_PATH |})).
Proof.
  intros Hty Hs. unfold xrGetCurrentInteractionProfile.
  rewrite Hty, Hs. rewrite bool_decide_eq_true_2 by reflexivity. simpl. split.
  - intros ->. reflexivity.
  - intros Hne Hl Hr. apply Z.eqb_neq in Hne. rewrite Hne. simpl.
    unfold getActionSide. rewrite Hl, Hr. reflexivity.
Qed.

Lemma xrGetCurrentInteractionProfile_default_and_unsupported_witness :
  xrGetCurrentInteractionProfile
    (after (bound_session
            ++ [SyncActions (device (left_input 0 float_zero) (Some "knuckles") None)
                  1 (sync_info [1])]))
    1 XR_NULL_PATH {| interactionProfileState_type := XR_TYPE_INTERACTION_PROFILE_STATE;
                      interactionProfileState_interactionProfile := 77 |}
  = (XR_SUCCESS,
     {| interactionProfileState_type := XR_TYPE_INTERACTION_PROFILE_STATE;
        interactionProfileState_interactionProfile := 1 |})
  ∧ xrGetCurrentInteractionProfile
      (after (bound_session
              ++ [SyncActions (device (left_input 0 float_zero) (Some "knuckles") None)
                    1 (sync_info [1])]))
      1 5 {| interactionProfileState_type := XR_TYPE_INTERACTION_PROFILE_STATE;
             interactionProfileState_interactionProfile := 77 |}
    = (XR_SUCCESS,
       {| interactionProfileState_type := XR_TYPE_INTERACTION_PROFILE_STATE;
          interactionProfileState_interactionProfile := XR_NULL_PATH |}).
Proof.
  split.
  - refine (proj1 (xrGetCurrentInteractionProfile_default_and_unsupported
                     (after (bound_session
                             ++ [SyncActions
                                   (device (left_input 0 float_zero) (Some "knuckles") None)
                                   1 (sync_info [1])]))
                     1 XR_NULL_PATH _ _ _) _); reflexivity.
  - refine (proj2 (xrGetCurrentInteractionProfile_default_and_unsupported
                     (after (bound_session
                             ++ [SyncActions
                                   (device (left_input 0 float_zero) (Some "knuckles") None)
                                   1 (sync_info [1])]))
                     1 5 _ _ _) _ _ _); [reflexivity|reflexivity|discriminate| |];
      vm_compute; reflexivity.
Defined.

(** ** Haptics *)

Lemma string_length_app (s1 s2 : string) :
  String.length (s1 +:+ s2) = (String.length s1 + String.length s2)%nat.
Proof. induction s1 as [|c s1 IH]; simpl; [reflexivity|by rewrite IH]. Qed.

Lemma substring_app_skip (s1 s2 : string) (k m : nat) :
  String.substring (String.length s1 + k) m (s1 +:+ s2) = String.substring k m s2.
Proof. induction s1 as [|c s1 IH]; simpl; [reflexivity|exact IH]. Qed.

(** A suffix of the bound path is a suffix of the full action path. *)
Lemma endsWith_app (s1 s2 suffix : string) :
  endsWith s2 suffix = true → endsWith (s1 +:+ s2) suffix = true.
Proof.
  unfold endsWith. rewrite string_length_app.
  destruct (Nat.leb_spec (String.length suffix) (String.length s2)) as [Hle|]; [|discriminate].
  intros Hs.
  destruct (Nat.leb_spec (String.length suffix) (String.length s1 + String.length s2));
    [|lia].
  replace (String.length s1 + String.length s2 - String.length suffix)%nat
    with (String.length s1 + (String.length s2 - String.length suffix))%nat by lia.
  by rewrite substring_app_skip.
Qed.

Lemma endsWith_nonempty (s suffix : string) :
  endsWith s suffix = true → suffix ≠ "" → string_empty s = false.
Proof.
  unfold endsWith. destruct s; simpl; [|reflexivity].
  destruct suffix; [congruence|discriminate].
Qed.

Lemma getActionPath_endsWith (rt : Runtime) (xrAction : Action) (sub : XrPath)
    (suffix : string) :
  endsWith (path xrAction) suffix = true →
  endsWith (getActionPath rt xrAction sub) suffix = true.
Proof. intros H. unfold getActionPath. by apply endsWith_app. Qed.

(** Chain entries before the first vibration structure are skipped. *)
Lemma haptic_loop_skip (pulse_ok : bool) (side : Z)
    (before rest : list XrHapticBaseHeader) :
  Forall (λ e, haptic_type e ≠ XR_TYPE_HAPTIC_VIBRATION) before →
  haptic_loop pulse_ok side (before ++ rest) = haptic_loop pulse_ok side rest.
Proof.
  induction 1 as [|e before He _ IH]; simpl; [reflexivity|].
  by rewrite bool_decide_eq_false_2.
Qed.

(** A zero or negative amplitude is not greater than zero. *)
Lemma float_gt_zero_false (f : float) :
  match f with
  | S754_zero _ | S754_infinity true | S754_finite true _ _ => float_gt f float_zero = false
  | _ => True
  end.
Proof. destruct f as [s|[]| |[] m e]; done. Qed.

(** C9: a haptic call that passes validation, on a vibration action whose
    bound path ends in /output/haptic and resolves to a hand, makes exactly
    one pulse call, with the payload's amplitude, when that amplitude is
    greater than zero; otherwise it succeeds without any hardware call; the
    duration and the frequency of the payload change nothing. *)
Theorem haptic_pulse_follows_amplitude (pulse_ok : bool) (rt : Runtime)
    (session : XrSession) (info : XrHapticActionInfo) (xrAction : Action)
    (before after_ : list XrHapticBaseHeader) (vibration : XrHapticBaseHeader) :
  hapticActionInfo_type info = XR_TYPE_HAPTIC_ACTION_INFO →
  session_invalid rt session = false →
  m_actions rt !! hapticActionInfo_action info = Some xrAction →
  type xrAction = XR_ACTION_TYPE_VIBRATION_OUTPUT →
  actionSet xrAction ∈ m_activeActionSets rt →
  endsWith (path xrAction) "/output/haptic" = true →
  0 ≤ getActionSide (getActionPath rt xrAction (hapticActionInfo_subactionPath info)) →
  Forall (λ e, haptic_type e ≠ XR_TYPE_HAPTIC_VIBRATION) before →
  haptic_type vibration = XR_TYPE_HAPTIC_VIBRATION →
  (float_gt (amplitude vibration) float_zero = true →
   xrApplyHapticFeedback pulse_ok rt session info (before ++ vibration :: after_)
   = (if pulse_ok then XR_SUCCESS else XR_ERROR_RUNTIME_FAILURE,
      [pvr_triggerHapticPulse
         (if getActionSide
               (getActionPath rt xrAction (hapticActionInfo_subactionPath info)) =? 0
          then pvrTrackedDevice_LeftController else pvrTrackedDevice_RightController)
         (amplitude vibration)]))
  ∧ (float_gt (amplitude vibration) float_zero = false →
     xrApplyHapticFeedback pulse_ok rt session info (before ++ vibration :: after_)
     = (XR_SUCCESS, []))
  ∧ (∀ (d : Z) (f : float),
        xrApplyHapticFeedback pulse_ok rt session info
          (before
           ++ {| haptic_type := XR_TYPE_HAPTIC_VIBRATION; duration := d; frequency := f;
                 amplitude := amplitude vibration |} :: after_)
        = xrApplyHapticFeedback pulse_ok rt session info (before ++ vibration :: after_)).
Proof.
  intros Hty Hs Ha Hvib Hset Hout Hside Hbefore Hv.
  assert (Hcall : ∀ chain,
             xrApplyHapticFeedback pulse_ok rt session info (before ++ chain)
             = haptic_loop pulse_ok
                 (getActionSide
                    (getActionPath rt xrAction (hapticActionInfo_subactionPath info)))
                 chain).
  { intros chain. unfold xrApplyHapticFeedback.
    rewrite Hty, Hs, Ha, Hvib.
    rewrite !bool_decide_eq_true_2 by done. simpl.
    rewrite (endsWith_nonempty _ _ Hout) by discriminate. simpl.
    rewrite (getActionPath_endsWith _ _ _ _ Hout).
    apply Z.leb_le in Hside. rewrite Hside. simpl.
    by apply haptic_loop_skip. }
  split; [|split].
  - intros Hgt. rewrite Hcall. simpl.
    rewrite Hv, bool_decide_eq_true_2, Hgt by done. reflexivity.
  - intros Hgt. rewrite Hcall. simpl.
    rewrite Hv, bool_decide_eq_true_2, Hgt by done. reflexivity.
  - intros d f. rewrite !Hcall. simpl.
    rewrite Hv, !bool_decide_eq_true_2 by done. reflexivity.
Qed.

Lemma haptic_pulse_follows_amplitude_witness :
  xrApplyHapticFeedback true
    (after (bound_session
            ++ [SyncActions (device (left_input 0 float_zero) (Some "knuckles") None)
                  1 (sync_info [1])]))
    1 (haptic_info 4224) ([] ++ vibration_of float_one :: [])
  = (XR_SUCCESS, [pvr_triggerHapticPulse pvrTrackedDevice_LeftController float_one])
  ∧ xrApplyHapticFeedback true
      (after (bound_session
              ++ [SyncActions (device (left_input 0 float_zero) (Some "knuckles") None)
                    1 (sync_info [1])]))
      1 (haptic_info 4224) ([] ++ vibration_of float_zero :: [])
    = (XR_SUCCESS, []).
Proof.
  split.
  - refine (proj1 (haptic_pulse_follows_amplitude true
                     (after (bound_session
                             ++ [SyncActions
                                   (device (left_input 0 float_zero) (Some "knuckles") None)
                                   1 (sync_info [1])]))
                     1 (haptic_info 4224)
                     (set_binding "/user/hand/left/output/haptic" None 0 None None (-1)
                        (Action_created XR_ACTION_TYPE_VIBRATION_OUTPUT 1))
                     [] [] (vibration_of float_one) _ _ _ _ _ _ _ _ _) _).
    + reflexivity.
    + reflexivity.
    + vm_compute. reflexivity.
    + reflexivity.
    + apply (bool_decide_unpack _). vm_compute. exact I.
    + reflexivity.
    + vm_compute. discriminate.
    + constructor.
    + reflexivity.
    + reflexivity.
  - refine (proj1 (proj2 (haptic_pulse_follows_amplitude true
                     (after (bound_session
                             ++ [SyncActions
                                   (device (left_input 0 float_zero) (Some "knuckles") None)
                                   1 (sync_info [1])]))
                     1 (haptic_info 4224)
                     (set_binding "/user/hand/left/output/haptic" None 0 None None (-1)
                        (Action_created XR_ACTION_TYPE_VIBRATION_OUTPUT 1))
                     [] [] (vibration_of float_zero) _ _ _ _ _ _ _ _ _)) _).
    + reflexivity.
    + reflexivity.
    + vm_compute. reflexivity.
    + reflexivity.
    + apply (bool_decide_unpack _). vm_compute. exact I.
    + reflexivity.
    + vm_compute. discriminate.
    + constructor.
    + reflexivity.
    + reflexivity.
Defined.

(** ** Rebinding for an absent controller *)

(** C5, as stated, fails: the left controller, first present, is absent at
    the second synchronisation; the resolver runs for it, the hand is
    inactive, and yet its interaction profile is the simple controller
    profile (handle 1) and the bindings were mapped again (the button mask of
    action 4096, 256 before, is the simple controller's). *)
Lemma absent_controller_gets_simple_profile :
  (buttonType <$> m_actions
     (after (bound_session
             ++ [SyncActions (device zero_InputState (Some "knuckles") None) 1
                   (sync_info [1])])) !! 4096) = Some 256
  ∧ m_isControllerActive
      (after (bound_session
              ++ [SyncActions (device zero_InputState (Some "knuckles") None) 1 (sync_info [1]);
                  SyncActions (device zero_InputState None None) 1 (sync_info [1])]))
    = (false, false)
  ∧ m_currentInteractionProfile
      (after (bound_session
              ++ [SyncActions (device zero_InputState (Some "knuckles") None) 1 (sync_info [1]);
                  SyncActions (device zero_InputState None None) 1 (sync_info [1])]))
    = (1, XR_NULL_PATH)
  ∧ getXrPath
      (after (bound_session
              ++ [SyncActions (device zero_InputState (Some "knuckles") None) 1 (sync_info [1]);
                  SyncActions (device zero_InputState None None) 1 (sync_info [1])]))
      1
    = "/interaction_profiles/khr/simple_controller"
  ∧ (buttonType <$> m_actions
       (after (bound_session
               ++ [SyncActions (device zero_InputState (Some "knuckles") None) 1
                     (sync_info [1]);
                   SyncActions (device zero_InputState None None) 1 (sync_info [1])]))
       !! 4096) = Some 1.
Proof. repeat split; vm_compute; reflexivity. Qed.

Lemma find_fallback_None (store : gmap string (list XrActionSuggestedBinding))
    (profiles : list string) :
  (∀ p, p ∈ profiles → store !! p = None) → find_fallback store profiles = None.
Proof.
  induction profiles as [|p profiles IH]; intros Hall; simpl; [reflexivity|].
  rewrite (Hall p) by set_solver. apply IH. intros q Hq. apply Hall. set_solver.
Qed.

Lemma find_fallback_Some (store : gmap string (list XrActionSuggestedBinding))
    (profiles : list string) (actual : string) (bs : list XrActionSuggestedBinding) :
  find_fallback store profiles = Some (actual, bs) →
  actual ∈ profiles ∧ store !! actual = Some bs.
Proof.
  induction profiles as [|p profiles IH]; simpl; [discriminate|].
  destruct (store !! p) as [bs'|] eqn:Hp.
  - intros [= <- <-]. split; [set_solver|exact Hp].
  - intros Hf. destruct (IH Hf). split; [set_solver|done].
Qed.

Arguments find_fallback : simpl never.

(** C5, amended: when the resolver runs for a hand whose detected controller
    type is empty, the preferred profile is the simple controller profile.
    If the store has suggestions neither for it nor for another fallback
    profile, the hand gets the null profile and the identity aim pose and no
    action is touched.  Otherwise the hand's profile is the first such profile
    with suggestions, interned in the path table, and the mapping registered
    for it is applied to that profile's suggestions. *)
Theorem rebind_for_absent_controller (tbl : MappingTable) (rt : Runtime) (side : Z) :
  at_side (m_cachedControllerType rt) side = "" →
  ((∀ p, p ∈ fallbacks → m_suggestedBindings rt !! p = None) →
   ∃ rt', rebindControllerActions tbl rt side = Some rt'
          ∧ at_side (m_currentInteractionProfile rt') side = XR_NULL_PATH
          ∧ at_side (m_controllerAimPose rt') side = PoseIdentity
          ∧ m_actions rt' = m_actions rt)
  ∧ (∀ (rt' : Runtime) (actual : string) (bs : list XrActionSuggestedBinding),
        (m_suggestedBindings rt !! "/interaction_profiles/khr/simple_controller" = Some bs
         ∧ actual = "/interaction_profiles/khr/simple_controller")
        ∨ (m_suggestedBindings rt !! "/interaction_profiles/khr/simple_controller" = None
           ∧ find_fallback (m_suggestedBindings rt) fallbacks = Some (actual, bs)) →
        rebindControllerActions tbl rt side = Some rt' →
        m_strings rt' !! at_side (m_currentInteractionProfile rt') side = Some actual
        ∧ ∃ mapping : MappingFn,
            tbl actual "/interaction_profiles/khr/simple_controller" = Some mapping
            ∧ m_actions rt'
              = m_actions
                  (apply_bindings mapping bs
                     (set_m_localizedControllerType
                        (set_side (m_localizedControllerType rt) side "Controller") rt))).
Proof.
  intros Hty. unfold rebindControllerActions. rewrite Hty. cbn [identify_controller String.eqb].
  simpl.
  set (rt1 := set_m_localizedControllerType _ rt).
  split.
  - intros Hnone.
    rewrite (Hnone "/interaction_profiles/khr/simple_controller")
      by (unfold fallbacks; set_solver).
    rewrite (find_fallback_None _ _ Hnone). simpl.
    eexists. split; [reflexivity|]. simpl.
    rewrite !at_side_set_side. auto.
  - intros rt' actual bs Hfound.
    assert (Hsel :
              match m_suggestedBindings rt !! "/interaction_profiles/khr/simple_controller" with
              | Some bs0 => Some ("/interaction_profiles/khr/simple_controller", bs0)
              | None => find_fallback (m_suggestedBindings rt) fallbacks
              end = Some (actual, bs)
              ∧ string_empty actual = false).
    { destruct Hfound as [[Hs ->]|[Hs Hf]]; rewrite Hs; [done|].
      split; [exact Hf|].
      apply find_fallback_Some in Hf as [Hin _].
      unfold fallbacks in Hin. set_solver. }
    destruct Hsel as [Hsel Hne]. rewrite Hsel. simpl.
    destruct (tbl actual "/interaction_profiles/khr/simple_controller") as [mapping|];
      [|discriminate].
    rewrite Hne. simpl.
    destruct (xrStringToPath_null_instance (apply_bindings mapping bs rt1) actual)
      as (p & rt3 & Hx & Hp & Hacts & _).
    rewrite Hx. intros [= <-]. simpl. rewrite at_side_set_side.
    split; [exact Hp|]. exists mapping. split; [reflexivity|exact Hacts].
Qed.

Lemma rebind_for_absent_controller_witness :
  (∃ rt', rebindControllerActions example_table fresh_runtime 0 = Some rt'
          ∧ at_side (m_currentInteractionProfile rt') 0 = XR_NULL_PATH
          ∧ at_side (m_controllerAimPose rt') 0 = PoseIdentity
          ∧ m_actions rt' = m_actions fresh_runtime)
  ∧ m_strings
      (default fresh_runtime (rebindControllerActions example_table (after bound_session) 0))
    !! at_side
         (m_currentInteractionProfile
            (default fresh_runtime
               (rebindControllerActions example_table (after bound_session) 0))) 0
    = Some "/interaction_profiles/khr/simple_controller".
Proof.
  split.
  - refine (proj1 (rebind_for_absent_controller example_table fresh_runtime 0 _) _).
    + reflexivity.
    + intros p _. reflexivity.
  - refine (proj1 (proj2 (rebind_for_absent_controller example_table
                            (after bound_session) 0 _)
                     (default fresh_runtime
                        (rebindControllerActions example_table (after bound_session) 0))
                     "/interaction_profiles/khr/simple_controller"
                     [ {| action := 4096; binding := 2 |};
                       {| action := 4160; binding := 3 |};
                       {| action := 4224; binding := 4 |} ] _ _)).
    + vm_compute. reflexivity.
    + left. split; [vm_compute; reflexivity|reflexivity].
    + vm_compute. reflexivity.
Defined.

(** ** Change detection *)

Lemma float_ne_same (f : float) : is_nan f = false → float_ne f f = false.
Proof.
  unfold float_ne, SFeqb. destruct f as [s|s| |s m e]; simpl; try done.
  - by destruct s.
  - intros _. rewrite Z.compare_refl, Pos.compare_cont_refl. by destruct s.
Qed.

Lemma bool_of_XrBool32_of_bool (b : bool) : bool_of_XrBool32 (XrBool32_of_bool b) = b.
Proof. by destruct b. Qed.

(** Asking again: the state a query leaves differs from the one it found
    only in the action's cache, and the cache holds what the query
    answered, so the same question gets the same answer. *)
Lemma boolean_state_again (rt : Runtime) (xrAction : Action) (sub : XrPath)
    (active : bool) (cur : Z) (acts : gmap Z Action) (t : XrTime) :
  boolean_state rt xrAction sub = Some (active, cur) →
  boolean_state (set_m_actions acts rt)
    (set_lastBoolValue (bool_of_XrBool32 cur) t xrAction) sub
  = Some (active, cur).
Proof.
  unfold boolean_state, getActionPath, getXrPath. simpl.
  repeat case_match; intros; simplify_eq; simpl;
    rewrite ?bool_of_XrBool32_of_bool; reflexivity.
Qed.

Lemma float_state_again (rt : Runtime) (xrAction : Action) (sub : XrPath)
    (active : bool) (cur : float) (acts : gmap Z Action) (t : XrTime) :
  float_state rt xrAction sub = Some (active, cur) →
  float_state (set_m_actions acts rt) (set_lastFloatValue cur t xrAction) sub
  = Some (active, cur).
Proof.
  unfold float_state, getActionPath, getXrPath. simpl.
  repeat case_match; intros; simplify_eq; simpl; reflexivity.
Qed.

Lemma vector2f_state_again (rt : Runtime) (xrAction : Action) (sub : XrPath)
    (active : bool) (cur : pvrVector2f) (acts : gmap Z Action) (t : XrTime) :
  vector2f_state rt xrAction sub = (active, cur) →
  vector2f_state (set_m_actions acts rt) (set_lastVector2fValue cur t xrAction) sub
  = (active, cur).
Proof.
  unfold vector2f_state, getActionPath, getXrPath. simpl.
  repeat case_match; intros; simplify_eq; simpl; reflexivity.
Qed.

Lemma xrGetActionStateBoolean_again (rt rt' : Runtime) (session : XrSession)
    (getInfo : XrActionStateGetInfo) (state state' state2 : XrActionStateBoolean)
    (xrAction : Action) :
  xrGetActionStateBoolean rt session getInfo state = Some (XR_SUCCESS, state', rt') →
  m_actions rt !! getInfo_action getInfo = Some xrAction →
  state_type state2 = XR_TYPE_ACTION_STATE_BOOLEAN →
  ∃ (state'' : XrActionStateBoolean) (rt'' : Runtime),
    xrGetActionStateBoolean rt' session getInfo state2 = Some (XR_SUCCESS, state'', rt'')
    ∧ currentState state'' = currentState state'
    ∧ isActive state'' = isActive state'
    ∧ changedSinceLastSync state'' = false.
Proof.
  intros Hq Ha Ht2.
  destruct (xrGetActionStateBoolean_success _ _ _ _ _ _ _ Hq Ha)
    as (active & cur & Hst & Hact & Hcur & _ & _ & Hrt & Hs & _ & Hg & Hty & Hset).
  subst rt'. unfold xrGetActionStateBoolean.
  rewrite Hg, Ht2, !bool_decide_eq_true_2 by reflexivity. simpl.
  change (session_invalid (set_m_actions _ rt) session) with (session_invalid rt session).
  rewrite Hs, lookup_insert_eq. simpl.
  rewrite Hty, !bool_decide_eq_true_2 by done. simpl.
  rewrite (boolean_state_again _ _ _ _ _ _ _ Hst).
  eexists _, _. split; [reflexivity|]. simpl.
  rewrite Hcur, Hact. repeat split. by destruct (bool_of_XrBool32 cur).
Qed.

Lemma xrGetActionStateFloat_again (rt rt' : Runtime) (session : XrSession)
    (getInfo : XrActionStateGetInfo) (state state' state2 : XrActionStateFloat)
    (xrAction : Action) :
  xrGetActionStateFloat rt session getInfo state = Some (XR_SUCCESS, state', rt') →
  m_actions rt !! getInfo_action getInfo = Some xrAction →
  state_type state2 = XR_TYPE_ACTION_STATE_FLOAT →
  ∃ (state'' : XrActionStateFloat) (rt'' : Runtime),
    xrGetActionStateFloat rt' session getInfo state2 = Some (XR_SUCCESS, state'', rt'')
    ∧ currentState state'' = currentState state'
    ∧ isActive state'' = isActive state'
    ∧ changedSinceLastSync state'' = float_ne (currentState state') (currentState state').
Proof.
  intros Hq Ha Ht2.
  destruct (xrGetActionStateFloat_success _ _ _ _ _ _ _ Hq Ha)
    as (active & cur & Hst & Hact & Hcur & _ & _ & Hrt & Hs & _ & Hg & Hty & Hset).
  subst rt'. unfold xrGetActionStateFloat.
  rewrite Hg, Ht2, !bool_decide_eq_true_2 by reflexivity. simpl.
  change (session_invalid (set_m_actions _ rt) session) with (session_invalid rt session).
  rewrite Hs, lookup_insert_eq. simpl.
  rewrite Hty, !bool_decide_eq_true_2 by done. simpl.
  rewrite (float_state_again _ _ _ _ _ _ _ Hst).
  eexists _, _. split; [reflexivity|]. simpl.
  rewrite Hcur, Hact. repeat split.
Qed.

Lemma xrGetActionStateVector2f_again (rt rt' : Runtime) (session : XrSession)
    (getInfo : XrActionStateGetInfo) (state state' state2 : XrActionStateVector2f)
    (xrAction : Action) :
  xrGetActionStateVector2f rt session getInfo state = (XR_SUCCESS, state', rt') →
  m_actions rt !! getInfo_action getInfo = Some xrAction →
  state_type state2 = XR_TYPE_ACTION_STATE_VECTOR2F →
  ∃ (state'' : XrActionStateVector2f) (rt'' : Runtime),
    xrGetActionStateVector2f rt' session getInfo state2 = (XR_SUCCESS, state'', rt'')
    ∧ currentState state'' = currentState state'
    ∧ isActive state'' = isActive state'
    ∧ changedSinceLastSync state''
      = float_ne (x (currentState state')) (x (currentState state'))
        || float_ne (y (currentState state')) (y (currentState state')).
Proof.
  intros Hq Ha Ht2.
  destruct (xrGetActionStateVector2f_success _ _ _ _ _ _ _ Hq Ha)
    as (active & cur & Hst & Hact & Hcur & _ & _ & Hrt & Hs & _ & Hg & Hty & Hset).
  subst rt'. unfold xrGetActionStateVector2f.
  rewrite Hg, Ht2, !bool_decide_eq_true_2 by reflexivity. simpl.
  change (session_invalid (set_m_actions _ rt) session) with (session_invalid rt session).
  rewrite Hs, lookup_insert_eq. simpl.
  rewrite Hty, !bool_decide_eq_true_2 by done. simpl.
  rewrite (vector2f_state_again _ _ _ _ _ _ _ Hst).
  eexists _, _. split; [reflexivity|]. simpl.
  rewrite Hcur, Hact. repeat split.
Qed.

(** C7, as stated, fails: the trigger reads NaN; the float action bound to it
    is queried twice after one synchronisation, and the second query still
    answers [changedSinceLastSync] true, a NaN being different from itself. *)
Lemma requery_of_nan_reports_change :
  (λ r : XrResult * XrActionStateFloat * Runtime,
     (r.1.1, currentState r.1.2, changedSinceLastSync r.1.2))
    <$> xrGetActionStateFloat
          (after (bound_session
                  ++ [ SyncActions (device (left_input 0 S754_nan) (Some "knuckles") None)
                         1 (sync_info [1]);
                       GetActionStateFloat 1 (get_info 4160 XR_NULL_PATH)
                         (blank_state XR_TYPE_ACTION_STATE_FLOAT float_zero) ]))
          1 (get_info 4160 XR_NULL_PATH) (blank_state XR_TYPE_ACTION_STATE_FLOAT float_zero)
  = Some (XR_SUCCESS, S754_nan, true).
Proof. vm_compute. reflexivity. Qed.

(** C7, amended: for the boolean, float and 2-axis queries (the pose query
    has neither field), [changedSinceLastSync] is true exactly when the new
    [currentState] differs from the cached value (truth values for the
    boolean, exact float comparison otherwise), and the cached value and
    change time are set to what the query answers, active or not; a second
    query with no synchronisation in between answers the same
    [currentState], and [changedSinceLastSync] false unless the value is a
    NaN. *)
Theorem change_detection_and_requery (rt : Runtime) (session : XrSession)
    (getInfo : XrActionStateGetInfo) (xrAction : Action) :
  m_actions rt !! getInfo_action getInfo = Some xrAction →
  (∀ (state state' : XrActionStateBoolean) (rt' : Runtime),
      xrGetActionStateBoolean rt session getInfo state = Some (XR_SUCCESS, state', rt') →
      changedSinceLastSync state'
      = xorb (bool_of_XrBool32 (currentState state')) (lastBoolValue xrAction)
      ∧ (lastBoolValue <$> m_actions rt' !! getInfo_action getInfo)
        = Some (bool_of_XrBool32 (currentState state'))
      ∧ (lastBoolValueChangedTime <$> m_actions rt' !! getInfo_action getInfo)
        = Some (lastChangeTime state')
      ∧ ∀ state2 : XrActionStateBoolean,
          state_type state2 = XR_TYPE_ACTION_STATE_BOOLEAN →
          ∃ (state'' : XrActionStateBoolean) (rt'' : Runtime),
            xrGetActionStateBoolean rt' session getInfo state2
            = Some (XR_SUCCESS, state'', rt'')
            ∧ currentState state'' = currentState state'
            ∧ changedSinceLastSync state'' = false)
  ∧ (∀ (state state' : XrActionStateFloat) (rt' : Runtime),
        xrGetActionStateFloat rt session getInfo state = Some (XR_SUCCESS, state', rt') →
        changedSinceLastSync state'
        = float_ne (currentState state') (lastFloatValue xrAction)
        ∧ (lastFloatValue <$> m_actions rt' !! getInfo_action getInfo)
          = Some (currentState state')
        ∧ (lastFloatValueChangedTime <$> m_actions rt' !! getInfo_action getInfo)
          = Some (lastChangeTime state')
        ∧ ∀ state2 : XrActionStateFloat,
            state_type state2 = XR_TYPE_ACTION_STATE_FLOAT →
            ∃ (state'' : XrActionStateFloat) (rt'' : Runtime),
              xrGetActionStateFloat rt' session getInfo state2
              = Some (XR_SUCCESS, state'', rt'')
              ∧ currentState state'' = currentState state'
              ∧ (is_nan (currentState state') = false →
                 changedSinceLastSync state'' = false))
  ∧ (∀ (state state' : XrActionStateVector2f) (rt' : Runtime),
        xrGetActionStateVector2f rt session getInfo state = (XR_SUCCESS, state', rt') →
        changedSinceLastSync state'
        = float_ne (x (currentState state')) (x (lastVector2fValue xrAction))
          || float_ne (y (currentState state')) (y (lastVector2fValue xrAction))
        ∧ (lastVector2fValue <$> m_actions rt' !! getInfo_action getInfo)
          = Some (currentState state')
        ∧ (lastVector2fValueChangedTime <$> m_actions rt' !! getInfo_action getInfo)
          = Some (lastChangeTime state')
        ∧ ∀ state2 : XrActionStateVector2f,
            state_type state2 = XR_TYPE_ACTION_STATE_VECTOR2F →
            ∃ (state'' : XrActionStateVector2f) (rt'' : Runtime),
              xrGetActionStateVector2f rt' session getInfo state2
              = (XR_SUCCESS, state'', rt'')
              ∧ currentState state'' = currentState state'
              ∧ (is_nan (x (currentState state')) = false →
                 is_nan (y (currentState state')) = false →
                 changedSinceLastSync state'' = false)).
Proof.
  intros Ha. split; [|split].
  - intros state state' rt' Hq.
    destruct (xrGetActionStateBoolean_success _ _ _ _ _ _ _ Hq Ha)
      as (active & cur & _ & _ & Hcur & Hch & _ & Hrt & _).
    rewrite Hcur. split; [exact Hch|].
    split; [subst rt'; simpl; by rewrite lookup_insert_eq|].
    split; [subst rt'; simpl; by rewrite lookup_insert_eq|].
    intros state2 Ht2.
    destruct (xrGetActionStateBoolean_again _ _ _ _ _ _ state2 _ Hq Ha Ht2)
      as (state'' & rt'' & Hq2 & Hc2 & _ & Hch2).
    exists state'', rt''. rewrite <- Hcur. auto.
  - intros state state' rt' Hq.
    destruct (xrGetActionStateFloat_success _ _ _ _ _ _ _ Hq Ha)
      as (active & cur & _ & _ & Hcur & Hch & _ & Hrt & _).
    rewrite Hcur. split; [exact Hch|].
    split; [subst rt'; simpl; by rewrite lookup_insert_eq|].
    split; [subst rt'; simpl; by rewrite lookup_insert_eq|].
    intros state2 Ht2.
    destruct (xrGetActionStateFloat_again _ _ _ _ _ _ state2 _ Hq Ha Ht2)
      as (state'' & rt'' & Hq2 & Hc2 & _ & Hch2).
    exists state'', rt''. rewrite <- Hcur. split; [exact Hq2|]. split; [exact Hc2|].
    intros Hnan. rewrite Hch2. by apply float_ne_same.
  - intros state state' rt' Hq.
    destruct (xrGetActionStateVector2f_success _ _ _ _ _ _ _ Hq Ha)
      as (active & cur & _ & _ & Hcur & Hch & _ & Hrt & _).
    rewrite Hcur. split; [exact Hch|].
    split; [subst rt'; simpl; by rewrite lookup_insert_eq|].
    split; [subst rt'; simpl; by rewrite lookup_insert_eq|].
    intros state2 Ht2.
    destruct (xrGetActionStateVector2f_again _ _ _ _ _ _ state2 _ Hq Ha Ht2)
      as (state'' & rt'' & Hq2 & Hc2 & _ & Hch2).
    exists state'', rt''. rewrite <- Hcur. split; [exact Hq2|]. split; [exact Hc2|].
    intros Hx Hy. rewrite Hch2, !float_ne_same by done. reflexivity.
Qed.

Lemma change_detection_and_requery_witness :
  ∃ (state'' : XrActionStateBoolean) (rt'' : Runtime),
    xrGetActionStateBoolean
      (after (bound_session
              ++ [ SyncActions (device (left_input 257 float_zero) (Some "knuckles") None)
                     1 (sync_info [1]);
                   GetActionStateBoolean 1 (get_info 4096 XR_NULL_PATH)
                     (blank_state XR_TYPE_ACTION_STATE_BOOLEAN 0) ]))
      1 (get_info 4096 XR_NULL_PATH) (blank_state XR_TYPE_ACTION_STATE_BOOLEAN 0)
    = Some (XR_SUCCESS, state'', rt'')
    ∧ currentState state'' = 256
    ∧ changedSinceLastSync state'' = false.
Proof.
  refine (proj2 (proj2 (proj2
            (proj1 (change_detection_and_requery
                      (after (bound_session
                              ++ [SyncActions
                                    (device (left_input 257 float_zero) (Some "knuckles") None)
                                    1 (sync_info [1])]))
                      1 (get_info 4096 XR_NULL_PATH)
                      (set_binding "/user/hand/left/input/select/click" (Some PtrHandButtons)
                         256 None None (-1) (Action_created XR_ACTION_TYPE_BOOLEAN_INPUT 1))
                      _)
               (blank_state XR_TYPE_ACTION_STATE_BOOLEAN 0)
               {| state_type := XR_TYPE_ACTION_STATE_BOOLEAN; currentState := 256;
                  changedSinceLastSync := true; lastChangeTime := 1000; isActive := true |}
               (after (bound_session
                       ++ [ SyncActions
                              (device (left_input 257 float_zero) (Some "knuckles") None)
                              1 (sync_info [1]);
                            GetActionStateBoolean 1 (get_info 4096 XR_NULL_PATH)
                              (blank_state XR_TYPE_ACTION_STATE_BOOLEAN 0) ]))
               _)))
            (blank_state XR_TYPE_ACTION_STATE_BOOLEAN 0) _).
  - vm_compute. reflexivity.
  - vm_compute. reflexivity.
  - reflexivity.
Defined.

(** * Further properties of the code *)

(** ** The path table *)

Lemma find_string_None (m : gmap Z string) (str : string) (p : Z) :
  find_string m str = None → m !! p ≠ Some str.
Proof.
  unfold find_string. intros Hf Hp.
  destruct (list_find _ _) as [r|] eqn:Hl; [discriminate|].
  apply list_find_None in Hl.
  apply elem_of_map_to_list in Hp.
  rewrite Forall_forall in Hl. by apply (Hl (p, str)).
Qed.

Lemma xrStringToPath_lookup (rt rt' : Runtime) (instance : XrInstance) (str : string)
    (p : XrPath) :
  xrStringToPath rt instance str = (XR_SUCCESS, Some p, rt') →
  m_strings rt' !! p = Some str
  ∧ m_instanceCreated rt' = m_instanceCreated rt
  ∧ (negb (instance =? XR_NULL_PATH) && instance_invalid rt instance = false).
Proof.
  unfold xrStringToPath.
  destruct (negb (instance =? XR_NULL_PATH) && instance_invalid rt instance);
    [discriminate|].
  destruct (find_string (m_strings rt) str) as [q|] eqn:Hf.
  - intros [= <- <-]. split; [by apply find_string_Some|done].
  - intros [= <- <-]. simpl. split; [apply lookup_insert_eq|done].
Qed.

(** X1: a string interned by [xrStringToPath] is given back by
    [xrPathToString] on the returned handle, with the required size, when the
    buffer holds the string and its terminator. *)
Theorem xrStringToPath_then_xrPathToString (rt rt' : Runtime) (instance : XrInstance)
    (str : string) (p : XrPath) (capacity : Z) :
  xrStringToPath rt instance str = (XR_SUCCESS, Some p, rt') →
  Z.of_nat (String.length str) < 2 ^ 32 - 1 →
  Z.of_nat (String.length str) + 1 ≤ capacity →
  xrPathToString rt' instance p capacity true
  = (XR_SUCCESS, Some (Z.of_nat (String.length str) + 1), BufferString str).
Proof.
  intros Hx Hlen Hcap.
  apply xrStringToPath_lookup in Hx as (Hp & Hi & Hcheck).
  unfold xrPathToString, instance_invalid in *. rewrite Hi, Hcheck, Hp.
  assert (Hz : (capacity =? 0) = false) by (apply Z.eqb_neq; lia).
  rewrite Hz. simpl.
  destruct (Z.ltb_spec capacity (Z.of_nat (String.length str))); [lia|].
  unfold sprintf_s, wrap32.
  rewrite (Z.mod_small (Z.of_nat (String.length str))) by lia.
  rewrite Z.mod_small by lia.
  destruct (Z.leb_spec (Z.of_nat (String.length str) + 1) capacity); [reflexivity|lia].
Qed.

Lemma xrStringToPath_then_xrPathToString_witness :
  xrPathToString (after [StringToPath 1 "/user/hand/right"]) 1 1 64 true
  = (XR_SUCCESS, Some 17, BufferString "/user/hand/right").
Proof.
  refine (xrStringToPath_then_xrPathToString fresh_runtime
            (after [StringToPath 1 "/user/hand/right"]) 1 "/user/hand/right" 1 64 _ _ _).
  - vm_compute. reflexivity.
  - simpl. lia.
  - simpl. lia.
Defined.

(** X2: interning is idempotent.  While no two handles hold the same string,
    a successful [xrStringToPath] keeps it so, and interning the same string
    again returns the same handle and changes nothing. *)
Theorem xrStringToPath_idempotent (rt rt' : Runtime) (instance : XrInstance)
    (str : string) (p : XrPath) :
  strings_injective rt →
  xrStringToPath rt instance str = (XR_SUCCESS, Some p, rt') →
  strings_injective rt'
  ∧ xrStringToPath rt' instance str = (XR_SUCCESS, Some p, rt').
Proof.
  intros Hinj Hx.
  assert (Hinj' : strings_injective rt').
  { revert Hx. unfold xrStringToPath.
    destruct (negb (instance =? XR_NULL_PATH) && instance_invalid rt instance);
      [discriminate|].
    destruct (find_string (m_strings rt) str) as [q|] eqn:Hf.
    - by intros [= <- <-].
    - intros [= <- <-]. intros a b s. simpl.
      rewrite !lookup_insert. repeat case_decide; subst; intros Ha Hb; simplify_eq.
      + reflexivity.
      + by apply (find_string_None _ _ b) in Hf.
      + by apply (find_string_None _ _ a) in Hf.
      + by eapply Hinj. }
  split; [exact Hinj'|].
  apply xrStringToPath_lookup in Hx as (Hp & Hi & Hcheck).
  unfold xrStringToPath, instance_invalid in *. rewrite Hi, Hcheck.
  destruct (find_string (m_strings rt') str) as [q|] eqn:Hf.
  - apply find_string_Some in Hf. by rewrite (Hinj' q p str Hf Hp).
  - by apply (find_string_None _ _ p) in Hf.
Qed.

Lemma xrStringToPath_idempotent_witness :
  xrStringToPath (after [StringToPath 1 "/user/hand/left"; StringToPath 1 "/user/gamepad"])
    1 "/user/gamepad"
  = (XR_SUCCESS, Some 2,
     after [StringToPath 1 "/user/hand/left"; StringToPath 1 "/user/gamepad"]).
Proof.
  refine (proj2 (xrStringToPath_idempotent
                   (after [StringToPath 1 "/user/hand/left"])
                   (after [StringToPath 1 "/user/hand/left"; StringToPath 1 "/user/gamepad"])
                   1 "/user/gamepad" 2 _ _)).
  - intros a b s. change (m_strings (after [StringToPath 1 "/user/hand/left"]))
      with (<[1 := "/user/hand/left"]> (∅ : gmap Z string)).
    rewrite !lookup_insert, !lookup_empty. repeat case_decide; congruence.
  - vm_compute. reflexivity.
Defined.

(** X3: handles are never reused or null.  While every handle of the table
    was issued by the counter and the counter has not reached 2^64 - 1, a
    successful [xrStringToPath] returns a non-null handle that resolves to the
    string, and every handle that resolved before still resolves to the same
    string. *)
Theorem xrStringToPath_keeps_handles (rt rt' : Runtime) (instance : XrInstance)
    (str : string) (p : XrPath) :
  strings_issued rt →
  m_stringIndex rt + 1 < 2 ^ 64 →
  xrStringToPath rt instance str = (XR_SUCCESS, Some p, rt') →
  p ≠ XR_NULL_PATH
  ∧ getXrPath rt' p = str
  ∧ strings_issued rt'
  ∧ ∀ (q : XrPath) (t : string), m_strings rt !! q = Some t → m_strings rt' !! q = Some t.
Proof.
  intros [Hidx Hissued] Hmax Hx.
  pose proof (xrStringToPath_lookup _ _ _ _ _ Hx) as (Hp & _).
  revert Hx Hp. unfold xrStringToPath, getXrPath, XR_NULL_PATH.
  destruct (negb (instance =? 0) && instance_invalid rt instance); [discriminate|].
  destruct (find_string (m_strings rt) str) as [q|] eqn:Hf.
  - intros [= <- <-] Hp. destruct (Hissued _ _ Hp) as [Hpos _].
    assert (Hz : (q =? 0) = false) by (apply Z.eqb_neq; lia).
    rewrite Hz, Hp. split; [lia|]. split; [reflexivity|]. split; [by split|auto].
  - intros [= <- <-] Hp. simpl in *.
    unfold wrap64 in *. rewrite Z.mod_small in * by lia.
    assert (Hz : (m_stringIndex rt + 1 =? 0) = false) by (apply Z.eqb_neq; lia).
    rewrite Hz, Hp. split; [lia|]. split; [reflexivity|]. split.
    + split; [simpl; lia|]. intros a s. simpl. rewrite lookup_insert. case_decide.
      * intros _. lia.
      * intros Ha. destruct (Hissued _ _ Ha). lia.
    + intros a s Ha. rewrite lookup_insert_ne; [exact Ha|].
      destruct (Hissued _ _ Ha). lia.
Qed.

Lemma xrStringToPath_keeps_handles_witness :
  (2 : Z) ≠ XR_NULL_PATH
  ∧ getXrPath (after [StringToPath 1 "/user/hand/left"; StringToPath 1 "/user/gamepad"]) 2
    = "/user/gamepad"
  ∧ strings_issued (after [StringToPath 1 "/user/hand/left"; StringToPath 1 "/user/gamepad"])
  ∧ ∀ (q : XrPath) (t : string),
      m_strings (after [StringToPath 1 "/user/hand/left"]) !! q = Some t →
      m_strings (after [StringToPath 1 "/user/hand/left"; StringToPath 1 "/user/gamepad"])
        !! q = Some t.
Proof.
  refine (xrStringToPath_keeps_handles
            (after [StringToPath 1 "/user/hand/left"])
            (after [StringToPath 1 "/user/hand/left"; StringToPath 1 "/user/gamepad"])
            1 "/user/gamepad" 2 _ _ _).
  - split; [vm_compute; discriminate|].
    intros a s. change (m_strings (after [StringToPath 1 "/user/hand/left"]))
      with (<[1 := "/user/hand/left"]> (∅ : gmap Z string)).
    change (m_stringIndex (after [StringToPath 1 "/user/hand/left"])) with 1.
    rewrite lookup_insert, lookup_empty. case_decide; [|discriminate]. lia.
  - vm_compute. reflexivity.
  - vm_compute. reflexivity.
Defined.

(** ** Action sets and actions *)

(** X4: [xrCreateActionSet] never returns the null handle nor the handle of a
    live action set, as long as every live handle was issued by the counter
    and the counter has not reached 2^64 - 1; the new set joins the known
    ones and the handles stay issued. *)
Theorem xrCreateActionSet_fresh_handle (rt rt' : Runtime) (instance : XrInstance)
    (createInfo : XrActionSetCreateInfo) (s : XrActionSet) :
  actionSets_issued rt →
  m_actionSetIndex rt + 1 < 2 ^ 64 →
  xrCreateActionSet rt instance createInfo = (XR_SUCCESS, Some s, rt') →
  s ≠ XR_NULL_HANDLE
  ∧ (s ∉ m_actionSets rt)
  ∧ m_actionSets rt' = {[s]} ∪ m_actionSets rt
  ∧ actionSets_issued rt'.
Proof.
  intros [Hidx Hissued] Hmax. unfold xrCreateActionSet, XR_NULL_HANDLE.
  destruct (negb (bool_decide _)); [discriminate|].
  destruct (instance_invalid rt instance); [discriminate|].
  unfold wrap64. rewrite Z.mod_small by lia.
  intros [= <- <-]. simpl. split; [lia|]. split.
  - intros Hin. apply Hissued in Hin. lia.
  - split; [reflexivity|]. split; [simpl; lia|]. simpl.
    intros a Ha. apply elem_of_union in Ha as [Ha|Ha].
    + apply elem_of_singleton in Ha. lia.
    + apply Hissued in Ha. lia.
Qed.

Lemma xrCreateActionSet_fresh_handle_witness :
  (3 : Z) ≠ XR_NULL_HANDLE
  ∧ (3 ∉ m_actionSets (after two_sets))
  ∧ m_actionSets (after (two_sets ++ [CreateActionSet 1 (action_set_create_info "extra")]))
    = {[3]} ∪ m_actionSets (after two_sets)
  ∧ actionSets_issued
      (after (two_sets ++ [CreateActionSet 1 (action_set_create_info "extra")])).
Proof.
  refine (xrCreateActionSet_fresh_handle (after two_sets)
            (after (two_sets ++ [CreateActionSet 1 (action_set_create_info "extra")]))
            1 (action_set_create_info "extra") 3 _ _ _).
  - split; [vm_compute; discriminate|].
    change (m_actionSets (after two_sets)) with ({[2]} ∪ ({[1]} ∪ ∅) : gset Z).
    change (m_actionSetIndex (after two_sets)) with 2.
    intros a Ha. set_unfold. lia.
  - vm_compute. reflexivity.
  - vm_compute. reflexivity.
Defined.

(** X5: destroying an action set only removes it from the known sets: its
    actions, the attached sets and the latched sets stay as they were; a
    second destroy, and the creation of an action in the destroyed set, fail
    with HandleInvalid. *)
Theorem xrDestroyActionSet_does_not_cascade (rt rt' : Runtime) (s : XrActionSet) :
  xrDestroyActionSet rt s = (XR_SUCCESS, rt') →
  m_actions rt' = m_actions rt
  ∧ m_activeActionSets rt' = m_activeActionSets rt
  ∧ m_frameLatchedActionSets rt' = m_frameLatchedActionSets rt
  ∧ xrDestroyActionSet rt' s = (XR_ERROR_HANDLE_INVALID, rt')
  ∧ ∀ (createInfo : XrActionCreateInfo) (ptr : Z),
      actionCreateInfo_type createInfo = XR_TYPE_ACTION_CREATE_INFO →
      xrCreateAction rt' s createInfo ptr = (XR_ERROR_HANDLE_INVALID, None, rt').
Proof.
  unfold xrDestroyActionSet.
  destruct (bool_decide (s ∈ m_actionSets rt)); [|discriminate]. simpl.
  intros [= <-]. simpl.
  assert (Hout : bool_decide (s ∈ m_actionSets rt ∖ {[s]}) = false)
    by (apply bool_decide_eq_false_2; set_solver).
  rewrite Hout. simpl. repeat split.
  intros createInfo ptr Hty. unfold xrCreateAction. simpl.
  rewrite Hty, Hout. rewrite bool_decide_eq_true_2 by reflexivity. reflexivity.
Qed.

Lemma xrDestroyActionSet_does_not_cascade_witness :
  m_activeActionSets
    (after (bound_session ++ [DestroyActionSet 1]))
  = m_activeActionSets (after bound_session).
Proof.
  refine (proj1 (proj2 (xrDestroyActionSet_does_not_cascade (after bound_session)
                          (after (bound_session ++ [DestroyActionSet 1])) 1 _))).
  vm_compute. reflexivity.
Defined.



(** X7: after [xrDestroyAction] succeeded, the handle is unknown to every
    entry point: the four queries, the two haptic calls, the bound-source
    enumeration and a second destroy all fail with HandleInvalid and change
    nothing. *)
Theorem destroyed_action_is_unknown (rt rt' : Runtime) (act : XrAction)
    (session : XrSession) (sub : XrPath) :
  xrDestroyAction rt act = (XR_SUCCESS, rt') →
  session_invalid rt session = false →
  (∀ st : XrActionStateBoolean, state_type st = XR_TYPE_ACTION_STATE_BOOLEAN →
     xrGetActionStateBoolean rt' session (get_info act sub) st
     = Some (XR_ERROR_HANDLE_INVALID, st, rt'))
  ∧ (∀ st : XrActionStateFloat, state_type st = XR_TYPE_ACTION_STATE_FLOAT →
       xrGetActionStateFloat rt' session (get_info act sub) st
       = Some (XR_ERROR_HANDLE_INVALID, st, rt'))
  ∧ (∀ st : XrActionStateVector2f, state_type st = XR_TYPE_ACTION_STATE_VECTOR2F →
       xrGetActionStateVector2f rt' session (get_info act sub) st
       = (XR_ERROR_HANDLE_INVALID, st, rt'))
  ∧ (∀ st : XrActionStatePose, pose_type st = XR_TYPE_ACTION_STATE_POSE →
       xrGetActionStatePose rt' session (get_info act sub) st
       = (XR_ERROR_HANDLE_INVALID, st))
  ∧ (∀ (pulse_ok : bool) (chain : list XrHapticBaseHeader),
       xrApplyHapticFeedback pulse_ok rt' session (haptic_info act) chain
       = (XR_ERROR_HANDLE_INVALID, []))
  ∧ xrStopHapticFeedback rt' session (haptic_info act) = XR_ERROR_HANDLE_INVALID
  ∧ (∀ (capacity : Z) (sources : bool),
       xrEnumerateBoundSourcesForAction rt' session
         {| enumerateInfo_type := XR_TYPE_BOUND_SOURCES_FOR_ACTION_ENUMERATE_INFO;
            enumerateInfo_action := act |} capacity sources
       = (XR_ERROR_HANDLE_INVALID, None, None, rt'))
  ∧ xrDestroyAction rt' act = (XR_ERROR_HANDLE_INVALID, rt').
Proof.
  unfold xrDestroyAction.
  destruct (m_actions rt !! act) as [a|]; [|discriminate].
  intros [= <-] Hs.
  assert (Hgone : m_actions (set_m_actions (delete act (m_actions rt)) rt) !! act = None)
    by (simpl; apply lookup_delete_eq).
  assert (Hs' : session_invalid (set_m_actions (delete act (m_actions rt)) rt) session
                = false) by exact Hs.
  repeat split.
  - intros st Hty. unfold xrGetActionStateBoolean.
    rewrite Hty, Hs'. cbn [get_info getInfo_type getInfo_action]. rewrite Hgone.
    rewrite !bool_decide_eq_true_2 by reflexivity. reflexivity.
  - intros st Hty. unfold xrGetActionStateFloat.
    rewrite Hty, Hs'. cbn [get_info getInfo_type getInfo_action]. rewrite Hgone.
    rewrite !bool_decide_eq_true_2 by reflexivity. reflexivity.
  - intros st Hty. unfold xrGetActionStateVector2f.
    rewrite Hty, Hs'. cbn [get_info getInfo_type getInfo_action]. rewrite Hgone.
    rewrite !bool_decide_eq_true_2 by reflexivity. reflexivity.
  - intros st Hty. unfold xrGetActionStatePose.
    rewrite Hty, Hs'. cbn [get_info getInfo_type getInfo_action]. rewrite Hgone.
    rewrite !bool_decide_eq_true_2 by reflexivity. reflexivity.
  - intros pulse_ok chain. unfold xrApplyHapticFeedback.
    rewrite Hs'. cbn [haptic_info hapticActionInfo_type hapticActionInfo_action].
    rewrite Hgone. rewrite bool_decide_eq_true_2 by reflexivity. reflexivity.
  - unfold xrStopHapticFeedback.
    rewrite Hs'. cbn [haptic_info hapticActionInfo_type hapticActionInfo_action].
    rewrite Hgone. rewrite bool_decide_eq_true_2 by reflexivity. reflexivity.
  - intros capacity sources. unfold xrEnumerateBoundSourcesForAction.
    rewrite Hs'. cbn [enumerateInfo_type enumerateInfo_action]. rewrite Hgone.
    rewrite bool_decide_eq_true_2 by reflexivity. reflexivity.
  - by rewrite Hgone.
Qed.

Lemma destroyed_action_is_unknown_witness :
  xrStopHapticFeedback (after (bound_session ++ [DestroyAction 4224])) 1 (haptic_info 4224)
  = XR_ERROR_HANDLE_INVALID.
Proof.
  refine (proj1 (proj2 (proj2 (proj2 (proj2 (proj2
            (destroyed_action_is_unknown (after bound_session)
               (after (bound_session ++ [DestroyAction 4224])) 4224 1 XR_NULL_PATH _ _))))))).
  - vm_compute. reflexivity.
  - reflexivity.
Defined.

(** X8: an entry point asked about an action of another type answers
    ActionTypeMismatch and changes nothing, whether or not the action's set
    is attached: the type is checked before the attachment. *)
Theorem action_type_mismatch (rt : Runtime) (session : XrSession) (act : XrAction)
    (sub : XrPath) (xrAction : Action) :
  m_actions rt !! act = Some xrAction →
  session_invalid rt session = false →
  (type xrAction ≠ XR_ACTION_TYPE_BOOLEAN_INPUT →
   ∀ st : XrActionStateBoolean, state_type st = XR_TYPE_ACTION_STATE_BOOLEAN →
     xrGetActionStateBoolean rt session (get_info act sub) st
     = Some (XR_ERROR_ACTION_TYPE_MISMATCH, st, rt))
  ∧ (type xrAction ≠ XR_ACTION_TYPE_FLOAT_INPUT →
     ∀ st : XrActionStateFloat, state_type st = XR_TYPE_ACTION_STATE_FLOAT →
       xrGetActionStateFloat rt session (get_info act sub) st
       = Some (XR_ERROR_ACTION_TYPE_MISMATCH, st, rt))
  ∧ (type xrAction ≠ XR_ACTION_TYPE_VECTOR2F_INPUT →
     ∀ st : XrActionStateVector2f, state_type st = XR_TYPE_ACTION_STATE_VECTOR2F →
       xrGetActionStateVector2f rt session (get_info act sub) st
       = (XR_ERROR_ACTION_TYPE_MISMATCH, st, rt))
  ∧ (type xrAction ≠ XR_ACTION_TYPE_POSE_INPUT →
     ∀ st : XrActionStatePose, pose_type st = XR_TYPE_ACTION_STATE_POSE →
       xrGetActionStatePose rt session (get_info act sub) st
       = (XR_ERROR_ACTION_TYPE_MISMATCH, st))
  ∧ (type xrAction ≠ XR_ACTION_TYPE_VIBRATION_OUTPUT →
     (∀ (pulse_ok : bool) (chain : list XrHapticBaseHeader),
        xrApplyHapticFeedback pulse_ok rt session (haptic_info act) chain
        = (XR_ERROR_ACTION_TYPE_MISMATCH, []))
     ∧ xrStopHapticFeedback rt session (haptic_info act) = XR_ERROR_ACTION_TYPE_MISMATCH).
Proof.
  intros Ha Hs. repeat split.
  - intros Hne st Hty. unfold xrGetActionStateBoolean.
    rewrite Hty, Hs. cbn [get_info getInfo_type getInfo_action]. rewrite Ha.
    rewrite !bool_decide_eq_true_2 by reflexivity.
    rewrite bool_decide_eq_false_2 by exact Hne. reflexivity.
  - intros Hne st Hty. unfold xrGetActionStateFloat.
    rewrite Hty, Hs. cbn [get_info getInfo_type getInfo_action]. rewrite Ha.
    rewrite !bool_decide_eq_true_2 by reflexivity.
    rewrite bool_decide_eq_false_2 by exact Hne. reflexivity.
  - intros Hne st Hty. unfold xrGetActionStateVector2f.
    rewrite Hty, Hs. cbn [get_info getInfo_type getInfo_action]. rewrite Ha.
    rewrite !bool_decide_eq_true_2 by reflexivity.
    rewrite bool_decide_eq_false_2 by exact Hne. reflexivity.
  - intros Hne st Hty. unfold xrGetActionStatePose.
    rewrite Hty, Hs. cbn [get_info getInfo_type getInfo_action]. rewrite Ha.
    rewrite !bool_decide_eq_true_2 by reflexivity.
    rewrite bool_decide_eq_false_2 by exact Hne. reflexivity.
  - intros pulse_ok chain. unfold xrApplyHapticFeedback.
    rewrite Hs. cbn [haptic_info hapticActionInfo_type hapticActionInfo_action].
    rewrite Ha. rewrite bool_decide_eq_true_2 by reflexivity.
    rewrite bool_decide_eq_false_2 by done. reflexivity.
  - unfold xrStopHapticFeedback.
    rewrite Hs. cbn [haptic_info hapticActionInfo_type hapticActionInfo_action].
    rewrite Ha. rewrite bool_decide_eq_true_2 by reflexivity.
    rewrite bool_decide_eq_false_2 by done. reflexivity.
Qed.

Lemma action_type_mismatch_witness :
  xrGetActionStateBoolean (after bound_session) 1 (get_info 4160 XR_NULL_PATH)
    (blank_state XR_TYPE_ACTION_STATE_BOOLEAN 0)
  = Some (XR_ERROR_ACTION_TYPE_MISMATCH, blank_state XR_TYPE_ACTION_STATE_BOOLEAN 0,
          after bound_session).
Proof.
  refine (proj1 (action_type_mismatch (after bound_session) 1 4160 XR_NULL_PATH
                   (Action_created XR_ACTION_TYPE_FLOAT_INPUT 1) _ _) _ _ _).
  - vm_compute. reflexivity.
  - reflexivity.
  - discriminate.
  - reflexivity.
Defined.

(** X9: a query that does not succeed leaves the caller's state structure
    and the whole runtime as they were. *)
Theorem failed_query_changes_nothing (rt : Runtime) (session : XrSession)
    (getInfo : XrActionStateGetInfo) :
  (∀ (st st' : XrActionStateBoolean) (rt' : Runtime) (r : XrResult),
      xrGetActionStateBoolean rt session getInfo st = Some (r, st', rt') →
      r ≠ XR_SUCCESS → st' = st ∧ rt' = rt)
  ∧ (∀ (st st' : XrActionStateFloat) (rt' : Runtime) (r : XrResult),
        xrGetActionStateFloat rt session getInfo st = Some (r, st', rt') →
        r ≠ XR_SUCCESS → st' = st ∧ rt' = rt)
  ∧ (∀ (st st' : XrActionStateVector2f) (rt' : Runtime) (r : XrResult),
        xrGetActionStateVector2f rt session getInfo st = (r, st', rt') →
        r ≠ XR_SUCCESS → st' = st ∧ rt' = rt)
  ∧ (∀ (st st' : XrActionStatePose) (r : XrResult),
        xrGetActionStatePose rt session getInfo st = (r, st') →
        r ≠ XR_SUCCESS → st' = st).
Proof.
  split; [|split; [|split]].
  - intros st st' rt' r. unfold xrGetActionStateBoolean.
    repeat case_match; intros; simplify_eq; done.
  - intros st st' rt' r. unfold xrGetActionStateFloat.
    repeat case_match; intros; simplify_eq; done.
  - intros st st' rt' r. unfold xrGetActionStateVector2f.
    repeat case_match; intros; simplify_eq; done.
  - intros st st' r. unfold xrGetActionStatePose.
    repeat case_match; intros; simplify_eq; done.
Qed.

Lemma failed_query_changes_nothing_witness :
  blank_state XR_TYPE_ACTION_STATE_FLOAT float_one
  = blank_state XR_TYPE_ACTION_STATE_FLOAT float_one
  ∧ after two_sets = after two_sets.
Proof.
  refine (proj1 (proj2 (failed_query_changes_nothing (after two_sets) 1
                          (get_info 4160 XR_NULL_PATH)))
            (blank_state XR_TYPE_ACTION_STATE_FLOAT float_one) _ _
            XR_ERROR_HANDLE_INVALID _ _).
  - vm_compute. reflexivity.
  - discriminate.
Defined.

(** ** Attachment and suggestions *)

Lemma attach_loop_known (known : gset Z) (sets : list XrActionSet) (active : gset Z) :
  (attach_loop known sets active).1 = XR_SUCCESS → ∀ s, s ∈ sets → s ∈ known.
Proof.
  revert active. induction sets as [|a sets IH]; intros active; simpl.
  - intros _ s Hs. by apply elem_of_nil in Hs.
  - destruct (bool_decide (a ∈ known)) eqn:Ha; simpl; [|discriminate].
    apply bool_decide_eq_true_1 in Ha.
    intros Hok s Hs. apply elem_of_cons in Hs as [->|Hs]; [done|by eapply IH].
Qed.

(** X10: a successful attach found nothing attached, attaches exactly the
    listed sets, each of them a known action set, and touches neither the
    actions nor the latched sets. *)
Theorem xrAttachSessionActionSets_attaches_listed_sets (rt rt' : Runtime)
    (session : XrSession) (attachInfo : XrSessionActionSetsAttachInfo) :
  xrAttachSessionActionSets rt session attachInfo = (XR_SUCCESS, rt') →
  m_activeActionSets rt = ∅
  ∧ m_activeActionSets rt' = list_to_set (actionSets attachInfo)
  ∧ (∀ s, s ∈ actionSets attachInfo → s ∈ m_actionSets rt)
  ∧ m_actions rt' = m_actions rt
  ∧ m_frameLatchedActionSets rt' = m_frameLatchedActionSets rt.
Proof.
  unfold xrAttachSessionActionSets.
  destruct (negb (bool_decide _)); [discriminate|].
  destruct (session_invalid rt session); [discriminate|].
  destruct (has_attached rt) eqn:Hatt; [discriminate|].
  intros [= Hok <-]. simpl.
  assert (Hempty : m_activeActionSets rt = ∅).
  { destruct (decide (m_activeActionSets rt = ∅)) as [|Hne]; [done|].
    apply has_attached_true in Hne. congruence. }
  split; [exact Hempty|]. split.
  - rewrite (attach_loop_success _ _ _ Hok), Hempty. set_solver.
  - split; [by eapply attach_loop_known|done].
Qed.

Lemma xrAttachSessionActionSets_attaches_listed_sets_witness :
  m_activeActionSets (after (two_sets ++ [AttachSessionActionSets 1 (attach_info [2; 1])]))
  = list_to_set [2; 1].
Proof.
  refine (proj1 (proj2 (xrAttachSessionActionSets_attaches_listed_sets (after two_sets)
                          (after (two_sets
                                  ++ [AttachSessionActionSets 1 (attach_info [2; 1])]))
                          1 (attach_info [2; 1]) _))).
  vm_compute. reflexivity.
Defined.

(** X11: a successful binding suggestion happens before any attachment and
    replaces the list stored for its profile (the profile being the string
    its handle resolves to); the lists of the other profiles are kept. *)
Theorem xrSuggestInteractionProfileBindings_replaces (rt rt' : Runtime)
    (instance : XrInstance) (sb : XrInteractionProfileSuggestedBinding) :
  xrSuggestInteractionProfileBindings rt instance sb = (XR_SUCCESS, rt') →
  m_activeActionSets rt = ∅
  ∧ m_suggestedBindings rt' !! getXrPath rt (interactionProfile sb)
    = Some (suggestedBindings sb)
  ∧ (∀ profile : string,
        profile ≠ getXrPath rt (interactionProfile sb) →
        m_suggestedBindings rt' !! profile = m_suggestedBindings rt !! profile)
  ∧ m_actions rt' = m_actions rt.
Proof.
  unfold xrSuggestInteractionProfileBindings.
  destruct (negb (bool_decide _)); [discriminate|].
  destruct (instance_invalid rt instance); [discriminate|].
  destruct (has_attached rt) eqn:Hatt; [discriminate|].
  intros [= <-]. simpl. split.
  - destruct (decide (m_activeActionSets rt = ∅)) as [|Hne]; [done|].
    apply has_attached_true in Hne. congruence.
  - split; [apply lookup_insert_eq|]. split; [|reflexivity].
    intros profile Hne. by rewrite lookup_insert_ne.
Qed.

Lemma xrSuggestInteractionProfileBindings_replaces_witness :
  m_suggestedBindings
    (after [ StringToPath 1 "/interaction_profiles/khr/simple_controller";
             SuggestInteractionProfileBindings 1
               (suggested_binding 1 [ {| action := 4096; binding := 2 |} ]);
             SuggestInteractionProfileBindings 1 (suggested_binding 1 []) ])
  !! getXrPath
       (after [ StringToPath 1 "/interaction_profiles/khr/simple_controller";
                SuggestInteractionProfileBindings 1
                  (suggested_binding 1 [ {| action := 4096; binding := 2 |} ]) ])
       (interactionProfile (suggested_binding 1 []))
  = Some (suggestedBindings (suggested_binding 1 [])).
Proof.
  refine (proj1 (proj2 (xrSuggestInteractionProfileBindings_replaces
                          (after [ StringToPath 1 "/interaction_profiles/khr/simple_controller";
                                   SuggestInteractionProfileBindings 1
                                     (suggested_binding 1
                                        [ {| action := 4096; binding := 2 |} ]) ])
                          _ 1 (suggested_binding 1 []) _))).
  vm_compute. reflexivity.
Defined.

(** X12: no sequence of calls of this file detaches an action set or changes
    the instance and session flags; in particular a set stays attached after
    [xrDestroyActionSet]. *)
Theorem attached_sets_stay_attached (tbl : MappingTable) (calls : list Call)
    (rt rt' : Runtime) (s : XrActionSet) :
  run tbl calls rt = Some rt' →
  s ∈ m_activeActionSets rt →
  s ∈ m_activeActionSets rt'
  ∧ m_instanceCreated rt' = m_instanceCreated rt
  ∧ m_sessionCreated rt' = m_sessionCreated rt.
Proof.
  intros Hrun Hs. apply run_kept in Hrun as (Hi & Hse & Hsub).
  split; [by apply Hsub|done].
Qed.

Lemma attached_sets_stay_attached_witness :
  1 ∈ m_activeActionSets
        (after (bound_session
                ++ [ DestroyActionSet 1;
                     SyncActions (device zero_InputState (Some "knuckles") None) 1
                       (sync_info []) ])).
Proof.
  refine (proj1 (attached_sets_stay_attached example_table
                   [ DestroyActionSet 1;
                     SyncActions (device zero_InputState (Some "knuckles") None) 1
                       (sync_info []) ]
                   (after bound_session) _ 1 _ _)).
  - vm_compute. reflexivity.
  - apply (bool_decide_unpack _). vm_compute. exact I.
Defined.

(** ** Synchronisation and rebinding *)

Lemma rebinding_frame_refl (rt : Runtime) : rebinding_frame rt rt.
Proof. by unfold rebinding_frame. Qed.

Lemma rebinding_frame_trans (a b c : Runtime) :
  rebinding_frame a b → rebinding_frame b c → rebinding_frame a c.
Proof.
  unfold rebinding_frame. intros (?&?&?&?&?&?&?) (?&?&?&?&?&?&?).
  repeat split; congruence.
Qed.

Lemma xrStringToPath_frame (rt : Runtime) (i : XrInstance) (s : string) :
  rebinding_frame rt (xrStringToPath rt i s).2.
Proof. unfold xrStringToPath. repeat case_match; simpl; by unfold rebinding_frame. Qed.

Lemma apply_bindings_frame (mapping : MappingFn) (bs : list XrActionSuggestedBinding)
    (rt : Runtime) :
  rebinding_frame rt (apply_bindings mapping bs rt).
Proof.
  unfold apply_bindings. revert rt.
  induction bs as [|b bs IH]; intros rt; simpl; [apply rebinding_frame_refl|].
  eapply rebinding_frame_trans; [|apply IH].
  destruct (m_actions rt !! action b) as [a|] eqn:Ha; [|apply rebinding_frame_refl].
  unfold rebinding_frame. simpl. repeat split.
  by apply dom_insert_lookup_L.
Qed.

Lemma rebindControllerActions_frame (tbl : MappingTable) (rt rt' : Runtime) (side : Z) :
  rebindControllerActions tbl rt side = Some rt' → rebinding_frame rt rt'.
Proof.
  unfold rebindControllerActions.
  destruct (identify_controller _) as [[preferred localized] aimPose].
  set (rt1 := set_m_localizedControllerType _ rt).
  assert (H1 : rebinding_frame rt rt1) by (by unfold rebinding_frame).
  destruct (match m_suggestedBindings rt1 !! preferred with
            | Some bs => Some (preferred, bs)
            | None => find_fallback (m_suggestedBindings rt1) fallbacks
            end) as [[actual bs]|]; simpl.
  - destruct (tbl actual preferred) as [mapping|]; [|discriminate].
    pose proof (apply_bindings_frame mapping bs rt1) as H2.
    set (rt2 := apply_bindings mapping bs rt1) in *.
    destruct (string_empty actual); simpl.
    + intros [= <-]. eapply rebinding_frame_trans; [exact H1|].
      eapply rebinding_frame_trans; [exact H2|]. by unfold rebinding_frame.
    + pose proof (xrStringToPath_frame rt2 XR_NULL_HANDLE actual) as H3.
      destruct (xrStringToPath rt2 XR_NULL_HANDLE actual) as [[r [p|]] rt3];
        [|discriminate].
      intros [= <-]. simpl in H3.
      eapply rebinding_frame_trans; [exact H1|].
      eapply rebinding_frame_trans; [exact H2|].
      eapply rebinding_frame_trans; [exact H3|]. by unfold rebinding_frame.
  - intros [= <-]. eapply rebinding_frame_trans; [exact H1|]. by unfold rebinding_frame.
Qed.

(** One hand of the synchronisation: what is recorded for that hand, and
    what is left alone. *)
Lemma sync_side_records (tbl : MappingTable) (hw : PvrDevice) (rt rt' : Runtime)
    (side : Z) :
  sync_side tbl hw rt side = Some rt' →
  m_isControllerActive rt'
  = set_side (m_isControllerActive rt) side
      (non_null (at_side (pvr_ControllerType_String hw) side))
  ∧ m_cachedControllerType rt'
    = set_side (m_cachedControllerType rt) side
        (default "" (at_side (pvr_ControllerType_String hw) side))
  ∧ m_cachedInputState rt' = m_cachedInputState rt
  ∧ m_actionSets rt' = m_actionSets rt
  ∧ m_suggestedBindings rt' = m_suggestedBindings rt
  ∧ dom (m_actions rt') = dom (m_actions rt).
Proof.
  unfold sync_side.
  set (rt2 := set_m_cachedControllerType _ _).
  assert (Hd : (match at_side (pvr_ControllerType_String hw) side with
                | Some s => s | None => "" end)
               = default "" (at_side (pvr_ControllerType_String hw) side))
    by (by destruct (at_side _ _)).
  destruct (negb _).
  - intros Hr. apply rebindControllerActions_frame in Hr as (_&Hs&Hd'&Hb&Hi&Ha&Ht).
    rewrite Ha, Ht, Hi, Hs, Hb, Hd'. subst rt2. simpl. by rewrite Hd.
  - intros [= <-]. subst rt2. simpl. by rewrite Hd.
Qed.

Lemma latch_loop_app (attached : gset Z) (before rest : list XrActiveActionSet)
    (latched : gset Z) :
  Forall (λ s, activeActionSet_actionSet s ∈ attached) before →
  latch_loop attached (before ++ rest) latched
  = latch_loop attached rest (list_to_set (activeActionSet_actionSet <$> before) ∪ latched).
Proof.
  intros Hall. revert latched.
  induction Hall as [|s before Hs _ IH]; intros latched; simpl.
  - f_equal. set_solver.
  - rewrite bool_decide_eq_true_2 by exact Hs. simpl. rewrite IH. f_equal. set_solver.
Qed.

(** X13: a synchronisation that declares an unattached set fails with
    ActionSetNotAttached without polling the hardware, but keeps latched the
    declared sets listed before the unattached one; nothing else changes. *)
Theorem xrSyncActions_unattached_set (tbl : MappingTable) (hw : PvrDevice) (rt : Runtime)
    (session : XrSession) (before rest : list XrActiveActionSet)
    (unattached : XrActiveActionSet) :
  session_invalid rt session = false →
  Forall (λ s, activeActionSet_actionSet s ∈ m_activeActionSets rt) before →
  activeActionSet_actionSet unattached ∉ m_activeActionSets rt →
  xrSyncActions tbl hw rt session
    {| syncInfo_type := XR_TYPE_ACTIONS_SYNC_INFO;
       activeActionSets := before ++ unattached :: rest |}
  = Some (XR_ERROR_ACTIONSET_NOT_ATTACHED,
          set_m_frameLatchedActionSets
            (list_to_set (activeActionSet_actionSet <$> before)
             ∪ m_frameLatchedActionSets rt) rt).
Proof.
  intros Hs Hbefore Hun. unfold xrSyncActions. simpl. rewrite Hs.
  rewrite (latch_loop_app _ _ _ _ Hbefore). simpl.
  rewrite bool_decide_eq_false_2 by exact Hun. reflexivity.
Qed.

Lemma xrSyncActions_unattached_set_witness :
  xrSyncActions example_table (device (left_input 1 float_one) (Some "knuckles") None)
    (after bound_session) 1
    {| syncInfo_type := XR_TYPE_ACTIONS_SYNC_INFO;
       activeActionSets :=
         [ {| activeActionSet_actionSet := 1; activeActionSet_subactionPath := 0 |} ]
         ++ {| activeActionSet_actionSet := 9; activeActionSet_subactionPath := 0 |} :: [] |}
  = Some (XR_ERROR_ACTIONSET_NOT_ATTACHED,
          set_m_frameLatchedActionSets
            (list_to_set
               (activeActionSet_actionSet
                  <$> [ {| activeActionSet_actionSet := 1;
                           activeActionSet_subactionPath := 0 |} ])
             ∪ m_frameLatchedActionSets (after bound_session))
            (after bound_session)).
Proof.
  refine (xrSyncActions_unattached_set example_table _ (after bound_session) 1
            [ {| activeActionSet_actionSet := 1; activeActionSet_subactionPath := 0 |} ] []
            {| activeActionSet_actionSet := 9; activeActionSet_subactionPath := 0 |} _ _ _).
  - reflexivity.
  - constructor; [|constructor]. apply (bool_decide_unpack _). vm_compute. exact I.
  - intros Hin. apply (bool_decide_pack _) in Hin. vm_compute in Hin. exact Hin.
Defined.

(** X14: a successful synchronisation records the polled input state, for
    each hand whether a controller was detected and its type string (empty
    when absent), and neither creates nor removes action handles, action
    sets or suggestions. *)
Theorem xrSyncActions_records_hardware (tbl : MappingTable) (hw : PvrDevice)
    (rt rt' : Runtime) (session : XrSession) (syncInfo : XrActionsSyncInfo) :
  xrSyncActions tbl hw rt session syncInfo = Some (XR_SUCCESS, rt') →
  pvr_getInputState hw = Some (m_cachedInputState rt')
  ∧ m_isControllerActive rt'
    = (non_null (pvr_ControllerType_String hw).1, non_null (pvr_ControllerType_String hw).2)
  ∧ m_cachedControllerType rt'
    = (default "" (pvr_ControllerType_String hw).1,
       default "" (pvr_ControllerType_String hw).2)
  ∧ dom (m_actions rt') = dom (m_actions rt)
  ∧ m_actionSets rt' = m_actionSets rt
  ∧ m_suggestedBindings rt' = m_suggestedBindings rt.
Proof.
  unfold xrSyncActions.
  destruct (negb (bool_decide _)); [discriminate|].
  destruct (session_invalid rt session); [discriminate|].
  destruct (latch_loop _ _ _) as [r latched]. simpl.
  destruct r; try discriminate.
  destruct (pvr_getInputState hw) as [st|]; [|discriminate].
  destruct (sync_side _ _ _ 0) as [rt3|] eqn:H0; [|discriminate].
  destruct (sync_side _ _ rt3 1) as [rt4|] eqn:H1; [|discriminate].
  intros [= <-].
  apply sync_side_records in H0 as (Ha0 & Ht0 & Hi0 & Hs0 & Hb0 & Hd0).
  apply sync_side_records in H1 as (Ha1 & Ht1 & Hi1 & Hs1 & Hb1 & Hd1).
  rewrite Hi1, Hi0, Ha1, Ha0, Ht1, Ht0, Hd1, Hd0, Hs1, Hs0, Hb1, Hb0. simpl.
  repeat split.
Qed.

Lemma xrSyncActions_records_hardware_witness :
  m_isControllerActive
    (after (bound_session
            ++ [SyncActions (device (left_input 1 float_one) (Some "knuckles") None) 1
                  (sync_info [1])]))
  = (non_null (Some "knuckles"), non_null (@None string)).
Proof.
  refine (proj1 (proj2 (xrSyncActions_records_hardware example_table
                          (device (left_input 1 float_one) (Some "knuckles") None)
                          (after bound_session) _ 1 (sync_info [1]) _))).
  vm_compute. reflexivity.
Defined.

(** X15: the controller rebinding runs only when a detected type string
    differs from the cached one: a successful synchronisation that detects
    the cached types leaves the actions' bindings, the path table, the
    current interaction profiles, the aim poses, the localized names and the
    dirty flag untouched. *)
Theorem xrSyncActions_same_controllers (tbl : MappingTable) (hw : PvrDevice)
    (rt rt' : Runtime) (session : XrSession) (syncInfo : XrActionsSyncInfo) :
  xrSyncActions tbl hw rt session syncInfo = Some (XR_SUCCESS, rt') →
  default "" (pvr_ControllerType_String hw).1 = (m_cachedControllerType rt).1 →
  default "" (pvr_ControllerType_String hw).2 = (m_cachedControllerType rt).2 →
  m_actions rt' = m_actions rt
  ∧ m_strings rt' = m_strings rt
  ∧ m_currentInteractionProfile rt' = m_currentInteractionProfile rt
  ∧ m_controllerAimPose rt' = m_controllerAimPose rt
  ∧ m_localizedControllerType rt' = m_localizedControllerType rt
  ∧ m_currentInteractionProfileDirty rt' = m_currentInteractionProfileDirty rt.
Proof.
  unfold xrSyncActions.
  destruct (negb (bool_decide _)); [discriminate|].
  destruct (session_invalid rt session); [discriminate|].
  destruct (latch_loop _ _ _) as [r latched]. simpl.
  destruct r; try discriminate.
  destruct (pvr_getInputState hw) as [st|]; [|discriminate].
  intros Hsync Hl Hr. revert Hsync. unfold sync_side, at_side, set_side. simpl.
  destruct (pvr_ControllerType_String hw) as [l r]. simpl in *.
  assert (Hl' : match l with Some s => s | None => "" end = (m_cachedControllerType rt).1)
    by (by destruct l).
  assert (Hr' : match r with Some s => s | None => "" end = (m_cachedControllerType rt).2)
    by (by destruct r).
  rewrite Hl', String.eqb_refl. simpl. rewrite Hr', String.eqb_refl. simpl.
  intros [= <-]. simpl. repeat split.
Qed.

Lemma xrSyncActions_same_controllers_witness :
  m_actions
    (after (bound_session
            ++ [ SyncActions (device zero_InputState (Some "knuckles") None) 1 (sync_info [1]);
                 SyncActions (device (left_input 1 float_one) (Some "knuckles") None) 1
                   (sync_info [1]) ]))
  = m_actions
      (after (bound_session
              ++ [ SyncActions (device zero_InputState (Some "knuckles") None) 1
                     (sync_info [1]) ])).
Proof.
  refine (proj1 (xrSyncActions_same_controllers example_table
                   (device (left_input 1 float_one) (Some "knuckles") None)
                   (after (bound_session
                           ++ [ SyncActions (device zero_InputState (Some "knuckles") None) 1
                                  (sync_info [1]) ]))
                   _ 1 (sync_info [1]) _ _ _)).
  - vm_compute. reflexivity.
  - vm_compute. reflexivity.
  - vm_compute. reflexivity.
Defined.

Lemma identify_controller_nonempty (controllerType : string) :
  string_empty (identify_controller controllerType).1.1 = false.
Proof. unfold identify_controller. repeat case_match; reflexivity. Qed.

(** X16: whenever the rebinding returns, it has set the dirty flag and the
    hand's localized controller name.  The hand's profile is the preferred
    profile of the detected type if the store has suggestions for it, else
    the first fallback profile that has some, in both cases with the aim pose
    of the detected type; with no suggestions at all the profile is null and
    the aim pose the identity. *)
Theorem rebindControllerActions_resolution (tbl : MappingTable) (rt rt' : Runtime)
    (side : Z) :
  rebindControllerActions tbl rt side = Some rt' →
  m_currentInteractionProfileDirty rt' = true
  ∧ at_side (m_localizedControllerType rt') side
    = (identify_controller (at_side (m_cachedControllerType rt) side)).1.2
  ∧ match
      m_suggestedBindings rt
        !! (identify_controller (at_side (m_cachedControllerType rt) side)).1.1,
      find_fallback (m_suggestedBindings rt) fallbacks
    with
    | Some _, _ =>
        m_strings rt' !! at_side (m_currentInteractionProfile rt') side
        = Some (identify_controller (at_side (m_cachedControllerType rt) side)).1.1
        ∧ at_side (m_controllerAimPose rt') side
          = (identify_controller (at_side (m_cachedControllerType rt) side)).2
    | None, Some (actual, _) =>
        m_strings rt' !! at_side (m_currentInteractionProfile rt') side = Some actual
        ∧ at_side (m_controllerAimPose rt') side
          = (identify_controller (at_side (m_cachedControllerType rt) side)).2
    | None, None =>
        at_side (m_currentInteractionProfile rt') side = XR_NULL_PATH
        ∧ at_side (m_controllerAimPose rt') side = PoseIdentity
    end.
Proof.
  unfold rebindControllerActions.
  pose proof (identify_controller_nonempty (at_side (m_cachedControllerType rt) side))
    as Hne.
  destruct (identify_controller _) as [[preferred localized] aimPose].
  cbn [fst snd] in *.
  set (rt1 := set_m_localizedControllerType _ rt).
  change (m_suggestedBindings rt1) with (m_suggestedBindings rt).
  assert (Hloc : ∀ r, m_localizedControllerType r = m_localizedControllerType rt1 →
                      at_side (m_localizedControllerType r) side = localized).
  { intros r ->. subst rt1. simpl. apply at_side_set_side. }
  assert (Hkeep : ∀ mapping bs,
             m_localizedControllerType (apply_bindings mapping bs rt1)
             = m_localizedControllerType rt1).
  { intros mapping bs. unfold apply_bindings. generalize rt1.
    induction bs as [|b bs IH]; intros r; simpl; [reflexivity|].
    rewrite IH. by destruct (m_actions r !! action b). }
  assert (Hintern : ∀ r actual p r3,
             xrStringToPath r XR_NULL_HANDLE actual = (XR_SUCCESS, Some p, r3) →
             m_localizedControllerType r3 = m_localizedControllerType r).
  { intros r actual p r3. unfold xrStringToPath. simpl.
    destruct (find_string _ _); by intros [= _ <-]. }
  destruct (m_suggestedBindings rt !! preferred) as [bs|] eqn:Hpref.
  - simpl. destruct (tbl preferred preferred) as [mapping|]; [|discriminate].
    rewrite Hne. simpl.
    destruct (xrStringToPath_null_instance (apply_bindings mapping bs rt1) preferred)
      as (p & rt3 & Hx & Hp & _).
    rewrite Hx. intros [= <-]. simpl. rewrite !at_side_set_side.
    split; [reflexivity|]. split; [|done].
    apply Hloc. rewrite (Hintern _ _ _ _ Hx). apply Hkeep.
  - destruct (find_fallback (m_suggestedBindings rt) fallbacks) as [[actual bs]|] eqn:Hf;
      simpl.
    + destruct (tbl actual preferred) as [mapping|]; [|discriminate].
      assert (Ha : string_empty actual = false).
      { apply find_fallback_Some in Hf as [Hin _]. unfold fallbacks in Hin.
        set_unfold. destruct Hin as [->|[->|[->|[]]]]; reflexivity. }
      rewrite Ha. simpl.
      destruct (xrStringToPath_null_instance (apply_bindings mapping bs rt1) actual)
        as (p & rt3 & Hx & Hp & _).
      rewrite Hx. intros [= <-]. simpl. rewrite !at_side_set_side.
      split; [reflexivity|]. split; [|done].
      apply Hloc. rewrite (Hintern _ _ _ _ Hx). apply Hkeep.
    + intros [= <-]. simpl. rewrite !at_side_set_side.
      split; [reflexivity|]. split; [|done]. reflexivity.
Qed.

Lemma rebindControllerActions_resolution_witness :
  m_currentInteractionProfileDirty
    (default fresh_runtime
       (rebindControllerActions example_table
          (set_m_cachedControllerType ("knuckles", "") (after bound_session)) 0))
  = true.
Proof.
  refine (proj1 (rebindControllerActions_resolution example_table
                   (set_m_cachedControllerType ("knuckles", "") (after bound_session))
                   _ 0 _)).
  vm_compute. reflexivity.
Defined.

(** ** Bound sources *)

(** X17: for a known action on a valid session, the enumeration of bound
    sources never fails with SizeInsufficient, whatever the capacity: it
    succeeds and counts one source if the action has a bound path and none
    otherwise.  When it writes a source, that handle resolves to the action's
    bound path; when it writes none, the runtime is unchanged. *)
Theorem xrEnumerateBoundSourcesForAction_count (rt : Runtime) (session : XrSession)
    (act : XrAction) (xrAction : Action) (capacity : Z) (sources : bool) :
  0 ≤ capacity →
  session_invalid rt session = false →
  m_actions rt !! act = Some xrAction →
  ∃ (source : option XrPath) (rt' : Runtime),
    xrEnumerateBoundSourcesForAction rt session
      {| enumerateInfo_type := XR_TYPE_BOUND_SOURCES_FOR_ACTION_ENUMERATE_INFO;
         enumerateInfo_action := act |} capacity sources
    = (XR_SUCCESS, Some (if string_empty (path xrAction) then 0 else 1), source, rt')
    ∧ match source with
      | Some p =>
          capacity ≠ 0 ∧ sources = true ∧ m_strings rt' !! p = Some (path xrAction)
      | None => rt' = rt
      end.
Proof.
  intros Hcap Hs Ha. unfold xrEnumerateBoundSourcesForAction.
  cbn [enumerateInfo_type enumerateInfo_action].
  rewrite Hs, Ha. rewrite bool_decide_eq_true_2 by reflexivity. simpl.
  assert (Hlt : negb (capacity =? 0)
                && (capacity <? (if string_empty (path xrAction) then 0 else 1)) = false).
  { destruct (Z.eqb_spec capacity 0); simpl; [reflexivity|].
    destruct (string_empty (path xrAction)); apply Z.ltb_ge; lia. }
  rewrite Hlt.
  destruct (negb (capacity =? 0) && sources && negb (string_empty (path xrAction)))
    eqn:Hw.
  - destruct (xrStringToPath_null_instance rt (path xrAction)) as (p & rt' & Hx & Hp & _).
    rewrite Hx. exists (Some p), rt'. split; [reflexivity|].
    apply andb_prop in Hw as [Hw _]. apply andb_prop in Hw as [Hc Hsrc].
    apply negb_true_iff, Z.eqb_neq in Hc. auto.
  - exists None, rt. split; reflexivity.
Qed.

Lemma xrEnumerateBoundSourcesForAction_count_witness :
  ∃ (source : option XrPath) (rt' : Runtime),
    xrEnumerateBoundSourcesForAction
      (after (bound_session
              ++ [SyncActions (device zero_InputState (Some "knuckles") None) 1
                    (sync_info [1])]))
      1 {| enumerateInfo_type := XR_TYPE_BOUND_SOURCES_FOR_ACTION_ENUMERATE_INFO;
           enumerateInfo_action := 4096 |} 1 true
    = (XR_SUCCESS,
       Some (if string_empty
                  (path (set_binding "/user/hand/left/input/select/click"
                           (Some PtrHandButtons) 256 None None (-1)
                           (Action_created XR_ACTION_TYPE_BOOLEAN_INPUT 1)))
             then 0 else 1), source, rt')
    ∧ match source with
      | Some p =>
          (1 : Z) ≠ 0 ∧ true = true
          ∧ m_strings rt' !! p
            = Some (path (set_binding "/user/hand/left/input/select/click"
                            (Some PtrHandButtons) 256 None None (-1)
                            (Action_created XR_ACTION_TYPE_BOOLEAN_INPUT 1)))
      | None =>
          rt' = after (bound_session
                       ++ [SyncActions (device zero_InputState (Some "knuckles") None) 1
                             (sync_info [1])])
      end.
Proof.
  refine (xrEnumerateBoundSourcesForAction_count
            (after (bound_session
                    ++ [SyncActions (device zero_InputState (Some "knuckles") None) 1
                          (sync_info [1])]))
            1 4096
            (set_binding "/user/hand/left/input/select/click" (Some PtrHandButtons) 256
               None None (-1) (Action_created XR_ACTION_TYPE_BOOLEAN_INPUT 1))
            1 true _ _ _).
  - lia.
  - reflexivity.
  - vm_compute. reflexivity.
Defined.

(** ** Haptics, the other cases *)

Lemma haptic_loop_calls (pulse_ok : bool) (side : Z) (chain : list XrHapticBaseHeader) :
  (haptic_loop pulse_ok side chain = (XR_SUCCESS, []))
  ∨ ∃ entry : XrHapticBaseHeader,
      entry ∈ chain
      ∧ haptic_type entry = XR_TYPE_HAPTIC_VIBRATION
      ∧ float_gt (amplitude entry) float_zero = true
      ∧ haptic_loop pulse_ok side chain
        = (if pulse_ok then XR_SUCCESS else XR_ERROR_RUNTIME_FAILURE,
           [pvr_triggerHapticPulse
              (if side =? 0 then pvrTrackedDevice_LeftController
               else pvrTrackedDevice_RightController)
              (amplitude entry)]).
Proof.
  induction chain as [|e chain IH]; simpl; [by left|].
  destruct (bool_decide (haptic_type e = XR_TYPE_HAPTIC_VIBRATION)) eqn:Hv.
  - apply bool_decide_eq_true_1 in Hv.
    destruct (float_gt (amplitude e) float_zero) eqn:Hgt; [|by left].
    right. exists e. repeat split; [set_solver|done|done].
  - destruct IH as [IH|(entry & Hin & Hty & Hgt & Hcall)]; [by left|].
    right. exists entry. repeat split; [set_solver|done|done|done].
Qed.

(** X18: whatever its arguments, a haptic call makes at most one hardware
    call; when it makes one, it is a pulse whose amplitude is that of a
    vibration structure of the chain and is greater than zero, and the call
    answers success or, if the hardware refuses, a runtime failure; a call
    that fails validation makes none. *)
Theorem xrApplyHapticFeedback_at_most_one_pulse (pulse_ok : bool) (rt : Runtime)
    (session : XrSession) (info : XrHapticActionInfo) (chain : list XrHapticBaseHeader) :
  (xrApplyHapticFeedback pulse_ok rt session info chain).2 = []
  ∨ ∃ (entry : XrHapticBaseHeader) (device : pvrTrackedDevice),
      entry ∈ chain
      ∧ haptic_type entry = XR_TYPE_HAPTIC_VIBRATION
      ∧ float_gt (amplitude entry) float_zero = true
      ∧ xrApplyHapticFeedback pulse_ok rt session info chain
        = (if pulse_ok then XR_SUCCESS else XR_ERROR_RUNTIME_FAILURE,
           [pvr_triggerHapticPulse device (amplitude entry)]).
Proof.
  unfold xrApplyHapticFeedback.
  repeat case_match; simpl; try (by left);
    match goal with
    | |- context [haptic_loop ?ok ?side ?c] =>
        destruct (haptic_loop_calls ok side c) as [Hn|(entry & Hin & Hty & Hgt & Hcall)];
          [left; by rewrite Hn|];
          right; exists entry,
            (if side =? 0 then pvrTrackedDevice_LeftController
             else pvrTrackedDevice_RightController)
    end;
    (split; [done|]); (split; [done|]); (split; [done|]); exact Hcall.
Qed.

(** X19: [xrStopHapticFeedback] answers what [xrApplyHapticFeedback] answers
    for an empty chain: the validation result, success included when the
    action is unbound or not bound to a haptic output. *)
Theorem xrStopHapticFeedback_is_validation (pulse_ok : bool) (rt : Runtime)
    (session : XrSession) (info : XrHapticActionInfo) :
  xrStopHapticFeedback rt session info
  = (xrApplyHapticFeedback pulse_ok rt session info []).1.
Proof.
  unfold xrStopHapticFeedback, xrApplyHapticFeedback.
  repeat case_match; reflexivity.
Qed.

(** X20: a valid haptic call on an action that is unbound, bound to a path
    that is no haptic output, or bound to no hand is silently ignored: it
    succeeds without a hardware call, whatever the amplitude. *)
Theorem xrApplyHapticFeedback_ignored (pulse_ok : bool) (rt : Runtime)
    (session : XrSession) (info : XrHapticActionInfo) (xrAction : Action)
    (chain : list XrHapticBaseHeader) :
  hapticActionInfo_type info = XR_TYPE_HAPTIC_ACTION_INFO →
  session_invalid rt session = false →
  m_actions rt !! hapticActionInfo_action info = Some xrAction →
  type xrAction = XR_ACTION_TYPE_VIBRATION_OUTPUT →
  actionSet xrAction ∈ m_activeActionSets rt →
  path xrAction = ""
  ∨ endsWith (getActionPath rt xrAction (hapticActionInfo_subactionPath info))
      "/output/haptic" = false
  ∨ getActionSide (getActionPath rt xrAction (hapticActionInfo_subactionPath info)) = -1 →
  xrApplyHapticFeedback pulse_ok rt session info chain = (XR_SUCCESS, []).
Proof.
  intros Hty Hs Ha Hvib Hset Hcases. unfold xrApplyHapticFeedback.
  rewrite Hty, Hs, Ha, Hvib. rewrite !bool_decide_eq_true_2 by done. simpl.
  destruct Hcases as [Hp|[He|Hside]].
  - by rewrite Hp.
  - rewrite He. simpl. by destruct (string_empty (path xrAction)).
  - rewrite Hside. rewrite andb_false_r. by destruct (string_empty (path xrAction)).
Qed.

Lemma xrApplyHapticFeedback_ignored_witness :
  xrApplyHapticFeedback true (after bound_session) 1 (haptic_info 4224)
    [vibration_of float_one]
  = (XR_SUCCESS, []).
Proof.
  refine (xrApplyHapticFeedback_ignored true (after bound_session) 1 (haptic_info 4224)
            (Action_created XR_ACTION_TYPE_VIBRATION_OUTPUT 1) [vibration_of float_one]
            _ _ _ _ _ _).
  - reflexivity.
  - reflexivity.
  - vm_compute. reflexivity.
  - reflexivity.
  - apply (bool_decide_unpack _). vm_compute. exact I.
  - left. reflexivity.
Defined.

(** ** Which hand an action path names *)

Lemma prefix_length (p s : string) :
  String.prefix p s = true → (String.length p ≤ String.length s)%nat.
Proof.
  revert s. induction p as [|c p IH]; intros [|d s]; simpl; try lia; try discriminate.
  destruct (Ascii.ascii_dec c d); [|discriminate].
  intros H. apply IH in H. lia.
Qed.

Lemma prefix_app_long (q s1 s2 : string) :
  (String.length q ≤ String.length s1)%nat →
  String.prefix q (s1 +:+ s2) = String.prefix q s1.
Proof.
  revert s1. induction q as [|c q IH]; intros [|d s1]; simpl.
  - by destruct s2.
  - reflexivity.
  - lia.
  - intros Hlen. destruct (Ascii.ascii_dec c d); [|reflexivity].
    apply IH. lia.
Qed.

(** Once a path names a hand, whatever is appended to it names the same
    hand. *)
Lemma getActionSide_app (s t : string) :
  0 ≤ getActionSide s → getActionSide (s +:+ t) = getActionSide s.
Proof.
  intros Hside.
  destruct (getActionSide_cases s) as [(Hl & Hs)|[(Hl & Hr & Hs)|(Hl & Hr & Hs)]];
    [| |lia].
  - unfold getActionSide, startsWith in *.
    rewrite prefix_app_long by (by apply prefix_length). by rewrite Hl.
  - unfold getActionSide, startsWith in *.
    pose proof (prefix_length _ _ Hr) as Hlen. simpl in Hlen.
    rewrite !prefix_app_long by (simpl; lia). reflexivity.
Qed.

(** X21: the full action path is the bound path alone when the query passes
    no subaction path; when it passes one that names a hand, that hand is the
    one the query is about, whatever hand the bound path names. *)
Theorem getActionPath_subaction_hand (rt : Runtime) (xrAction : Action) (sub : XrPath) :
  getActionPath rt xrAction XR_NULL_PATH = path xrAction
  ∧ (sub ≠ XR_NULL_PATH →
     0 ≤ getActionSide (getXrPath rt sub) →
     getActionSide (getActionPath rt xrAction sub) = getActionSide (getXrPath rt sub)).
Proof.
  split; [reflexivity|].
  intros Hsub Hside. unfold getActionPath.
  apply Z.eqb_neq in Hsub. rewrite Hsub. simpl.
  destruct (negb (string_empty (getXrPath rt sub)) && negb (endsWith (getXrPath rt sub) "/")
            && negb (startsWith (path xrAction) "/")).
  - rewrite getActionSide_app; rewrite getActionSide_app; done.
  - by rewrite getActionSide_app.
Qed.

Lemma getActionPath_subaction_hand_witness :
  getActionSide
    (getActionPath (after bound_session)
       (set_binding "/user/hand/left/input/select/click" (Some PtrHandButtons) 256 None None
          (-1) (Action_created XR_ACTION_TYPE_BOOLEAN_INPUT 1)) 6)
  = getActionSide (getXrPath (after bound_session) 6).
Proof.
  refine (proj2 (getActionPath_subaction_hand (after bound_session)
                   (set_binding "/user/hand/left/input/select/click" (Some PtrHandButtons)
                      256 None None (-1) (Action_created XR_ACTION_TYPE_BOOLEAN_INPUT 1)) 6)
            _ _).
  - discriminate.
  - vm_compute. discriminate.
Defined.

Lemma no_hand_inactive (rt : Runtime) (xrAction : Action) (sub : XrPath) :
  getActionSide (getActionPath rt xrAction sub) = -1 →
  boolean_state rt xrAction sub = Some (false, XrBool32_of_bool (lastBoolValue xrAction))
  ∧ float_state rt xrAction sub = Some (false, lastFloatValue xrAction)
  ∧ vector2f_state rt xrAction sub = (false, lastVector2fValue xrAction)
  ∧ pose_state rt xrAction sub = false.
Proof.
  intros Hside. unfold boolean_state, float_state, vector2f_state, pose_state.
  rewrite Hside. simpl. rewrite !andb_false_r.
  destruct (string_empty (path xrAction)); simpl; [done|].
  by destruct (vector2fValue xrAction).
Qed.

(** X22: a subaction path handle that was never interned names no hand: a
    successful query passing it reports the action inactive, with its cached
    value. *)
Theorem unknown_subaction_path_is_inactive (rt : Runtime) (session : XrSession)
    (act : XrAction) (sub : XrPath) (xrAction : Action) :
  sub ≠ XR_NULL_PATH →
  m_strings rt !! sub = None →
  m_actions rt !! act = Some xrAction →
  getActionSide (getActionPath rt xrAction sub) = -1
  ∧ (∀ (st st' : XrActionStateBoolean) (rt' : Runtime),
        xrGetActionStateBoolean rt session (get_info act sub) st
        = Some (XR_SUCCESS, st', rt') →
        isActive st' = false
        ∧ currentState st' = XrBool32_of_bool (lastBoolValue xrAction))
  ∧ (∀ (st st' : XrActionStateFloat) (rt' : Runtime),
        xrGetActionStateFloat rt session (get_info act sub) st
        = Some (XR_SUCCESS, st', rt') →
        isActive st' = false ∧ currentState st' = lastFloatValue xrAction)
  ∧ (∀ (st st' : XrActionStateVector2f) (rt' : Runtime),
        xrGetActionStateVector2f rt session (get_info act sub) st
        = (XR_SUCCESS, st', rt') →
        isActive st' = false ∧ currentState st' = lastVector2fValue xrAction)
  ∧ (∀ st st' : XrActionStatePose,
        xrGetActionStatePose rt session (get_info act sub) st = (XR_SUCCESS, st') →
        pose_isActive st' = false).
Proof.
  intros Hsub Hnone Ha.
  assert (Hside : getActionSide (getActionPath rt xrAction sub) = -1).
  { unfold getActionPath, getXrPath. apply Z.eqb_neq in Hsub. rewrite Hsub, Hnone.
    cbn [negb]. destruct (negb (string_empty "<unknown>") && _ && _); reflexivity. }
  destruct (no_hand_inactive _ _ _ Hside) as (Hb & Hf & Hv & Hp).
  split; [exact Hside|]. split; [|split; [|split]].
  - intros st st' rt' Hq.
    destruct (xrGetActionStateBoolean_success _ _ _ _ _ _ _ Hq Ha)
      as (active & cur & Hst & Hact & Hcur & _).
    cbn [get_info getInfo_subactionPath] in Hst. rewrite Hb in Hst.
    injection Hst as <- <-. done.
  - intros st st' rt' Hq.
    destruct (xrGetActionStateFloat_success _ _ _ _ _ _ _ Hq Ha)
      as (active & cur & Hst & Hact & Hcur & _).
    cbn [get_info getInfo_subactionPath] in Hst. rewrite Hf in Hst.
    injection Hst as <- <-. done.
  - intros st st' rt' Hq.
    destruct (xrGetActionStateVector2f_success _ _ _ _ _ _ _ Hq Ha)
      as (active & cur & Hst & Hact & Hcur & _).
    cbn [get_info getInfo_subactionPath] in Hst. rewrite Hv in Hst.
    injection Hst as <- <-. done.
  - intros st st' Hq.
    rewrite (xrGetActionStatePose_success _ _ _ _ _ _ Hq Ha).
    exact Hp.
Qed.

Lemma unknown_subaction_path_is_inactive_witness :
  getActionSide
    (getActionPath
       (after (bound_session
               ++ [SyncActions (device (left_input 257 float_zero) (Some "knuckles") None)
                     1 (sync_info [1])]))
       (set_binding "/user/hand/left/input/select/click" (Some PtrHandButtons) 256 None None
          (-1) (Action_created XR_ACTION_TYPE_BOOLEAN_INPUT 1)) 99)
  = -1.
Proof.
  refine (proj1 (unknown_subaction_path_is_inactive
                   (after (bound_session
                           ++ [SyncActions
                                 (device (left_input 257 float_zero) (Some "knuckles") None)
                                 1 (sync_info [1])]))
                   1 4096 99
                   (set_binding "/user/hand/left/input/select/click" (Some PtrHandButtons)
                      256 None None (-1) (Action_created XR_ACTION_TYPE_BOOLEAN_INPUT 1))
                   _ _ _)).
  - discriminate.
  - vm_compute. reflexivity.
  - vm_compute. reflexivity.
Defined.

(** ** Current state of float and 2-axis actions, and cached values *)

Ltac cached_value_cases Hst Hcase :=
  repeat match type of Hst with
         | context [if negb ?b then _ else _] => destruct b; cbn [negb] in Hst
         | context [if ?b && (0 <=? ?s) then _ else _] => destruct (b && (0 <=? s))
         | context [if 0 <=? ?s then _ else _] => destruct (0 <=? s)
         | context [match vector2fValue ?a with _ => _ end] => destruct (vector2fValue a)
         end;
  try (by simplify_eq);
  match type of Hst with
  | context [at_side ?arr ?s && bool_decide ?P] =>
      destruct (at_side arr s) eqn:Hactive_; cbn [andb] in Hst;
      [destruct (bool_decide P) eqn:Hlatched_;
       [destruct Hcase as [->|Hn];
        [repeat case_match; simplify_eq
        |apply bool_decide_eq_true_1 in Hlatched_; done]
       |by simplify_eq]
      |by simplify_eq]
  end.

Lemma boolean_state_cached (rt : Runtime) (xrAction : Action) (sub : XrPath)
    (active : bool) (cur : Z) :
  boolean_state rt xrAction sub = Some (active, cur) →
  active = false ∨ actionSet xrAction ∉ m_frameLatchedActionSets rt →
  cur = XrBool32_of_bool (lastBoolValue xrAction).
Proof. unfold boolean_state. intros Hst Hcase. cached_value_cases Hst Hcase. Qed.

Lemma float_state_cached (rt : Runtime) (xrAction : Action) (sub : XrPath)
    (active : bool) (cur : float) :
  float_state rt xrAction sub = Some (active, cur) →
  active = false ∨ actionSet xrAction ∉ m_frameLatchedActionSets rt →
  cur = lastFloatValue xrAction.
Proof. unfold float_state. intros Hst Hcase. cached_value_cases Hst Hcase. Qed.

Lemma vector2f_state_cached (rt : Runtime) (xrAction : Action) (sub : XrPath)
    (active : bool) (cur : pvrVector2f) :
  vector2f_state rt xrAction sub = (active, cur) →
  active = false ∨ actionSet xrAction ∉ m_frameLatchedActionSets rt →
  cur = lastVector2fValue xrAction.
Proof. unfold vector2f_state. intros Hst Hcase. cached_value_cases Hst Hcase. Qed.

(** X23: when a successful query reports the action inactive, or when the
    action's set is not latched, [currentState] is the cached value; for the
    boolean query it is then reported unchanged, with the cached change
    time. *)
Theorem inactive_or_unlatched_keeps_cached_value (rt : Runtime) (session : XrSession)
    (getInfo : XrActionStateGetInfo) (xrAction : Action) :
  m_actions rt !! getInfo_action getInfo = Some xrAction →
  (∀ (st st' : XrActionStateBoolean) (rt' : Runtime),
      xrGetActionStateBoolean rt session getInfo st = Some (XR_SUCCESS, st', rt') →
      isActive st' = false ∨ actionSet xrAction ∉ m_frameLatchedActionSets rt →
      currentState st' = XrBool32_of_bool (lastBoolValue xrAction)
      ∧ changedSinceLastSync st' = false
      ∧ lastChangeTime st' = lastBoolValueChangedTime xrAction)
  ∧ (∀ (st st' : XrActionStateFloat) (rt' : Runtime),
        xrGetActionStateFloat rt session getInfo st = Some (XR_SUCCESS, st', rt') →
        isActive st' = false ∨ actionSet xrAction ∉ m_frameLatchedActionSets rt →
        currentState st' = lastFloatValue xrAction)
  ∧ (∀ (st st' : XrActionStateVector2f) (rt' : Runtime),
        xrGetActionStateVector2f rt session getInfo st = (XR_SUCCESS, st', rt') →
        isActive st' = false ∨ actionSet xrAction ∉ m_frameLatchedActionSets rt →
        currentState st' = lastVector2fValue xrAction).
Proof.
  intros Ha. split; [|split].
  - intros st st' rt' Hq Hcase.
    destruct (xrGetActionStateBoolean_success _ _ _ _ _ _ _ Hq Ha)
      as (active & cur & Hst & Hact & Hcur & Hch & Ht & _).
    rewrite Hact in Hcase.
    pose proof (boolean_state_cached _ _ _ _ _ Hst Hcase) as Hc.
    rewrite Ht, Hch, Hcur, Hc, bool_of_XrBool32_of_bool.
    by destruct (lastBoolValue xrAction).
  - intros st st' rt' Hq Hcase.
    destruct (xrGetActionStateFloat_success _ _ _ _ _ _ _ Hq Ha)
      as (active & cur & Hst & Hact & Hcur & _).
    rewrite Hact in Hcase. rewrite Hcur. by eapply float_state_cached.
  - intros st st' rt' Hq Hcase.
    destruct (xrGetActionStateVector2f_success _ _ _ _ _ _ _ Hq Ha)
      as (active & cur & Hst & Hact & Hcur & _).
    rewrite Hact in Hcase. rewrite Hcur. by eapply vector2f_state_cached.
Qed.

Lemma inactive_or_unlatched_keeps_cached_value_witness :
  (0 : Z) = XrBool32_of_bool false ∧ false = false ∧ (0 : Z) = 0.
Proof.
  refine (proj1 (inactive_or_unlatched_keeps_cached_value
                   (after (bound_session
                           ++ [SyncActions
                                 (device (left_input 257 float_zero) (Some "knuckles") None)
                                 1 (sync_info [])]))
                   1 (get_info 4096 XR_NULL_PATH)
                   (set_binding "/user/hand/left/input/select/click" (Some PtrHandButtons)
                      256 None None (-1) (Action_created XR_ACTION_TYPE_BOOLEAN_INPUT 1))
                   _)
            (blank_state XR_TYPE_ACTION_STATE_BOOLEAN 0)
            {| state_type := XR_TYPE_ACTION_STATE_BOOLEAN; currentState := 0;
               changedSinceLastSync := false; lastChangeTime := 0; isActive := true |}
            _ _ _).
  - vm_compute. reflexivity.
  - vm_compute. reflexivity.
  - right. intros Hin. apply (bool_decide_pack _) in Hin. vm_compute in Hin. exact Hin.
Defined.



(** X25: when a 2-axis query succeeds with [isActive] true and the action's
    set is latched, both components of [currentState] are those of the bound
    2-axis field of the hand. *)
Theorem vector2f_currentState_when_active (rt rt' : Runtime) (session : XrSession)
    (getInfo : XrActionStateGetInfo) (state state' : XrActionStateVector2f)
    (xrAction : Action) :
  xrGetActionStateVector2f rt session getInfo state = (XR_SUCCESS, state', rt') →
  m_actions rt !! getInfo_action getInfo = Some xrAction →
  isActive state' = true →
  actionSet xrAction ∈ m_frameLatchedActionSets rt →
  ∃ vp : Vector2fField,
    vector2fValue xrAction = Some vp
    ∧ x (currentState state')
      = x (deref_vector2f (m_cachedInputState rt) vp
             (getActionSide (getActionPath rt xrAction (getInfo_subactionPath getInfo))))
    ∧ y (currentState state')
      = y (deref_vector2f (m_cachedInputState rt) vp
             (getActionSide (getActionPath rt xrAction (getInfo_subactionPath getInfo)))).
Proof.
  intros Hq Ha Hactive Hlatched.
  destruct (xrGetActionStateVector2f_success _ _ _ _ _ _ _ Hq Ha)
    as (active & cur & Hst & Hact & Hcur & _).
  rewrite Hactive in Hact. subst active. rewrite Hcur. clear Hcur Hq.
  unfold vector2f_state in Hst.
  destruct (string_empty (path xrAction)); simpl in Hst; [discriminate|].
  destruct (vector2fValue xrAction) as [vp|]; [|discriminate].
  destruct (0 <=? getActionSide _); [|discriminate].
  destruct (at_side (m_isControllerActive rt) _); simpl in Hst; [|discriminate].
  rewrite bool_decide_eq_true_2 in Hst by exact Hlatched.
  exists vp. injection Hst as <-. auto.
Qed.

(** X26: the float query returns, without dereferencing a null pointer,
    whenever the queried action, if known, has no bound path or has at least
    one hardware reference. *)
Theorem xrGetActionStateFloat_returns (rt : Runtime) (session : XrSession)
    (getInfo : XrActionStateGetInfo) (state : XrActionStateFloat) :
  (∀ xrAction : Action,
      m_actions rt !! getInfo_action getInfo = Some xrAction →
      path xrAction = ""
      ∨ non_null (floatValue xrAction) || non_null (buttonMap xrAction)
        || non_null (vector2fValue xrAction) = true) →
  is_Some (xrGetActionStateFloat rt session getInfo state).
Proof.
  intros Hwired. unfold xrGetActionStateFloat.
  destruct (negb _ || negb _); [eauto|].
  destruct (session_invalid rt session); [eauto|].
  destruct (m_actions rt !! getInfo_action getInfo) as [xrAction|]; [|eauto].
  destruct (negb (bool_decide (type xrAction = _))); [eauto|].
  destruct (negb (bool_decide (actionSet xrAction ∈ _))); [eauto|].
  assert (Hst : is_Some (float_state rt xrAction (getInfo_subactionPath getInfo))).
  { unfold float_state. destruct (Hwired xrAction eq_refl) as [Hp|Hw].
    - rewrite Hp. simpl. eauto.
    - destruct (floatValue xrAction), (buttonMap xrAction), (vector2fValue xrAction);
        simpl in Hw; try discriminate; repeat case_match; eauto. }
  destruct Hst as [[active cur] Hst]. rewrite Hst. eauto.
Qed.

Lemma xrGetActionStateFloat_returns_witness :
  is_Some
    (xrGetActionStateFloat
       (after (bound_session
               ++ [SyncActions (device (left_input 0 float_one) (Some "knuckles") None)
                     1 (sync_info [1])]))
       1 (get_info 4160 XR_NULL_PATH) (blank_state XR_TYPE_ACTION_STATE_FLOAT float_zero)).
Proof.
  refine (xrGetActionStateFloat_returns _ 1 (get_info 4160 XR_NULL_PATH) _ _).
  intros xrAction Ha. right. vm_compute in Ha. injection Ha as <-. reflexivity.
Defined.

Lemma vector2f_currentState_when_active_witness :
  ∃ vp : Vector2fField,
    Some PtrJoyStick = Some vp
    ∧ float_one
      = x (deref_vector2f (right_stick_input {| x := float_one; y := float_0_99 |}) vp
             (getActionSide "/user/hand/right/input/thumbstick"))
    ∧ float_0_99
      = y (deref_vector2f (right_stick_input {| x := float_one; y := float_0_99 |}) vp
             (getActionSide "/user/hand/right/input/thumbstick")).
Proof.
  refine (vector2f_currentState_when_active
            (after (thumbstick_session
                    ++ [SyncActions
                          (device (right_stick_input {| x := float_one; y := float_0_99 |})
                             None (Some "vive_controller"))
                          1 (sync_info [1])]))
            (after (thumbstick_session
                    ++ [SyncActions
                          (device (right_stick_input {| x := float_one; y := float_0_99 |})
                             None (Some "vive_controller"))
                          1 (sync_info [1]);
                        GetActionStateVector2f 1 (get_info 4352 XR_NULL_PATH)
                          (blank_state XR_TYPE_ACTION_STATE_VECTOR2F zero_vector2f)]))
            1 (get_info 4352 XR_NULL_PATH)
            (blank_state XR_TYPE_ACTION_STATE_VECTOR2F zero_vector2f)
            {| state_type := XR_TYPE_ACTION_STATE_VECTOR2F;
               currentState := {| x := float_one; y := float_0_99 |};
               changedSinceLastSync := true; lastChangeTime := 2000; isActive := true |}
            (set_binding "/user/hand/right/input/thumbstick" None 0 None (Some PtrJoyStick)
               (-1) (Action_created XR_ACTION_TYPE_VECTOR2F_INPUT 1))
            _ _ _ _).
  - vm_compute. reflexivity.
  - vm_compute. reflexivity.
  - reflexivity.
  - apply (bool_decide_unpack _). vm_compute. exact I.
Defined.

(** ** Localized names *)

(** X27: for a source path that names no hand (a gamepad path, an unknown
    handle, the null path), or when no component is asked for, the localized
    name is empty: the call succeeds, asks for one byte, and writes the empty
    string if given a buffer. *)
Theorem xrGetInputSourceLocalizedName_empty_name (names : LocalizedSourceNames)
    (rt : Runtime) (session : XrSession) (getInfo : XrInputSourceLocalizedNameGetInfo)
    (capacity : Z) (buffer : bool) :
  localizedNameGetInfo_type getInfo = XR_TYPE_INPUT_SOURCE_LOCALIZED_NAME_GET_INFO →
  session_invalid rt session = false →
  0 ≤ capacity →
  getActionSide (getXrPath rt (sourcePath getInfo)) = -1 ∨ whichComponents getInfo = 0 →
  xrGetInputSourceLocalizedName names rt session getInfo capacity buffer
  = (XR_SUCCESS, Some 1,
     if negb (capacity =? 0) && buffer then BufferString "" else BufferUntouched).
Proof.
  intros Hty Hs Hcap Hcase. unfold xrGetInputSourceLocalizedName.
  rewrite Hty, Hs. rewrite bool_decide_eq_true_2 by reflexivity. simpl.
  assert (Hname : localizedName names rt getInfo = "").
  { unfold localizedName. destruct Hcase as [Hside|Hnone].
    - by rewrite Hside.
    - rewrite Hnone. simpl. by destruct (0 <=? _). }
  rewrite Hname. simpl. change (Z.of_nat 0) with 0.
  destruct (Z.ltb_spec capacity 0); [lia|]. rewrite andb_false_r.
  change (wrap32 (wrap32 0 + 1)) with 1.
  destruct (negb (capacity =? 0) && buffer) eqn:Hw; [|reflexivity].
  unfold sprintf_s. simpl. change (Z.of_nat 0) with 0.
  apply andb_prop in Hw as [Hc _]. apply negb_true_iff, Z.eqb_neq in Hc.
  destruct (Z.leb_spec (0 + 1) capacity); [reflexivity|lia].
Qed.

Lemma xrGetInputSourceLocalizedName_empty_name_witness :
  xrGetInputSourceLocalizedName example_names (after bound_session) 1
    {| localizedNameGetInfo_type := XR_TYPE_INPUT_SOURCE_LOCALIZED_NAME_GET_INFO;
       sourcePath := 5; whichComponents := 7 |} 16 true
  = (XR_SUCCESS, Some 1, if negb (16 =? 0) && true then BufferString "" else BufferUntouched).
Proof.
  refine (xrGetInputSourceLocalizedName_empty_name example_names (after bound_session) 1
            {| localizedNameGetInfo_type := XR_TYPE_INPUT_SOURCE_LOCALIZED_NAME_GET_INFO;
               sourcePath := 5; whichComponents := 7 |} 16 true _ _ _ _).
  - reflexivity.
  - reflexivity.
  - lia.
  - left. vm_compute. reflexivity.
Defined.

(** X28: the size convention of [xrGetInputSourceLocalizedName] for a name of
    [n] characters: capacity 0 asks for the size [n + 1]; a non-zero capacity
    below [n] is refused with SizeInsufficient; a capacity of at least
    [n + 1] gets the name; and a capacity of exactly [n], [n] not zero,
    is accepted although the buffer cannot hold the terminator. *)
Theorem xrGetInputSourceLocalizedName_size_convention (names : LocalizedSourceNames)
    (rt : Runtime) (session : XrSession) (getInfo : XrInputSourceLocalizedNameGetInfo)
    (capacity : Z) :
  localizedNameGetInfo_type getInfo = XR_TYPE_INPUT_SOURCE_LOCALIZED_NAME_GET_INFO →
  session_invalid rt session = false →
  Z.of_nat (String.length (localizedName names rt getInfo)) < 2 ^ 32 - 1 →
  xrGetInputSourceLocalizedName names rt session getInfo 0 true
  = (XR_SUCCESS, Some (Z.of_nat (String.length (localizedName names rt getInfo)) + 1),
     BufferUntouched)
  ∧ (0 < capacity ∧ capacity < Z.of_nat (String.length (localizedName names rt getInfo)) →
     xrGetInputSourceLocalizedName names rt session getInfo capacity true
     = (XR_ERROR_SIZE_INSUFFICIENT, None, BufferUntouched))
  ∧ (0 < capacity ∧ capacity = Z.of_nat (String.length (localizedName names rt getInfo)) →
     xrGetInputSourceLocalizedName names rt session getInfo capacity true
     = (XR_SUCCESS, Some (Z.of_nat (String.length (localizedName names rt getInfo)) + 1),
        BufferConstraintViolation))
  ∧ (Z.of_nat (String.length (localizedName names rt getInfo)) + 1 ≤ capacity →
     xrGetInputSourceLocalizedName names rt session getInfo capacity true
     = (XR_SUCCESS, Some (Z.of_nat (String.length (localizedName names rt getInfo)) + 1),
        BufferString (localizedName names rt getInfo))).
Proof.
  intros Hty Hs Hlen. unfold xrGetInputSourceLocalizedName.
  rewrite Hty, Hs. rewrite bool_decide_eq_true_2 by reflexivity. simpl.
  set (str := localizedName names rt getInfo) in *.
  unfold sprintf_s, wrap32.
  rewrite (Z.mod_small (Z.of_nat (String.length str))) by lia.
  rewrite Z.mod_small by lia.
  split; [reflexivity|].
  split; [|split]; intros Hc;
    (assert (Hz : (capacity =? 0) = false) by (apply Z.eqb_neq; lia));
    rewrite Hz; simpl;
    destruct (Z.ltb_spec capacity (Z.of_nat (String.length str))); try lia;
    try reflexivity;
    destruct (Z.leb_spec (Z.of_nat (String.length str) + 1) capacity); try lia;
    reflexivity.
Qed.

Lemma xrGetInputSourceLocalizedName_size_convention_witness :
  xrGetInputSourceLocalizedName example_names
    (after (bound_session
            ++ [SyncActions (device zero_InputState (Some "knuckles") None) 1
                  (sync_info [1])]))
    1 {| localizedNameGetInfo_type := XR_TYPE_INPUT_SOURCE_LOCALIZED_NAME_GET_INFO;
         sourcePath := 2; whichComponents := 1 |} 10 true
  = (XR_SUCCESS, Some 11, BufferConstraintViolation).
Proof.
  refine (proj1 (proj2 (proj2
            (xrGetInputSourceLocalizedName_size_convention example_names
               (after (bound_session
                       ++ [SyncActions (device zero_InputState (Some "knuckles") None) 1
                             (sync_info [1])]))
               1 {| localizedNameGetInfo_type := XR_TYPE_INPUT_SOURCE_LOCALIZED_NAME_GET_INFO;
                    sourcePath := 2; whichComponents := 1 |} 10 _ _ _))) _).
  - reflexivity.
  - reflexivity.
  - vm_compute. reflexivity.
  - vm_compute. split; reflexivity.
Defined.
